(** * The snapshot resource of terraform-provider-daytona

    A shallow embedding of [internal/resources] (the snapshot resource:
    Create / Read / Update / Delete / ImportState and the phase functions
    they sequence) together with the properties the specification states
    about it.

    Everything outside the repository (the platform API client, the Docker
    client, the clock, the cancellation context) is an environment [Env];
    every call the code makes is appended to a trace, and the answer of a
    call is the environment's answer at the current tick, i.e. the number
    of calls made so far.  Unbounded [for] loops take fuel.  Closing the
    body of an HTTP response is not a call of the model. *)

From Stdlib Require Import ZArith List String Ascii Bool Arith Lia.
Import ListNotations.
Local Open Scope list_scope.
Local Open Scope string_scope.

(** ** Values of the configuration framework

    [types.String], [types.Int32], [types.Bool] and [types.Float32] are
    three-state: null, unknown (not yet determined) or a known value. *)

Inductive tfval (A : Type) : Type :=
| Null
| Unknown
| Known (a : A).
Arguments Null {A}.
Arguments Unknown {A}.
Arguments Known {A} a.

(** [v.Equal(o)]: same state and, when known, same value. *)
Definition Equal {A} (eqb : A -> A -> bool) (v o : tfval A) : bool :=
  match v, o with
  | Null, Null => true
  | Unknown, Unknown => true
  | Known a, Known b => eqb a b
  | _, _ => false
  end.

Definition StringEqual := Equal String.eqb.
Definition Int32Equal := Equal Z.eqb.

Definition ValueString (v : tfval string) : string :=
  match v with Known s => s | _ => "" end.

Definition ValueInt32 (v : tfval Z) : Z :=
  match v with Known z => z | _ => 0%Z end.

Definition ValueBool (v : tfval bool) : bool :=
  match v with Known b => b | _ => false end.

Definition IsNull {A} (v : tfval A) : bool :=
  match v with Null => true | _ => false end.

Definition IsUnknown {A} (v : tfval A) : bool :=
  match v with Unknown => true | _ => false end.

(** [types.StringPointerValue], [types.Float32PointerValue]: a nil pointer
    is null. *)
Definition PointerValue {A} (p : option A) : tfval A :=
  match p with Some a => Known a | None => Null end.

(** ** Diagnostics *)

Inductive Severity : Type := SeverityError | SeverityWarning.

Record Diagnostic : Type := mkDiag
  { severity : Severity; summary : string; detail : string }.

Definition Diagnostics := list Diagnostic.

Definition severity_eqb (a b : Severity) : bool :=
  match a, b with
  | SeverityError, SeverityError => true
  | SeverityWarning, SeverityWarning => true
  | _, _ => false
  end.

Definition diag_eqb (a b : Diagnostic) : bool :=
  severity_eqb (severity a) (severity b)
  && String.eqb (summary a) (summary b)
  && String.eqb (detail a) (detail b).

Definition Contains (diags : Diagnostics) (d : Diagnostic) : bool :=
  existsb (diag_eqb d) diags.

(** [diags.Append(in...)] adds the diagnostics that are not already there. *)
Definition Append (diags : Diagnostics) (input : Diagnostics) : Diagnostics :=
  fold_left (fun acc d => if Contains acc d then acc else (acc ++ [d])%list)
            input diags.

Definition AddError (diags : Diagnostics) (s d : string) : Diagnostics :=
  Append diags [mkDiag SeverityError s d].

Definition AddWarning (diags : Diagnostics) (s d : string) : Diagnostics :=
  Append diags [mkDiag SeverityWarning s d].

Definition is_error (d : Diagnostic) : bool :=
  severity_eqb (severity d) SeverityError.

Definition HasError (diags : Diagnostics) : bool := existsb is_error diags.

(** ** Strings: [strings.Split] with a one-character separator *)

Fixpoint Split (sep : ascii) (s : string) : list string :=
  match s with
  | EmptyString => [EmptyString]
  | String c rest =>
      if Ascii.eqb c sep then EmptyString :: Split sep rest
      else match Split sep rest with
           | [] => [String c EmptyString]
           | h :: t => String c h :: t
           end
  end.

Definition colon : ascii := ":"%char.
Definition slash : ascii := "/"%char.

(** The words of the specification, used to state what the split-based
    code computes: the portion of a string before the first separator, and
    its last separator-delimited segment. *)
Fixpoint before_first (sep : ascii) (s : string) : string :=
  match s with
  | EmptyString => EmptyString
  | String c rest =>
      if Ascii.eqb c sep then EmptyString
      else String c (before_first sep rest)
  end.

Fixpoint occurs (sep : ascii) (s : string) : bool :=
  match s with
  | EmptyString => false
  | String c rest => Ascii.eqb c sep || occurs sep rest
  end.

Fixpoint last_segment (sep : ascii) (s : string) : string :=
  match s with
  | EmptyString => EmptyString
  | String c rest =>
      if occurs sep rest then last_segment sep rest
      else if Ascii.eqb c sep then rest
      else String c rest
  end.

(** ** Time and [Time.Format]

    A wall-clock reading by its civil fields; [zoneOffset] is in seconds
    east of UTC. *)

Record Time : Type := mkTime
  { year : Z; month : nat; day : nat;
    hour : nat; minute : nat; second : nat;
    zoneOffset : Z }.

Definition digit (d : nat) : ascii := ascii_of_nat (48 + d).

(** The [w] low decimal digits of [u], most significant first. *)
Fixpoint fixed_digits (w : nat) (u : nat) : string :=
  match w with
  | O => EmptyString
  | S w' => fixed_digits w' (u / 10) ++ String (digit (u mod 10)) EmptyString
  end.

Fixpoint ndigits (fuel : nat) (u : nat) : nat :=
  match fuel with
  | O => 1
  | S f => if (u <? 10)%nat then 1 else S (ndigits f (u / 10))
  end.

Definition num_digits (u : nat) : nat := ndigits u u.

(** [appendInt(b, x, width)] of package time: the decimal form of [x],
    a minus sign first when negative, zero-padded to [width] digits. *)
Definition appendInt (x : Z) (width : nat) : string :=
  let u := Z.abs_nat x in
  (if (x <? 0)%Z then "-" else "")
  ++ fixed_digits (Nat.max width (num_digits u)) u.

(** [t.Format("20060102150405")]. *)
Definition Format_20060102150405 (t : Time) : string :=
  appendInt (year t) 4
  ++ appendInt (Z.of_nat (month t)) 2
  ++ appendInt (Z.of_nat (day t)) 2
  ++ appendInt (Z.of_nat (hour t)) 2
  ++ appendInt (Z.of_nat (minute t)) 2
  ++ appendInt (Z.of_nat (second t)) 2.

(** The zone suffix of the layout element [Z07:00]. *)
Definition format_zone (offset : Z) : string :=
  if (offset =? 0)%Z then "Z"
  else
    let zone := Z.quot offset 60 in
    (if (zone <? 0)%Z then "-" else "+")
    ++ appendInt (Z.quot (Z.abs zone) 60) 2
    ++ ":"
    ++ appendInt (Z.rem (Z.abs zone) 60) 2.

(** [t.Format("2006-01-02T15:04:05Z07:00")]. *)
Definition Format_RFC3339 (t : Time) : string :=
  appendInt (year t) 4 ++ "-"
  ++ appendInt (Z.of_nat (month t)) 2 ++ "-"
  ++ appendInt (Z.of_nat (day t)) 2 ++ "T"
  ++ appendInt (Z.of_nat (hour t)) 2 ++ ":"
  ++ appendInt (Z.of_nat (minute t)) 2 ++ ":"
  ++ appendInt (Z.of_nat (second t)) 2
  ++ format_zone (zoneOffset t).

Definition is_digit (c : ascii) : bool :=
  (48 <=? nat_of_ascii c)%nat && (nat_of_ascii c <=? 57)%nat.

Fixpoint all_digits (s : string) : bool :=
  match s with
  | EmptyString => true
  | String c rest => is_digit c && all_digits rest
  end.

(** The number a string of decimal digits denotes, read from the left:
    the reading of a timestamp field that the specification's "numeric
    string" calls for. *)
Fixpoint decimal_from (acc : nat) (s : string) : nat :=
  match s with
  | EmptyString => acc
  | String c rest => decimal_from (10 * acc + (nat_of_ascii c - 48)) rest
  end.

Definition decimal_value (s : string) : nat := decimal_from 0 s.

(** A clock reading whose fields each fit their layout element. *)
Definition civil (t : Time) : Prop :=
  (0 <= year t <= 9999)%Z /\
  (1 <= month t <= 12 /\ 1 <= day t <= 31 /\
   hour t <= 23 /\ minute t <= 59 /\ second t <= 59)%nat.

(** ** The platform API client

    The generated client package [apiclient] is not part of the repository;
    its records are modelled from section 6 of the specification.  [F] is
    the numeric type of the resource fields, which the code converts with
    [int32(...)]. *)

Module apiclient.

(** Modelled from the spec: the enumerated remote states of a snapshot
    (section 6: [active], [error], [build_failed], anything else being in
    progress), whose declaration is in the client package. *)
Definition SnapshotState := string.
Definition SNAPSHOTSTATE_ACTIVE : SnapshotState := "active".
Definition SNAPSHOTSTATE_ERROR : SnapshotState := "error".
Definition SNAPSHOTSTATE_BUILD_FAILED : SnapshotState := "build_failed".

(** Modelled from the spec: the record [GetSnapshot] returns (section 6:
    id, name, state, cpu, gpu, mem, disk, createdAt and the optional
    organizationId, imageName, size, errorReason), whose declaration is in
    the client package.  An optional field is an [option]: [IsSet] and a
    non-nil pointer are [Some]. *)
Record SnapshotDto (F : Type) : Type := mkSnapshotDto
  { Id : string;
    Name : string;
    State : SnapshotState;
    Cpu : F;
    Gpu : F;
    Mem : F;
    Disk : F;
    CreatedAt : Time;
    OrganizationId : option string;
    ImageName : option string;
    Size : option F;
    ErrorReason : option string }.
Arguments mkSnapshotDto {F}.
Arguments Id {F}.
Arguments Name {F}.
Arguments State {F}.
Arguments Cpu {F}.
Arguments Gpu {F}.
Arguments Mem {F}.
Arguments Disk {F}.
Arguments CreatedAt {F}.
Arguments OrganizationId {F}.
Arguments ImageName {F}.
Arguments Size {F}.
Arguments ErrorReason {F}.

(** The request of [CreateSnapshot]; an omitted resource field lets the
    platform apply its default. *)
Record CreateSnapshot : Type := mkCreateSnapshot
  { req_Name : string;
    req_ImageName : option string;
    req_Cpu : option Z;
    req_Memory : option Z;
    req_Disk : option Z }.

Definition NewCreateSnapshot (name : string) : CreateSnapshot :=
  mkCreateSnapshot name None None None None.

(** Modelled from the spec: the record [GetTransientPushAccess] returns
    (section 6: username, secret, registryUrl, project). *)
Record RegistryPushAccessDto : Type := mkPushAccess
  { Username : string;
    Secret : string;
    RegistryUrl : string;
    Project : string }.

(** What [Execute()] hands back: a value, or an error together with the
    status code of the HTTP response when there was one. *)
Inductive Result (A : Type) : Type :=
| Ok (a : A)
| Err (status : option Z) (err : string).
Arguments Ok {A} a.
Arguments Err {A} status err.

(** [err != nil && httpResp != nil && httpResp.StatusCode == 404]. *)
Definition notFound {A} (r : Result A) : bool :=
  match r with
  | Err (Some code) _ => (code =? 404)%Z
  | _ => false
  end.

End apiclient.

Import apiclient(Result, Ok, Err, notFound).

(** [registry.AuthConfig] of the Docker client. *)
Record AuthConfig : Type := mkAuthConfig
  { auth_Username : string; auth_Password : string; auth_ServerAddress : string }.

(** ** The record the resource manages *)

Record SnapshotResourceModel (F : Type) : Type := mkModel
  { Id : tfval string;
    Name : tfval string;
    ImageName : tfval string;
    RemoteImageName : tfval string;
    OrganizationId : tfval string;
    Size : tfval F;
    Cpu : tfval Z;
    Gpu : tfval Z;
    Memory : tfval Z;
    Disk : tfval Z;
    CreatedAt : tfval string;
    KeepRemotely : tfval bool }.
Arguments mkModel {F}.
Arguments Id {F}.
Arguments Name {F}.
Arguments ImageName {F}.
Arguments RemoteImageName {F}.
Arguments OrganizationId {F}.
Arguments Size {F}.
Arguments Cpu {F}.
Arguments Gpu {F}.
Arguments Memory {F}.
Arguments Disk {F}.
Arguments CreatedAt {F}.
Arguments KeepRemotely {F}.

(** ** Calls, traces and the environment *)

Inductive Event : Type :=
| EvGetSnapshot (nameOrId : string)
| EvRemoveSnapshot (id : string)
| EvCreateSnapshot (req : apiclient.CreateSnapshot)
| EvGetTransientPushAccess
| EvNewDockerClient
| EvDockerClose
| EvImageInspect (ref : string)
| EvImageTag (source target : string)
| EvImagePush (ref auth : string)
| EvCopyPushOutput
| EvPushReaderClose
| EvDistributionInspect (ref auth : string)
| EvImageRemove (ref : string)
| EvTimeNow
| EvSleep
| EvLog (msg : string).

Definition Trace := list Event.

(** The calls that leave the process: platform API, Docker engine and
    registry. *)
Definition is_remote_call (e : Event) : bool :=
  match e with
  | EvTimeNow | EvSleep | EvLog _ => false
  | _ => true
  end.

(** The environment.  A Docker call answers [None] on success and
    [Some err] on failure; the first argument of every answer is the tick.
    The pure library functions the code relies on and that are not spelled
    out here ([int32] conversion, [%q] formatting, [json.Marshal],
    [base64.URLEncoding.EncodeToString]) are fields too. *)
Record Env (F : Type) : Type := mkEnv
  { ctxDone : nat -> bool;
    ctxErr : nat -> string;
    getSnapshot : nat -> string -> Result (apiclient.SnapshotDto F);
    removeSnapshot : nat -> string -> Result unit;
    apiCreateSnapshot : nat -> apiclient.CreateSnapshot -> Result unit;
    getTransientPushAccess : nat -> Result apiclient.RegistryPushAccessDto;
    newDockerClient : nat -> option string;
    imageInspect : nat -> string -> option string;
    imageTag : nat -> string -> string -> option string;
    imagePush : nat -> string -> string -> option string;
    copyPushOutput : nat -> option string;
    distributionInspect : nat -> string -> string -> option string;
    imageRemove : nat -> string -> option string;
    timeNow : nat -> Time;
    int32 : F -> Z;
    fmtQ : string -> string;
    jsonMarshal : AuthConfig -> string + string;
    base64URL : string -> string }.
Arguments mkEnv {F}.
Arguments ctxDone {F}.
Arguments ctxErr {F}.
Arguments getSnapshot {F}.
Arguments removeSnapshot {F}.
Arguments apiCreateSnapshot {F}.
Arguments getTransientPushAccess {F}.
Arguments newDockerClient {F}.
Arguments imageInspect {F}.
Arguments imageTag {F}.
Arguments imagePush {F}.
Arguments copyPushOutput {F}.
Arguments distributionInspect {F}.
Arguments imageRemove {F}.
Arguments timeNow {F}.
Arguments int32 {F}.
Arguments fmtQ {F}.
Arguments jsonMarshal {F}.
Arguments base64URL {F}.

(** ** Computations: trace passing, [None] when the fuel runs out *)

Definition M (A : Type) : Type := Trace -> option (A * Trace).

Definition ret {A} (a : A) : M A := fun tr => Some (a, tr).

Definition bind {A B} (m : M A) (k : A -> M B) : M B :=
  fun tr => match m tr with
            | Some (a, tr') => k a tr'
            | None => None
            end.

Definition out_of_fuel {A} : M A := fun _ => None.

Notation "x <- m ;; k" := (bind m (fun x => k))
  (at level 61, m at next level, right associativity).
Notation "' p <- m ;; k" := (bind m (fun x => let p := x in k))
  (at level 61, p pattern, m at next level, right associativity).
Notation "m ;;; k" := (bind m (fun _ => k))
  (at level 61, right associativity).

(** A call: the environment answers at the current tick and the call is
    recorded. *)
Definition call {A} (ev : Event) (answer : nat -> A) : M A :=
  fun tr => Some (answer (List.length tr), (tr ++ [ev])%list).

(** Reading the context does not call anything. *)
Definition peek {A} (answer : nat -> A) : M A :=
  fun tr => Some (answer (List.length tr), tr).

Definition tflogInfo (msg : string) : M unit := call (EvLog msg) (fun _ => tt).
Definition timeSleep : M unit := call EvSleep (fun _ => tt).

(** ** The phase functions *)

Section Resource.

Context {F : Type}.
Variable env : Env F.

Definition Model := SnapshotResourceModel F.
Definition SnapshotDto := apiclient.SnapshotDto F.

(** The three diagnostics lists a phase of the orchestrator returns:
    [(infos, warns, errors)]. *)
Definition Diags3 : Type := Diagnostics * Diagnostics * Diagnostics.

Definition GetSnapshot (nameOrId : string) : M (Result SnapshotDto) :=
  call (EvGetSnapshot nameOrId) (fun t => getSnapshot env t nameOrId).

Definition RemoveSnapshot (id : string) : M (Result unit) :=
  call (EvRemoveSnapshot id) (fun t => removeSnapshot env t id).

Definition ctxIsDone : M bool := peek (ctxDone env).

(** *** Stale-attempt reconciler *)

(** The confirmation loop of [maybeCleanupExistingCreationAttempt]. *)
Fixpoint cleanupLoop (fuel : nat) (id : string) (warns errors : Diagnostics)
  : M (Diagnostics * Diagnostics) :=
  match fuel with
  | O => out_of_fuel
  | S fuel' =>
      done <- ctxIsDone ;;
      if done then ret (warns, errors)
      else
        r <- GetSnapshot id ;;
        if notFound r then
          tflogInfo "Snapshot successfully deleted" ;;;
          ret (warns, errors)
        else
          timeSleep ;;;
          cleanupLoop fuel' id warns errors
  end.

Definition maybeCleanupExistingCreationAttempt (fuel : nat) (snapshotName : string)
  : M (Diagnostics * Diagnostics) :=
  let warns : Diagnostics := [] in
  let errors : Diagnostics := [] in
  r <- GetSnapshot snapshotName ;;
  match r with
  | Err _ err =>
      if notFound r then ret (warns, errors)
      else ret (warns,
                AddError errors "Snapshot Check"
                  ("Unable to check for if snapshot exists: " ++ err))
  | Ok existingSnapshot =>
      tflogInfo "Found existing snapshot, deleting it" ;;;
      rm <- RemoveSnapshot (apiclient.Id existingSnapshot) ;;
      let warns :=
        match rm with
        | Err _ err =>
            AddWarning warns "Cleanup Warning"
              ("Failed to delete existing failed snapshot "
               ++ fmtQ env snapshotName ++ ": " ++ err)
        | Ok _ => warns
        end in
      cleanupLoop fuel (apiclient.Id existingSnapshot) warns errors
  end.

(** *** Image publisher *)

(** Lines 459-464 of [pushImageToRegistry]: the target reference. *)
Definition targetImageName (registryUrl project localImageName : string)
    (now : Time) : string :=
  let localImageParts := Split colon localImageName in
  let localImageRepo := hd "" localImageParts in
  let repoParts := Split slash localImageRepo in
  let imageName := last repoParts "" in
  let timestamp := Format_20060102150405 now in
  registryUrl ++ "/" ++ project ++ "/" ++ imageName ++ ":" ++ timestamp.

(** The manifest-readiness loop of [pushImageToRegistry]. *)
Fixpoint manifestLoop (fuel : nat) (targetImage auth : string)
    (warns errors : Diagnostics) : M (string * Diagnostics * Diagnostics) :=
  match fuel with
  | O => out_of_fuel
  | S fuel' =>
      done <- ctxIsDone ;;
      if done then
        cause <- peek (ctxErr env) ;;
        ret (targetImage, warns,
             AddError errors "Image Availability Error"
               ("Cancelled during waiting for image to become available: "
                ++ cause))
      else
        err <- call (EvDistributionInspect targetImage auth)
                    (fun t => distributionInspect env t targetImage auth) ;;
        match err with
        | None => ret (targetImage, warns, errors)
        | Some _ =>
            tflogInfo "Waiting for the image to become available" ;;;
            timeSleep ;;;
            manifestLoop fuel' targetImage auth warns errors
        end
  end.

Definition pushImageToRegistry (fuel : nat) (localImageName : string)
  : M (string * Diagnostics * Diagnostics) :=
  let targetImage := "" in
  let warns : Diagnostics := [] in
  let errors : Diagnostics := [] in
  tok <- call EvGetTransientPushAccess (getTransientPushAccess env) ;;
  match tok with
  | Err _ err =>
      ret (targetImage, warns,
           AddError errors "API Error"
             ("Unable to get push access token: " ++ err))
  | Ok tokenResponse =>
      match jsonMarshal env
              (mkAuthConfig (apiclient.Username tokenResponse)
                            (apiclient.Secret tokenResponse)
                            (apiclient.RegistryUrl tokenResponse)) with
      | inr err =>
          ret (targetImage, warns,
               AddError errors "Auth Error"
                 ("Unable to encode docker auth config: " ++ err))
      | inl encodedAuth =>
          ins <- call (EvImageInspect localImageName)
                      (fun t => imageInspect env t localImageName) ;;
          match ins with
          | Some err =>
              ret (targetImage, warns,
                   AddError errors "Image Not Found"
                     ("Local image " ++ fmtQ env localImageName
                      ++ " not found: " ++ err))
          | None =>
              now <- call EvTimeNow (timeNow env) ;;
              let targetImage :=
                targetImageName (apiclient.RegistryUrl tokenResponse)
                                (apiclient.Project tokenResponse)
                                localImageName now in
              tg <- call (EvImageTag localImageName targetImage)
                         (fun t => imageTag env t localImageName targetImage) ;;
              match tg with
              | Some err =>
                  ret (targetImage, warns,
                       AddError errors "Tag Error"
                         ("Unable to tag image: " ++ err))
              | None =>
                  let auth := base64URL env encodedAuth in
                  ps <- call (EvImagePush targetImage auth)
                             (fun t => imagePush env t targetImage auth) ;;
                  match ps with
                  | Some err =>
                      ret (targetImage, warns,
                           AddError errors "Push Error"
                             ("Unable to push image: " ++ err))
                  | None =>
                      (* defer pushReader.Close() *)
                      res <-
                        (cp <- call EvCopyPushOutput (copyPushOutput env) ;;
                         match cp with
                         | Some err =>
                             ret (targetImage, warns,
                                  AddError errors "Push Error"
                                    ("Error during image push: " ++ err))
                         | None =>
                             manifestLoop fuel targetImage auth warns errors
                         end) ;;
                      call EvPushReaderClose (fun _ => tt) ;;;
                      ret res
                  end
              end
          end
      end
  end.

(** *** Snapshot registrar *)

Definition registerSnapshot (data : Model) (targetImage : string)
  : M (Diagnostics * Diagnostics) :=
  let warns : Diagnostics := [] in
  let errors : Diagnostics := [] in
  let createRequest := apiclient.NewCreateSnapshot (ValueString (Name data)) in
  let createRequest :=
    apiclient.mkCreateSnapshot
      (apiclient.req_Name createRequest)
      (Some targetImage)
      (if IsNull (Cpu data) then None else Some (ValueInt32 (Cpu data)))
      (if IsNull (Memory data) then None else Some (ValueInt32 (Memory data)))
      (if IsNull (Disk data) then None else Some (ValueInt32 (Disk data))) in
  r <- call (EvCreateSnapshot createRequest)
            (fun t => apiCreateSnapshot env t createRequest) ;;
  match r with
  | Err _ err =>
      ret (warns,
           AddError errors "Client Error"
             ("Unable to create snapshot, got error: " ++ err))
  | Ok _ => ret (warns, errors)
  end.

(** *** Availability poller *)

Definition state_is (s : apiclient.SnapshotState) (snapshot : SnapshotDto) : bool :=
  String.eqb (apiclient.State snapshot) s.

Fixpoint availabilityLoop (fuel : nat) (snapshotName : string)
    (warns errs : Diagnostics)
  : M (option SnapshotDto * Diagnostics * Diagnostics) :=
  match fuel with
  | O => out_of_fuel
  | S fuel' =>
      done <- ctxIsDone ;;
      if done then
        cause <- peek (ctxErr env) ;;
        ret (None, warns,
             AddError errs "Snapshot Availability Error"
               ("Cancelled during waiting for snapshot to become available: "
                ++ cause))
      else
        r <- GetSnapshot snapshotName ;;
        match r with
        | Err _ err =>
            ret (None, warns,
                 AddError errs "Snapshot Availability Error"
                   ("Unable to fetch snapshot: " ++ err))
        | Ok snapshot =>
            if state_is apiclient.SNAPSHOTSTATE_ACTIVE snapshot then
              ret (Some snapshot, warns, errs)
            else if state_is apiclient.SNAPSHOTSTATE_ERROR snapshot
                    || state_is apiclient.SNAPSHOTSTATE_BUILD_FAILED snapshot then
              match apiclient.ErrorReason snapshot with
              | None =>
                  ret (Some snapshot, warns,
                       AddError errs "Snapshot Availability Error"
                         "Snapshot processing failed with unknown reason")
              | Some reason =>
                  ret (Some snapshot, warns,
                       AddError errs "Snapshot Availability Error"
                         ("Snapshot processing failed: " ++ reason))
              end
            else
              tflogInfo "Waiting for the snapshot to be processed" ;;;
              timeSleep ;;;
              availabilityLoop fuel' snapshotName warns errs
        end
  end.

Definition ensureSnapshotAvailable (fuel : nat) (snapshotName : string)
  : M (option SnapshotDto * Diagnostics * Diagnostics) :=
  availabilityLoop fuel snapshotName [] [].

(** *** Read *)

(** Lines 586-603 of [readSnapshot]: the fields rewritten from the fetched
    snapshot. *)
Definition refreshFrom (data : Model) (snapshot : SnapshotDto) : Model :=
  mkModel
    (Id data)
    (Known (apiclient.Name snapshot))
    (ImageName data)
    (match apiclient.ImageName snapshot with
     | Some n => Known n
     | None => RemoteImageName data
     end)
    (match apiclient.OrganizationId snapshot with
     | Some o => Known o
     | None => OrganizationId data
     end)
    (match apiclient.Size snapshot with
     | Some _ => PointerValue (apiclient.Size snapshot)
     | None => Size data
     end)
    (Known (int32 env (apiclient.Cpu snapshot)))
    (Known (int32 env (apiclient.Gpu snapshot)))
    (Known (int32 env (apiclient.Mem snapshot)))
    (Known (int32 env (apiclient.Disk snapshot)))
    (Known (Format_RFC3339 (apiclient.CreatedAt snapshot)))
    (KeepRemotely data).

Definition readSnapshot (data : Model) : M (Model * Diags3) :=
  let infos : Diagnostics := [] in
  let warns : Diagnostics := [] in
  let errors : Diagnostics := [] in
  r <- GetSnapshot (ValueString (Id data)) ;;
  match r with
  | Err _ err =>
      if notFound r then ret (data, (infos, warns, errors))
      else ret (data,
                (infos, warns,
                 AddError errors "Client Error"
                   ("Unable to read snapshot: " ++ err)))
  | Ok snapshot => ret (refreshFrom data snapshot, (infos, warns, errors))
  end.

(** *** Delete *)

Fixpoint deletionLoop (fuel : nat) (id : string)
    (infos warns errors : Diagnostics) : M Diags3 :=
  match fuel with
  | O => out_of_fuel
  | S fuel' =>
      done <- ctxIsDone ;;
      if done then
        cause <- peek (ctxErr env) ;;
        ret (infos, warns,
             AddError errors "Deletion Error"
               ("Cancelled while waiting for snapshot deletion: " ++ cause))
      else
        r <- GetSnapshot id ;;
        match r with
        | Err _ err =>
            if notFound r then
              tflogInfo "Snapshot successfully deleted" ;;;
              ret (infos, warns, errors)
            else
              ret (infos, warns,
                   AddError errors "Deletion Verification Error"
                     ("Unable to verify snapshot deletion: " ++ err))
        | Ok _ =>
            tflogInfo "Waiting for snapshot to be deleted" ;;;
            timeSleep ;;;
            deletionLoop fuel' id infos warns errors
        end
  end.

Definition deleteSnapshot (fuel : nat) (data : Model) : M Diags3 :=
  let infos : Diagnostics := [] in
  let warns : Diagnostics := [] in
  let errors : Diagnostics := [] in
  r <- RemoveSnapshot (ValueString (Id data)) ;;
  match r with
  | Err _ err =>
      if notFound r then ret (infos, warns, errors)
      else ret (infos, warns,
                AddError errors "Client Error"
                  ("Unable to delete snapshot, got error: " ++ err))
  | Ok _ => deletionLoop fuel (ValueString (Id data)) infos warns errors
  end.

(** *** Create *)

(** Lines 371-387 of [createSnapshot]: the record populated from the
    poller's result. *)
Definition populateFrom (data : Model) (snapshot : SnapshotDto) : Model :=
  mkModel
    (Known (apiclient.Id snapshot))
    (Known (apiclient.Name snapshot))
    (ImageName data)
    (match apiclient.ImageName snapshot with
     | Some _ => PointerValue (apiclient.ImageName snapshot)
     | None => RemoteImageName data
     end)
    (match apiclient.OrganizationId snapshot with
     | Some _ => PointerValue (apiclient.OrganizationId snapshot)
     | None => OrganizationId data
     end)
    (match apiclient.Size snapshot with
     | Some _ => PointerValue (apiclient.Size snapshot)
     | None => Size data
     end)
    (Known (int32 env (apiclient.Cpu snapshot)))
    (Known (int32 env (apiclient.Gpu snapshot)))
    (Known (int32 env (apiclient.Mem snapshot)))
    (Known (int32 env (apiclient.Disk snapshot)))
    (Known (Format_RFC3339 (apiclient.CreatedAt snapshot)))
    (KeepRemotely data).

(** The local variables of [createSnapshot] that its deferred closure and
    its results are about.  [warns] and [errs] are named results;
    [warnings] is a plain local that each phase's warnings pass through
    before being appended to [warns]. *)
Record CreateFrame : Type := mkFrame
  { fr_data : Model;
    fr_warns : Diagnostics;
    fr_errs : Diagnostics;
    fr_warnings : Diagnostics }.

(** Lines 357-389 of [createSnapshot]: what runs between the registration
    of the untagging closure and the function's return. *)
Definition createSnapshotTail (fuel : nat) (data : Model) (targetImage : string)
    (warns errs : Diagnostics) : M CreateFrame :=
  '(warnings, errors) <- registerSnapshot data targetImage ;;
  let warns := Append warns warnings in
  let errs := Append errs errors in
  if HasError errs then ret (mkFrame data warns errs warnings)
  else
    '(snapshot, warnings, errors) <- ensureSnapshotAvailable fuel (ValueString (Name data)) ;;
    let warns := Append warns warnings in
    let errs := Append errs errors in
    if HasError errs then ret (mkFrame data warns errs warnings)
    else
      match snapshot with
      | Some snapshot => ret (mkFrame (populateFrom data snapshot) warns errs warnings)
      | None => ret (mkFrame data warns errs warnings)
      end.

(** Lines 350-355: the deferred closure.  It removes the tag and, when that
    fails, adds its warning to the local [warnings]. *)
Definition untagDeferred (targetImage : string) (fr : CreateFrame) : M CreateFrame :=
  err <- call (EvImageRemove targetImage)
              (fun t => imageRemove env t targetImage) ;;
  match err with
  | Some e =>
      ret (mkFrame (fr_data fr) (fr_warns fr) (fr_errs fr)
             (AddWarning (fr_warnings fr) "Cleanup Warning"
                ("Failed to remove tagged image " ++ targetImage ++ ": " ++ e)))
  | None => ret fr
  end.

(** The results of [createSnapshot] are its named results [infos], [warns]
    and [errs], read after the deferred calls have run. *)
Definition frameResults (fr : CreateFrame) : Model * Diags3 :=
  (fr_data fr, ([], fr_warns fr, fr_errs fr)).

Definition createSnapshot (fuel : nat) (data : Model) : M (Model * Diags3) :=
  let warns : Diagnostics := [] in
  let errs : Diagnostics := [] in
  '(warnings, errors) <-
     maybeCleanupExistingCreationAttempt fuel (ValueString (Name data)) ;;
  let warns := Append warns warnings in
  let errs := Append errs errors in
  if HasError errs then ret (frameResults (mkFrame data warns errs warnings))
  else
    dc <- call EvNewDockerClient (newDockerClient env) ;;
    match dc with
    | Some err =>
        ret (frameResults
               (mkFrame data warns
                  (AddError errs "Docker Client Error"
                     ("Unable to create Docker client: " ++ err))
                  warnings))
    | None =>
        (* defer dockerClient.Close() *)
        fr <-
          ('(targetImage, warnings, errors) <-
              pushImageToRegistry fuel (ValueString (ImageName data)) ;;
           let warns := Append warns warnings in
           let errs := Append errs errors in
           if HasError errs then ret (mkFrame data warns errs warnings)
           else
             (* defer func() { ... ImageRemove ... } *)
             fr <- createSnapshotTail fuel data targetImage warns errs ;;
             untagDeferred targetImage fr) ;;
        call EvDockerClose (fun _ => tt) ;;;
        ret (frameResults fr)
    end.

(** ** The lifecycle entry points

    Each takes the decoded record(s) of the request and returns the
    diagnostics of the response and, when [resp.State.Set] is reached, the
    record handed to it.  Decoding the request and encoding the state are
    the framework's and are taken to add no diagnostic. *)

Definition appendPhase (diags : Diagnostics) (d : Diags3) : Diagnostics :=
  let '(infos, warns, errors) := d in
  Append (Append (Append diags infos) warns) errors.

Definition persistUnlessError (diags : Diagnostics) (data : Model)
  : Diagnostics * option Model :=
  if HasError diags then (diags, None) else (diags, Some data).

Definition Create (fuel : nat) (plan : Model) : M (Diagnostics * option Model) :=
  '(data, d) <- createSnapshot fuel plan ;;
  ret (persistUnlessError (appendPhase [] d) data).

Definition Read (state : Model) : M (Diagnostics * option Model) :=
  '(data, d) <- readSnapshot state ;;
  ret (persistUnlessError (appendPhase [] d) data).

Definition shouldRecreate (data stateData : Model) : bool :=
  (negb (StringEqual (ImageName data) (ImageName stateData))
   && negb (String.eqb (ValueString (ImageName stateData)) ""
            && negb (String.eqb (ValueString (ImageName data)) "")))
  || negb (StringEqual (Name data) (Name stateData))
  || negb (Int32Equal (Cpu data) (Cpu stateData))
  || negb (Int32Equal (Memory data) (Memory stateData))
  || negb (Int32Equal (Disk data) (Disk stateData)).

Definition withId (data : Model) (v : tfval string) : Model :=
  mkModel v (Name data) (ImageName data) (RemoteImageName data)
    (OrganizationId data) (Size data) (Cpu data) (Gpu data) (Memory data)
    (Disk data) (CreatedAt data) (KeepRemotely data).

Definition withName (data : Model) (v : tfval string) : Model :=
  mkModel (Id data) v (ImageName data) (RemoteImageName data)
    (OrganizationId data) (Size data) (Cpu data) (Gpu data) (Memory data)
    (Disk data) (CreatedAt data) (KeepRemotely data).

(** The replacement branch of [Update]: delete the old snapshot unless
    [keep_remotely] is set on the plan, then create. *)
Definition recreate (fuel : nat) (data stateData : Model)
  : M (Diagnostics * option Model) :=
  let diags : Diagnostics := [] in
  diags <-
    (if negb (ValueBool (KeepRemotely data)) then
       d <- deleteSnapshot fuel stateData ;;
       ret (appendPhase diags d)
     else
       tflogInfo "Skipping old snapshot deletion during recreation due to keep_remotely=true" ;;;
       ret diags) ;;
  if HasError diags then ret (diags, None)
  else
    '(data, d) <- createSnapshot fuel data ;;
    ret (persistUnlessError (appendPhase diags d) data).

(** The in-place branch of [Update]: carry over the undetermined id and
    name, then refresh. *)
Definition refreshInPlace (data stateData : Model)
  : M (Diagnostics * option Model) :=
  let data := if IsUnknown (Id data) then withId data (Id stateData) else data in
  let data := if IsUnknown (Name data) then withName data (Name stateData) else data in
  '(data, d) <- readSnapshot data ;;
  ret (persistUnlessError (appendPhase [] d) data).

Definition Update (fuel : nat) (plan state : Model) : M (Diagnostics * option Model) :=
  if shouldRecreate plan state then recreate fuel plan state
  else refreshInPlace plan state.

Definition Delete (fuel : nat) (state : Model) : M Diagnostics :=
  if ValueBool (KeepRemotely state) then
    tflogInfo "Skipping snapshot deletion due to keep_remotely=true" ;;;
    ret []
  else
    d <- deleteSnapshot fuel state ;;
    ret (appendPhase [] d).

Definition ImportState (snapshotID : string) : M (Diagnostics * option Model) :=
  r <- GetSnapshot snapshotID ;;
  match r with
  | Err _ err =>
      if notFound r then
        ret (AddError [] "Snapshot Not Found"
               ("Snapshot with ID/name " ++ fmtQ env snapshotID ++ " not found"),
             None)
      else
        ret (AddError [] "Import Error"
               ("Unable to fetch snapshot " ++ fmtQ env snapshotID ++ ": " ++ err),
             None)
  | Ok snapshot =>
      ret ([],
           Some (mkModel
                   (Known (apiclient.Id snapshot))
                   (Known (apiclient.Name snapshot))
                   (Known "")
                   (PointerValue (apiclient.ImageName snapshot))
                   (PointerValue (apiclient.OrganizationId snapshot))
                   (PointerValue (apiclient.Size snapshot))
                   (Known (int32 env (apiclient.Cpu snapshot)))
                   (Known (int32 env (apiclient.Gpu snapshot)))
                   (Known (int32 env (apiclient.Mem snapshot)))
                   (Known (int32 env (apiclient.Disk snapshot)))
                   (Known (Format_RFC3339 (apiclient.CreatedAt snapshot)))
                   (Known false)))
  end.

End Resource.

Arguments Model : clear implicits.
Arguments SnapshotDto : clear implicits.

(** ** The replacement rule in the words of the specification *)

(** The prior record came from an import: its local image reference is
    empty while the desired one is not. *)
Definition imported_baseline {F} (desired prior : Model F) : Prop :=
  ValueString (ImageName prior) = "" /\ ValueString (ImageName desired) <> "".

Definition replacement_required {F} (desired prior : Model F) : Prop :=
  Name desired <> Name prior \/
  Cpu desired <> Cpu prior \/
  Memory desired <> Memory prior \/
  Disk desired <> Disk prior \/
  (ImageName desired <> ImageName prior /\ ~ imported_baseline desired prior).

(** ** Sample data *)

Definition dquote : string := String (ascii_of_nat 34) EmptyString.

Definition clock0 : Time := mkTime 2025 3 7 9 5 1 0.

Definition activeDto : SnapshotDto Z :=
  apiclient.mkSnapshotDto "snap-123" "test-snap" apiclient.SNAPSHOTSTATE_ACTIVE
    2%Z 0%Z 4%Z 10%Z clock0 (Some "org-1")
    (Some "registry.example/proj/myapp:20250307090501") (Some 1024%Z) None.

Definition failedDto : SnapshotDto Z :=
  apiclient.mkSnapshotDto "snap-123" "test-snap" apiclient.SNAPSHOTSTATE_ERROR
    2%Z 0%Z 4%Z 10%Z clock0 (Some "org-1") None None (Some "image pull failed").

Definition buildingDto : SnapshotDto Z :=
  apiclient.mkSnapshotDto "snap-123" "test-snap" "building"
    2%Z 0%Z 4%Z 10%Z clock0 (Some "org-1") None None None.

Definition pushAccess0 : apiclient.RegistryPushAccessDto :=
  apiclient.mkPushAccess "robot" "s3cret" "registry.example" "proj".

(** An environment in which every Docker call succeeds except as told by
    [rmImage], push access is granted until the request is cancelled, and
    the platform answers as told by the other arguments. *)
Definition sampleEnv (done : nat -> bool)
    (get : nat -> string -> Result (SnapshotDto Z))
    (rm : nat -> string -> Result unit)
    (rmImage : nat -> string -> option string) : Env Z :=
  mkEnv done (fun _ => "context canceled") get rm
    (fun _ _ => Ok tt)
    (fun t => if done t then Err None "context canceled" else Ok pushAccess0)
    (fun _ => None) (fun _ _ => None) (fun _ _ _ => None) (fun _ _ _ => None)
    (fun _ => None) (fun _ _ _ => None) rmImage
    (fun _ => clock0) (fun z => z) (fun s => dquote ++ s ++ dquote)
    (fun a => inl (auth_Username a ++ ":" ++ auth_Password a ++ "@" ++ auth_ServerAddress a))
    (fun s => s).

Definition plan0 : Model Z :=
  mkModel Unknown (Known "test-snap") (Known "myapp:latest") Unknown Unknown
    Unknown (Known 2%Z) Unknown (Known 4%Z) (Known 10%Z) Unknown (Known false).

Definition state0 : Model Z :=
  mkModel (Known "snap-123") (Known "test-snap") (Known "myapp:latest")
    (Known "registry.example/proj/myapp:20250101000000") (Known "org-1")
    (Known 1024%Z) (Known 2%Z) (Known 0%Z) (Known 4%Z) (Known 10%Z)
    (Known "2025-01-01T00:00:00Z") (Known false).

Definition keptState : Model Z :=
  mkModel (Known "snap-123") (Known "test-snap") (Known "myapp:latest")
    (Known "registry.example/proj/myapp:20250101000000") (Known "org-1")
    (Known 1024%Z) (Known 2%Z) (Known 0%Z) (Known 4%Z) (Known 10%Z)
    (Known "2025-01-01T00:00:00Z") (Known true).

(** The platform knows no snapshot. *)
Definition envAbsent : Env Z :=
  sampleEnv (fun _ => false) (fun _ _ => Err (Some 404%Z) "404 Not Found")
    (fun _ _ => Ok tt) (fun _ _ => None).

(** The platform is unreachable. *)
Definition envDown : Env Z :=
  sampleEnv (fun _ => false) (fun _ _ => Err None "connection refused")
    (fun _ _ => Err None "connection refused") (fun _ _ => None).

(** The platform has the snapshot, active. *)
Definition envActive : Env Z :=
  sampleEnv (fun _ => false) (fun _ _ => Ok activeDto)
    (fun _ _ => Ok tt) (fun _ _ => None).

Definition envFailed : Env Z :=
  sampleEnv (fun _ => false) (fun _ _ => Ok failedDto)
    (fun _ _ => Ok tt) (fun _ _ => None).

Definition envBuilding : Env Z :=
  sampleEnv (fun _ => false) (fun _ _ => Ok buildingDto)
    (fun _ _ => Ok tt) (fun _ _ => None).

(** A leftover snapshot of the same name exists; the request is cancelled
    while its removal is in flight (from tick 3 on), after which every
    platform call fails. *)
Definition envCancelledDuringCleanup : Env Z :=
  sampleEnv (fun t => (3 <=? t)%nat)
    (fun t _ => if (3 <=? t)%nat then Err None "context canceled" else Ok failedDto)
    (fun t _ => if (3 <=? t)%nat then Err None "context canceled" else Ok tt)
    (fun _ _ => None).

(** No leftover; push, registration and build succeed (the snapshot is
    found active from tick 1 on); removing the local tag fails. *)
Definition envUntagFails : Env Z :=
  sampleEnv (fun _ => false)
    (fun t _ => if (t =? 0)%nat then Err (Some 404%Z) "404 Not Found" else Ok activeDto)
    (fun _ _ => Ok tt)
    (fun _ _ => Some "image is being used by running container").

(** ** The provider: [Configure] of [internal/provider]

    [getenv] is [os.Getenv]: the value of an environment variable, empty
    when it is not set.  The API client is modelled by the configuration it
    is built from; the header map of the configuration is an association
    list. *)

Module provider.

Record DaytonaProviderModel : Type := mkProviderModel
  { Token : tfval string;
    OrganizationID : tfval string }.

Record Configuration : Type := mkConfiguration
  { Servers : list string;
    DefaultHeader : list (string * string) }.

Fixpoint header (headers : list (string * string)) (key : string) : option string :=
  match headers with
  | [] => None
  | (k, v) :: rest => if String.eqb k key then Some v else header rest key
  end.

Definition Configure (getenv : string -> string) (data : DaytonaProviderModel)
  : Diagnostics * option Configuration :=
  let endpoint := "https://app.daytona.io/api" in
  let token := getenv "DAYTONA_TOKEN" in
  let token :=
    if String.eqb token "" && negb (IsNull (Token data))
    then ValueString (Token data) else token in
  if String.eqb token "" then
    (AddError [] "Missing API Token"
       ("The provider requires an API token to authenticate with Daytona. "
        ++ "Set it in the provider configuration or use the DAYTONA_TOKEN environment variable."),
     None)
  else
    let organizationID := ValueString (OrganizationID data) in
    ([],
     Some (mkConfiguration [endpoint]
             [("Authorization", "Bearer " ++ token);
              ("X-Daytona-Organization-ID", organizationID)])).

End provider.

(** ** The snapshot data source: [Read] of [internal/datasources]

    [dtoEntrypoint] reads the entrypoint of a fetched snapshot, a field of
    the client's record that the resource never looks at. *)

Module datasources.

Record SnapshotDataSourceModel (F : Type) : Type := mkDataSourceModel
  { Id : tfval string;
    Name : tfval string;
    ImageName : tfval string;
    Entrypoint : tfval (list string);
    OrganizationId : tfval string;
    Size : tfval F;
    Cpu : tfval Z;
    Gpu : tfval Z;
    Memory : tfval Z;
    Disk : tfval Z;
    CreatedAt : tfval string }.
Arguments mkDataSourceModel {F}.
Arguments Id {F}.
Arguments Name {F}.
Arguments ImageName {F}.
Arguments Entrypoint {F}.
Arguments OrganizationId {F}.
Arguments Size {F}.
Arguments Cpu {F}.
Arguments Gpu {F}.
Arguments Memory {F}.
Arguments Disk {F}.
Arguments CreatedAt {F}.

(** Lines 132-157 of the data source's [Read]: the record filled from the
    fetched snapshot. *)
Definition fillFrom {F} (env : Env F)
    (dtoEntrypoint : apiclient.SnapshotDto F -> list string)
    (data : SnapshotDataSourceModel F) (snapshot : apiclient.SnapshotDto F)
  : SnapshotDataSourceModel F :=
  mkDataSourceModel
    (Known (apiclient.Id snapshot))
    (Known (apiclient.Name snapshot))
    (match apiclient.ImageName snapshot with
     | Some n => Known n
     | None => ImageName data
     end)
    (match dtoEntrypoint snapshot with
     | [] => Entrypoint data
     | _ :: _ => Known (dtoEntrypoint snapshot)
     end)
    (match apiclient.OrganizationId snapshot with
     | Some o => Known o
     | None => OrganizationId data
     end)
    (match apiclient.Size snapshot with
     | Some _ => PointerValue (apiclient.Size snapshot)
     | None => Size data
     end)
    (Known (int32 env (apiclient.Cpu snapshot)))
    (Known (int32 env (apiclient.Gpu snapshot)))
    (Known (int32 env (apiclient.Mem snapshot)))
    (Known (int32 env (apiclient.Disk snapshot)))
    (Known (Format_RFC3339 (apiclient.CreatedAt snapshot))).

Definition Read {F} (env : Env F)
    (dtoEntrypoint : apiclient.SnapshotDto F -> list string)
    (config : SnapshotDataSourceModel F)
  : M (Diagnostics * option (SnapshotDataSourceModel F)) :=
  let data := config in
  r <- call (EvGetSnapshot (ValueString (Name data)))
            (fun t => getSnapshot env t (ValueString (Name data))) ;;
  match r with
  | Err _ err =>
      ret (AddError [] "Client Error"
             ("Unable to read snapshot, got error: " ++ err),
           None)
  | Ok snapshot => ret ([], Some (fillFrom env dtoEntrypoint data snapshot))
  end.

End datasources.

(** The calls of [k] rounds of the manifest-readiness loop in which the
    probe failed: the probe, the log line and the sleep, [k] times over. *)
Definition failedProbes (target auth : string) (k : nat) : list Event :=
  List.concat (repeat [EvDistributionInspect target auth;
                  EvLog "Waiting for the image to become available";
                  EvSleep] k).

(** ** Traces only grow *)

Definition extends {A} (m : M A) : Prop :=
  forall tr r tr', m tr = Some (r, tr') -> exists ext, tr' = (tr ++ ext)%list.

(** ** More sample data *)

(** The snapshot is seen building by the first two polls (ticks 0 and 3)
    and active from then on. *)
Definition envBecomesActive : Env Z :=
  sampleEnv (fun _ => false)
    (fun t _ => if (t <? 6)%nat then Ok buildingDto else Ok activeDto)
    (fun _ _ => Ok tt) (fun _ _ => None).

(** The removal is accepted at tick 0; the snapshot is still there at the
    first confirmation poll (tick 1) and gone at the second (tick 4). *)
Definition envLingers : Env Z :=
  sampleEnv (fun _ => false)
    (fun t _ => if (t <? 4)%nat then Ok activeDto else Err (Some 404%Z) "404 Not Found")
    (fun _ _ => Ok tt) (fun _ _ => None).

(** A leftover snapshot is found, its removal is refused, and it is gone at
    the first confirmation poll. *)
Definition envRemovalRefused : Env Z :=
  sampleEnv (fun _ => false)
    (fun t _ => if (t =? 0)%nat then Ok failedDto else Err (Some 404%Z) "404 Not Found")
    (fun _ _ => Err (Some 403%Z) "403 Forbidden") (fun _ _ => None).

(** A leftover snapshot is found and removed, after which the platform
    cannot be reached: no poll ever answers not-found. *)
Definition envOutage : Env Z :=
  sampleEnv (fun _ => false)
    (fun t _ => if (t =? 0)%nat then Ok failedDto else Err None "connection refused")
    (fun _ _ => Ok tt) (fun _ _ => None).

(** The local image does not exist. *)
Definition envNoLocalImage : Env Z :=
  mkEnv (fun _ => false) (fun _ => "context canceled")
    (fun _ _ => Err (Some 404%Z) "404 Not Found") (fun _ _ => Ok tt)
    (fun _ _ => Ok tt) (fun _ => Ok pushAccess0)
    (fun _ => None) (fun _ _ => Some "No such image") (fun _ _ _ => None)
    (fun _ _ _ => None) (fun _ => None) (fun _ _ _ => None) (fun _ _ => None)
    (fun _ => clock0) (fun z => z) (fun s => dquote ++ s ++ dquote)
    (fun a => inl (auth_Username a ++ ":" ++ auth_Password a ++ "@" ++ auth_ServerAddress a))
    (fun s => s).

(** The pushed manifest never becomes readable. *)
Definition envManifestMissing : Env Z :=
  mkEnv (fun _ => false) (fun _ => "context canceled")
    (fun _ _ => Err (Some 404%Z) "404 Not Found") (fun _ _ => Ok tt)
    (fun _ _ => Ok tt) (fun _ => Ok pushAccess0)
    (fun _ => None) (fun _ _ => None) (fun _ _ _ => None)
    (fun _ _ _ => None) (fun _ => None)
    (fun _ _ _ => Some "manifest unknown") (fun _ _ => None)
    (fun _ => clock0) (fun z => z) (fun s => dquote ++ s ++ dquote)
    (fun a => inl (auth_Username a ++ ":" ++ auth_Password a ++ "@" ++ auth_ServerAddress a))
    (fun s => s).

(** The pushed manifest is not readable at the first probe (tick 6) and is
    readable from the second (tick 9) on. *)
Definition envManifestLate : Env Z :=
  mkEnv (fun _ => false) (fun _ => "context canceled")
    (fun _ _ => Err (Some 404%Z) "404 Not Found") (fun _ _ => Ok tt)
    (fun _ _ => Ok tt) (fun _ => Ok pushAccess0)
    (fun _ => None) (fun _ _ => None) (fun _ _ _ => None)
    (fun _ _ _ => None) (fun _ => None)
    (fun t _ _ => if (t <? 9)%nat then Some "manifest unknown" else None)
    (fun _ _ => None)
    (fun _ => clock0) (fun z => z) (fun s => dquote ++ s ++ dquote)
    (fun a => inl (auth_Username a ++ ":" ++ auth_Password a ++ "@" ++ auth_ServerAddress a))
    (fun s => s).

(** The old snapshot [snap-123] still holds the name; it is gone at the
    first confirmation poll after its removal, and the newly registered
    snapshot is active when polled. *)
Definition envReplaceKept : Env Z :=
  sampleEnv (fun _ => false)
    (fun t _ => if (t =? 4)%nat then Err (Some 404%Z) "404 Not Found" else Ok activeDto)
    (fun _ _ => Ok tt) (fun _ _ => None).

(** A plan that changes the cpu count of [state0] and asks to keep the old
    snapshot. *)
Definition planKeep : Model Z :=
  mkModel Unknown (Known "test-snap") (Known "myapp:latest") Unknown Unknown
    Unknown (Known 4%Z) Unknown (Known 4%Z) (Known 10%Z) Unknown (Known true).

(** A plan that changes nothing that forces replacement; its id is not yet
    determined. *)
Definition planSame : Model Z :=
  mkModel Unknown (Known "test-snap") (Known "myapp:latest") Unknown Unknown
    Unknown (Known 2%Z) Unknown (Known 4%Z) (Known 10%Z) Unknown (Known true).

(** A plan that changes the cpu count of [state0] and does not keep the old
    snapshot. *)
Definition planResize : Model Z :=
  mkModel Unknown (Known "test-snap") (Known "myapp:latest") Unknown Unknown
    Unknown (Known 4%Z) Unknown (Known 4%Z) (Known 10%Z) Unknown (Known false).

Definition clock1 : Time := mkTime 2025 3 7 9 5 2 0.

Definition dataSourceConfig : datasources.SnapshotDataSourceModel Z :=
  datasources.mkDataSourceModel Null (Known "test-snap") Null Null Null Null
    Null Null Null Null Null.

(** ** Diagnostics: basic facts *)

Lemma diag_eqb_eq (a b : Diagnostic) : diag_eqb a b = true -> a = b.
Proof.
  destruct a as [sa ma da], b as [sb mb db]; unfold diag_eqb; simpl.
  intros H. apply andb_prop in H as [H Hd]. apply andb_prop in H as [Hs Hm].
  apply String.eqb_eq in Hd, Hm. subst.
  destruct sa, sb; simpl in Hs; congruence.
Qed.

Lemma diag_eqb_refl (a : Diagnostic) : diag_eqb a a = true.
Proof.
  destruct a as [sa ma da]; unfold diag_eqb; simpl.
  rewrite !String.eqb_refl. destruct sa; reflexivity.
Qed.

Lemma Contains_In (diags : Diagnostics) (d : Diagnostic) :
  Contains diags d = true <-> In d diags.
Proof.
  unfold Contains. rewrite existsb_exists. split.
  - intros [x [Hin Heq]]. apply diag_eqb_eq in Heq. now subst.
  - intros Hin. exists d. split; [assumption | apply diag_eqb_refl].
Qed.

Lemma Append_cons (diags : Diagnostics) (d : Diagnostic) (rest : Diagnostics) :
  Append diags (d :: rest)
  = Append (if Contains diags d then diags else (diags ++ [d])%list) rest.
Proof. reflexivity. Qed.

Lemma Append_keeps (input diags : Diagnostics) (d : Diagnostic) :
  In d diags -> In d (Append diags input).
Proof.
  revert diags. induction input as [|x input IH]; intros diags Hin.
  - exact Hin.
  - rewrite Append_cons. apply IH.
    destruct (Contains diags x); [assumption | apply in_or_app; now left].
Qed.

Lemma Append_adds (input diags : Diagnostics) (d : Diagnostic) :
  In d input -> In d (Append diags input).
Proof.
  revert diags. induction input as [|x input IH]; intros diags Hin.
  - destruct Hin.
  - rewrite Append_cons. destruct Hin as [-> | Hin].
    + apply Append_keeps. destruct (Contains diags d) eqn:Hc.
      * now apply Contains_In.
      * apply in_or_app. right. now left.
    + now apply IH.
Qed.

Lemma Append_only (input diags : Diagnostics) (d : Diagnostic) :
  In d (Append diags input) -> In d diags \/ In d input.
Proof.
  revert diags. induction input as [|x input IH]; intros diags Hin.
  - now left.
  - rewrite Append_cons in Hin. apply IH in Hin as [Hin | Hin].
    + destruct (Contains diags x).
      * now left.
      * apply in_app_or in Hin as [Hin | [<- | []]]; [now left | right; now left].
    + right. now right.
Qed.

Lemma HasError_In (diags : Diagnostics) :
  HasError diags = true <-> exists d, In d diags /\ severity d = SeverityError.
Proof.
  unfold HasError. rewrite existsb_exists. split; intros [d [Hin Hs]]; exists d;
    (split; [assumption |]); unfold is_error in *;
    destruct (severity d); simpl in *; congruence.
Qed.

Lemma HasError_Append (diags input : Diagnostics) :
  HasError (Append diags input) = HasError diags || HasError input.
Proof.
  apply eq_true_iff_eq. rewrite orb_true_iff, !HasError_In. split.
  - intros [d [Hin Hs]]. apply Append_only in Hin as [Hin | Hin];
      [left | right]; now exists d.
  - intros [[d [Hin Hs]] | [d [Hin Hs]]]; exists d; split; trivial.
    + now apply Append_keeps.
    + now apply Append_adds.
Qed.

Lemma HasError_AddError (diags : Diagnostics) (s d : string) :
  HasError (AddError diags s d) = true.
Proof.
  unfold AddError. rewrite HasError_Append. simpl. apply orb_true_r.
Qed.

Lemma HasError_AddWarning (diags : Diagnostics) (s d : string) :
  HasError (AddWarning diags s d) = HasError diags.
Proof.
  unfold AddWarning. rewrite HasError_Append. simpl. apply orb_false_r.
Qed.

(** ** Framework values: equality *)

Lemma StringEqual_true (a b : tfval string) : StringEqual a b = true <-> a = b.
Proof.
  unfold StringEqual. destruct a, b; simpl; split; intros H;
    try reflexivity; try discriminate.
  - apply String.eqb_eq in H. now subst.
  - injection H as ->. apply String.eqb_refl.
Qed.

Lemma Int32Equal_true (a b : tfval Z) : Int32Equal a b = true <-> a = b.
Proof.
  unfold Int32Equal. destruct a, b; simpl; split; intros H;
    try reflexivity; try discriminate.
  - apply Z.eqb_eq in H. now subst.
  - injection H as ->. apply Z.eqb_refl.
Qed.

Lemma StringEqual_differs (a b : tfval string) :
  negb (StringEqual a b) = true <-> a <> b.
Proof.
  rewrite negb_true_iff, <- not_true_iff_false. now rewrite StringEqual_true.
Qed.

Lemma Int32Equal_differs (a b : tfval Z) :
  negb (Int32Equal a b) = true <-> a <> b.
Proof.
  rewrite negb_true_iff, <- not_true_iff_false. now rewrite Int32Equal_true.
Qed.

Lemma imported_baseline_test {F} (desired prior : Model F) :
  String.eqb (ValueString (ImageName prior)) ""
  && negb (String.eqb (ValueString (ImageName desired)) "") = true
  <-> imported_baseline desired prior.
Proof.
  unfold imported_baseline.
  rewrite andb_true_iff, negb_true_iff, String.eqb_eq, String.eqb_neq.
  reflexivity.
Qed.

(** ** Strings: what the split-based code computes *)

Lemma Split_nonempty (sep : ascii) (s : string) : Split sep s <> [].
Proof.
  destruct s as [|c rest]; simpl; [discriminate |].
  destruct (Ascii.eqb c sep); [discriminate |].
  destruct (Split sep rest); discriminate.
Qed.

Lemma Split_first (sep : ascii) (s : string) :
  hd "" (Split sep s) = before_first sep s.
Proof.
  induction s as [|c rest IH]; simpl; [reflexivity |].
  destruct (Ascii.eqb c sep); [reflexivity |].
  destruct (Split sep rest) as [|h t] eqn:Hs.
  - now apply Split_nonempty in Hs.
  - simpl in *. now rewrite IH.
Qed.

Lemma Split_without (sep : ascii) (s : string) :
  occurs sep s = false -> Split sep s = [s].
Proof.
  induction s as [|c rest IH]; simpl; [reflexivity |].
  intros H. apply orb_false_iff in H as [Hc Hr].
  rewrite Hc, (IH Hr). reflexivity.
Qed.

Lemma Split_with (sep : ascii) (s : string) :
  occurs sep s = true -> exists h x t, Split sep s = h :: x :: t.
Proof.
  induction s as [|c rest IH]; simpl; [discriminate |].
  destruct (Ascii.eqb c sep); simpl.
  - intros _. destruct (Split sep rest) as [|x t] eqn:Hs.
    + now apply Split_nonempty in Hs.
    + now exists "", x, t.
  - intros H. destruct (IH H) as [h [x [t ->]]]. now exists (String c h), x, t.
Qed.

Lemma last_segment_without (sep : ascii) (s : string) :
  occurs sep s = false -> last_segment sep s = s.
Proof.
  destruct s as [|c rest]; simpl; [reflexivity |].
  intros H. apply orb_false_iff in H as [Hc Hr]. now rewrite Hr, Hc.
Qed.

Lemma Split_last (sep : ascii) (s : string) :
  last (Split sep s) "" = last_segment sep s.
Proof.
  induction s as [|c rest IH]; [reflexivity |].
  cbn [Split last_segment].
  destruct (occurs sep rest) eqn:Hocc.
  - destruct (Split_with sep rest Hocc) as [h [x [t Hs]]].
    rewrite Hs in *. rewrite <- IH.
    destruct (Ascii.eqb c sep); reflexivity.
  - rewrite (Split_without sep rest Hocc).
    destruct (Ascii.eqb c sep); reflexivity.
Qed.

(** The last segment holds no separator, and the string ends with it,
    right after its last separator when there is one. *)
Lemma last_segment_clean (sep : ascii) (s : string) :
  occurs sep (last_segment sep s) = false.
Proof.
  induction s as [|c rest IH]; simpl; [reflexivity |].
  destruct (occurs sep rest) eqn:Hocc; [assumption |].
  destruct (Ascii.eqb c sep) eqn:Hc; [assumption |].
  simpl. now rewrite Hc, Hocc.
Qed.

Lemma last_segment_suffix (sep : ascii) (s : string) :
  occurs sep s = true ->
  exists p, s = p ++ String sep (last_segment sep s).
Proof.
  induction s as [|c rest IH]; simpl; [discriminate |].
  destruct (occurs sep rest) eqn:Hocc.
  - intros _. destruct (IH eq_refl) as [p Hp].
    exists (String c p). simpl. now rewrite <- Hp.
  - rewrite orb_false_r. intros Hc. rewrite Hc.
    apply Ascii.eqb_eq in Hc. subst. now exists "".
Qed.

(** ** Time: the length and alphabet of the timestamp *)

Lemma length_append (a b : string) :
  String.length (a ++ b) = String.length a + String.length b.
Proof. induction a as [|c a IH]; simpl; [reflexivity | now rewrite IH]. Qed.

Lemma all_digits_append (a b : string) :
  all_digits (a ++ b) = all_digits a && all_digits b.
Proof.
  induction a as [|c a IH]; simpl; [reflexivity |].
  now rewrite IH, andb_assoc.
Qed.

Lemma is_digit_digit (d : nat) : d < 10 -> is_digit (digit d) = true.
Proof.
  intros Hd. unfold is_digit, digit.
  rewrite nat_ascii_embedding by lia.
  apply andb_true_iff. split; apply Nat.leb_le; lia.
Qed.

Lemma fixed_digits_length (w u : nat) : String.length (fixed_digits w u) = w.
Proof.
  revert u. induction w as [|w IH]; intros u; cbn [fixed_digits]; [reflexivity |].
  rewrite length_append, IH. cbn [String.length]. lia.
Qed.

Lemma fixed_digits_numeric (w u : nat) : all_digits (fixed_digits w u) = true.
Proof.
  revert u. induction w as [|w IH]; intros u; cbn [fixed_digits]; [reflexivity |].
  rewrite all_digits_append, IH. cbn [all_digits andb].
  rewrite is_digit_digit; [reflexivity |].
  apply Nat.mod_upper_bound. discriminate.
Qed.

Lemma ndigits_bound (fuel k u : nat) :
  1 <= k -> u < 10 ^ k -> ndigits fuel u <= k.
Proof.
  revert k u. induction fuel as [|fuel IH]; intros k u Hk Hu;
    cbn [ndigits]; [assumption |].
  destruct (Nat.ltb_spec u 10) as [Hlt | Hge]; [assumption |].
  destruct k as [|[|k]]; [lia | rewrite Nat.pow_1_r in Hu; lia |].
  apply le_n_S. apply IH; [lia |].
  apply Nat.Div0.div_lt_upper_bound.
  rewrite Nat.pow_succ_r' in Hu. exact Hu.
Qed.

Lemma appendInt_fits (x : Z) (w : nat) :
  1 <= w -> (0 <= x < 10 ^ Z.of_nat w)%Z ->
  appendInt x w = fixed_digits w (Z.abs_nat x).
Proof.
  intros Hw [Hlo Hhi]. unfold appendInt.
  destruct (Z.ltb_spec x 0) as [Hneg | _]; [lia |].
  simpl. f_equal. apply Nat.max_l. unfold num_digits.
  apply ndigits_bound; [assumption |].
  apply Nat2Z.inj_lt. rewrite Nat2Z.inj_pow, Zabs2Nat.id_abs, Z.abs_eq by lia.
  exact Hhi.
Qed.

Lemma timestamp_fixed (t : Time) :
  civil t ->
  Format_20060102150405 t
  = fixed_digits 4 (Z.abs_nat (year t))
    ++ fixed_digits 2 (Z.abs_nat (Z.of_nat (month t)))
    ++ fixed_digits 2 (Z.abs_nat (Z.of_nat (day t)))
    ++ fixed_digits 2 (Z.abs_nat (Z.of_nat (hour t)))
    ++ fixed_digits 2 (Z.abs_nat (Z.of_nat (minute t)))
    ++ fixed_digits 2 (Z.abs_nat (Z.of_nat (second t))).
Proof.
  intros (Hy & Hmo & Hd & Hh & Hmi & Hs). unfold Format_20060102150405.
  rewrite !appendInt_fits; try reflexivity; try lia;
    change (10 ^ Z.of_nat 2)%Z with 100%Z;
    change (10 ^ Z.of_nat 4)%Z with 10000%Z; lia.
Qed.

Section Properties.

Context {F : Type}.
Variable env : Env F.

(** ** Update: replace or refresh *)

Lemma shouldRecreate_spec (plan state : Model F) :
  shouldRecreate plan state = true <-> replacement_required plan state.
Proof.
  unfold shouldRecreate, replacement_required.
  rewrite !orb_true_iff, andb_true_iff.
  rewrite !StringEqual_differs, !Int32Equal_differs.
  rewrite negb_true_iff, <- not_true_iff_false, imported_baseline_test.
  tauto.
Qed.

Lemma refreshInPlace_calls (plan state : Model F) (tr : Trace) :
  exists res id,
    refreshInPlace env plan state tr = Some (res, (tr ++ [EvGetSnapshot id])%list).
Proof.
  unfold refreshInPlace, readSnapshot, GetSnapshot, bind, call, ret.
  match goal with
  | |- context [getSnapshot env ?t ?i] =>
      destruct (getSnapshot env t i) as [snapshot | status err] eqn:Hget
  end.
  - eexists; eexists; reflexivity.
  - destruct (notFound (Err status err)); eexists; eexists; reflexivity.
Qed.

(** C1.  [Update] takes the replacement branch (delete the old snapshot,
    then create) exactly when name, cpu, memory or disk differ between the
    desired and the prior record, or the local image reference differs and
    the prior record is not an imported one (empty prior reference,
    non-empty desired one).  Otherwise it refreshes in place, which makes
    one fetch and neither a delete nor a create call. *)
Theorem Update_replacement_rule (fuel : nat) (plan state : Model F) (tr : Trace) :
  (shouldRecreate plan state = true <-> replacement_required plan state)
  /\ (replacement_required plan state ->
      Update env fuel plan state tr = recreate env fuel plan state tr)
  /\ (~ replacement_required plan state ->
      Update env fuel plan state tr = refreshInPlace env plan state tr
      /\ exists res id,
           Update env fuel plan state tr
           = Some (res, (tr ++ [EvGetSnapshot id])%list)).
Proof.
  split; [apply shouldRecreate_spec |]. split.
  - intros Hreq. apply shouldRecreate_spec in Hreq.
    unfold Update. now rewrite Hreq.
  - intros Hno. assert (Hb : shouldRecreate plan state = false).
    { apply not_true_iff_false. now rewrite shouldRecreate_spec. }
    unfold Update. rewrite Hb. split; [reflexivity | apply refreshInPlace_calls].
Qed.

(** ** Availability polling *)

Ltac run :=
  unfold ctxIsDone, GetSnapshot, RemoveSnapshot, tflogInfo, timeSleep;
  unfold bind, call, peek, ret; cbv beta iota.

Lemma availabilityLoop_unfold (fuel : nat) (name : string)
    (warns errs : Diagnostics) (tr : Trace) :
  ctxDone env (List.length tr) = false ->
  availabilityLoop env (S fuel) name warns errs tr
  = match getSnapshot env (List.length tr) name with
    | Err _ err =>
        Some ((None, warns,
               AddError errs "Snapshot Availability Error"
                 ("Unable to fetch snapshot: " ++ err)),
              (tr ++ [EvGetSnapshot name])%list)
    | Ok snapshot =>
        if state_is apiclient.SNAPSHOTSTATE_ACTIVE snapshot then
          Some ((Some snapshot, warns, errs), (tr ++ [EvGetSnapshot name])%list)
        else if state_is apiclient.SNAPSHOTSTATE_ERROR snapshot
                || state_is apiclient.SNAPSHOTSTATE_BUILD_FAILED snapshot then
          Some ((Some snapshot, warns,
                 AddError errs "Snapshot Availability Error"
                   match apiclient.ErrorReason snapshot with
                   | None => "Snapshot processing failed with unknown reason"
                   | Some reason => "Snapshot processing failed: " ++ reason
                   end),
                (tr ++ [EvGetSnapshot name])%list)
        else
          availabilityLoop env fuel name warns errs
            (tr ++ [EvGetSnapshot name]
                ++ [EvLog "Waiting for the snapshot to be processed"; EvSleep])%list
    end.
Proof.
  intros Hctx. cbn [availabilityLoop]. run. rewrite Hctx. run.
  destruct (getSnapshot env (List.length tr) name) as [snapshot | status err];
    [| reflexivity].
  destruct (state_is apiclient.SNAPSHOTSTATE_ACTIVE snapshot); [reflexivity |].
  destruct (state_is apiclient.SNAPSHOTSTATE_ERROR snapshot
            || state_is apiclient.SNAPSHOTSTATE_BUILD_FAILED snapshot).
  - destruct (apiclient.ErrorReason snapshot); reflexivity.
  - rewrite <- !app_assoc. reflexivity.
Qed.

(** C5.  One round of the availability poller, the request not being
    cancelled and the fetch having succeeded: an [active] snapshot is
    returned at once with no diagnostic; [error] and [build_failed] return
    at once with one error diagnostic that carries the platform's reason
    when there is one and a generic message otherwise; any other state
    logs, sleeps and polls again. *)
Theorem availability_poll_round (fuel : nat) (name : string)
    (snapshot : SnapshotDto F) (tr : Trace) :
  ctxDone env (List.length tr) = false ->
  getSnapshot env (List.length tr) name = Ok snapshot ->
  let polled := (tr ++ [EvGetSnapshot name])%list in
  (apiclient.State snapshot = apiclient.SNAPSHOTSTATE_ACTIVE ->
   ensureSnapshotAvailable env (S fuel) name tr
   = Some ((Some snapshot, [], []), polled))
  /\ (apiclient.State snapshot = apiclient.SNAPSHOTSTATE_ERROR
      \/ apiclient.State snapshot = apiclient.SNAPSHOTSTATE_BUILD_FAILED ->
      ensureSnapshotAvailable env (S fuel) name tr
      = Some ((Some snapshot, [],
               [mkDiag SeverityError "Snapshot Availability Error"
                  match apiclient.ErrorReason snapshot with
                  | Some reason => "Snapshot processing failed: " ++ reason
                  | None => "Snapshot processing failed with unknown reason"
                  end]),
              polled))
  /\ (apiclient.State snapshot <> apiclient.SNAPSHOTSTATE_ACTIVE ->
      apiclient.State snapshot <> apiclient.SNAPSHOTSTATE_ERROR ->
      apiclient.State snapshot <> apiclient.SNAPSHOTSTATE_BUILD_FAILED ->
      ensureSnapshotAvailable env (S fuel) name tr
      = ensureSnapshotAvailable env fuel name
          (polled ++ [EvLog "Waiting for the snapshot to be processed"; EvSleep])%list).
Proof.
  intros Hctx Hget polled. unfold ensureSnapshotAvailable.
  rewrite (availabilityLoop_unfold _ _ _ _ _ Hctx), Hget. unfold state_is.
  repeat split.
  - intros ->. reflexivity.
  - intros [-> | ->]; cbn; destruct (apiclient.ErrorReason snapshot); reflexivity.
  - intros Ha He Hb.
    apply String.eqb_neq in Ha, He, Hb. rewrite Ha, He, Hb. cbn [orb].
    unfold polled. now rewrite <- app_assoc.
Qed.

(** The poller does return: when the snapshot is seen in a non-terminal
    state [k] times and then found [active], fuel for [k + 1] rounds gives
    that record and no diagnostic. *)
Lemma availability_reaches_active (k fuel : nat) (name : string)
    (snapshot : SnapshotDto F) (tr : Trace) :
  (forall i, i <= k -> ctxDone env (List.length tr + 3 * i) = false) ->
  (forall i, i < k ->
     exists s, getSnapshot env (List.length tr + 3 * i) name = Ok s
               /\ apiclient.State s <> apiclient.SNAPSHOTSTATE_ACTIVE
               /\ apiclient.State s <> apiclient.SNAPSHOTSTATE_ERROR
               /\ apiclient.State s <> apiclient.SNAPSHOTSTATE_BUILD_FAILED) ->
  getSnapshot env (List.length tr + 3 * k) name = Ok snapshot ->
  apiclient.State snapshot = apiclient.SNAPSHOTSTATE_ACTIVE ->
  exists tr',
    ensureSnapshotAvailable env (S k + fuel) name tr
    = Some ((Some snapshot, [], []), tr').
Proof.
  unfold ensureSnapshotAvailable.
  revert tr. induction k as [|k IH]; intros tr Hctx Hpoll Hget Hact.
  - rewrite Nat.mul_0_r, Nat.add_0_r in Hget.
    specialize (Hctx 0 (le_n 0)). rewrite Nat.mul_0_r, Nat.add_0_r in Hctx.
    cbn [Nat.add]. rewrite (availabilityLoop_unfold _ _ _ _ _ Hctx), Hget.
    unfold state_is. rewrite Hact. eexists. reflexivity.
  - assert (Hctx0 := Hctx 0 (Nat.le_0_l _)).
    rewrite Nat.mul_0_r, Nat.add_0_r in Hctx0.
    destruct (Hpoll 0 (Nat.lt_0_succ _)) as [s [Hs [Ha [He Hb]]]].
    rewrite Nat.mul_0_r, Nat.add_0_r in Hs.
    apply String.eqb_neq in Ha, He, Hb.
    change (S (S k) + fuel) with (S (S k + fuel)).
    rewrite (availabilityLoop_unfold _ _ _ _ _ Hctx0), Hs.
    unfold state_is. rewrite Ha, He, Hb. cbn [orb].
    assert (Hlen : forall i,
               List.length (tr ++ [EvGetSnapshot name]
                               ++ [EvLog "Waiting for the snapshot to be processed";
                                   EvSleep])%list + 3 * i
               = List.length tr + 3 * S i).
    { intros i. rewrite !length_app. cbn [List.length]. lia. }
    apply IH.
    + intros i Hi. rewrite Hlen. apply Hctx. lia.
    + intros i Hi. rewrite Hlen. apply Hpoll. lia.
    + rewrite Hlen. exact Hget.
    + exact Hact.
Qed.

(** Cancellation seen by the availability loop is an error that names the
    cause. *)
Lemma availabilityLoop_cancelled (fuel : nat) (name : string)
    (warns errs : Diagnostics) (tr : Trace) :
  ctxDone env (List.length tr) = true ->
  availabilityLoop env (S fuel) name warns errs tr
  = Some ((None, warns,
           AddError errs "Snapshot Availability Error"
             ("Cancelled during waiting for snapshot to become available: "
              ++ ctxErr env (List.length tr))),
          tr).
Proof. intros Hctx. cbn [availabilityLoop]. run. now rewrite Hctx. Qed.

(** ** The other polling loops *)

Lemma cleanupLoop_round (fuel : nat) (id : string)
    (warns errors : Diagnostics) (tr : Trace) :
  ctxDone env (List.length tr) = false ->
  cleanupLoop env (S fuel) id warns errors tr
  = if notFound (getSnapshot env (List.length tr) id) then
      Some ((warns, errors),
            (tr ++ [EvGetSnapshot id; EvLog "Snapshot successfully deleted"])%list)
    else
      cleanupLoop env fuel id warns errors (tr ++ [EvGetSnapshot id; EvSleep])%list.
Proof.
  intros Hctx. cbn [cleanupLoop]. run. rewrite Hctx. run.
  destruct (getSnapshot env (List.length tr) id) as [s | [code |] err];
    cbn [notFound]; try destruct (code =? 404)%Z;
    rewrite <- app_assoc; reflexivity.
Qed.

(** Cancellation seen by the stale-cleanup loop ends it with the
    diagnostics it was entered with: nothing is added. *)
Lemma cleanupLoop_cancelled (fuel : nat) (id : string)
    (warns errors : Diagnostics) (tr : Trace) :
  ctxDone env (List.length tr) = true ->
  cleanupLoop env (S fuel) id warns errors tr = Some ((warns, errors), tr).
Proof. intros Hctx. cbn [cleanupLoop]. run. now rewrite Hctx. Qed.

Lemma manifestLoop_cancelled (fuel : nat) (targetImage auth : string)
    (warns errors : Diagnostics) (tr : Trace) :
  ctxDone env (List.length tr) = true ->
  manifestLoop env (S fuel) targetImage auth warns errors tr
  = Some ((targetImage, warns,
           AddError errors "Image Availability Error"
             ("Cancelled during waiting for image to become available: "
              ++ ctxErr env (List.length tr))),
          tr).
Proof. intros Hctx. cbn [manifestLoop]. run. now rewrite Hctx. Qed.

Lemma deletionLoop_cancelled (fuel : nat) (id : string)
    (infos warns errors : Diagnostics) (tr : Trace) :
  ctxDone env (List.length tr) = true ->
  deletionLoop env (S fuel) id infos warns errors tr
  = Some ((infos, warns,
           AddError errors "Deletion Error"
             ("Cancelled while waiting for snapshot deletion: "
              ++ ctxErr env (List.length tr))),
          tr).
Proof. intros Hctx. cbn [deletionLoop]. run. now rewrite Hctx. Qed.

Lemma deletionLoop_round (fuel : nat) (id : string)
    (infos warns errors : Diagnostics) (tr : Trace) :
  ctxDone env (List.length tr) = false ->
  deletionLoop env (S fuel) id infos warns errors tr
  = match getSnapshot env (List.length tr) id with
    | Err status err =>
        if notFound (@Err unit status err) then
          Some ((infos, warns, errors),
                (tr ++ [EvGetSnapshot id; EvLog "Snapshot successfully deleted"])%list)
        else
          Some ((infos, warns,
                 AddError errors "Deletion Verification Error"
                   ("Unable to verify snapshot deletion: " ++ err)),
                (tr ++ [EvGetSnapshot id])%list)
    | Ok _ =>
        deletionLoop env fuel id infos warns errors
          (tr ++ [EvGetSnapshot id; EvLog "Waiting for snapshot to be deleted"; EvSleep])%list
    end.
Proof.
  intros Hctx. cbn [deletionLoop]. run. rewrite Hctx. run.
  destruct (getSnapshot env (List.length tr) id) as [s | [code |] err]; cbn [notFound].
  - rewrite <- !app_assoc. reflexivity.
  - destruct (code =? 404)%Z; [rewrite <- app_assoc |]; reflexivity.
  - reflexivity.
Qed.

(** C9.  In the availability poller every fetch error, a not-found one
    included, ends the polling at once with one error diagnostic; whereas a
    not-found answer is a success with no diagnostic in [readSnapshot], in
    the deletion-confirmation loop and in the stale-cleanup loop. *)
Theorem availability_fetch_error_is_fatal (fuel : nat) (name : string)
    (status : option Z) (err : string) (tr : Trace) :
  ctxDone env (List.length tr) = false ->
  getSnapshot env (List.length tr) name = Err status err ->
  ensureSnapshotAvailable env (S fuel) name tr
  = Some ((None, [],
           [mkDiag SeverityError "Snapshot Availability Error"
              ("Unable to fetch snapshot: " ++ err)]),
          (tr ++ [EvGetSnapshot name])%list)
  /\ (status = Some 404%Z ->
      (forall data : Model F,
          ValueString (Id data) = name ->
          readSnapshot env data tr
          = Some ((data, ([], [], [])), (tr ++ [EvGetSnapshot name])%list))
      /\ deletionLoop env (S fuel) name [] [] [] tr
         = Some (([], [], []),
                 (tr ++ [EvGetSnapshot name; EvLog "Snapshot successfully deleted"])%list)
      /\ cleanupLoop env (S fuel) name [] [] tr
         = Some (([], []),
                 (tr ++ [EvGetSnapshot name; EvLog "Snapshot successfully deleted"])%list)).
Proof.
  intros Hctx Hget. split.
  - unfold ensureSnapshotAvailable.
    now rewrite (availabilityLoop_unfold _ _ _ _ _ Hctx), Hget.
  - intros ->. repeat split.
    + intros data <-. unfold readSnapshot. run. rewrite Hget. reflexivity.
    + now rewrite (deletionLoop_round _ _ _ _ _ _ Hctx), Hget.
    + now rewrite (cleanupLoop_round _ _ _ _ _ Hctx), Hget.
Qed.

(** ** Read *)

Lemma readSnapshot_outcome (data : Model F) (tr : Trace) :
  readSnapshot env data tr
  = Some (match getSnapshot env (List.length tr) (ValueString (Id data)) with
          | Ok snapshot => (refreshFrom env data snapshot, ([], [], []))
          | Err status err =>
              if notFound (@Err unit status err) then (data, ([], [], []))
              else (data, ([], [], AddError [] "Client Error"
                                     ("Unable to read snapshot: " ++ err)))
          end,
          (tr ++ [EvGetSnapshot (ValueString (Id data))])%list).
Proof.
  unfold readSnapshot. run.
  destruct (getSnapshot env (List.length tr) (ValueString (Id data)))
    as [s | [code |] err]; cbn [notFound]; try reflexivity.
  destruct (code =? 404)%Z; reflexivity.
Qed.

Lemma status_404 (status : option Z) (err : string) :
  notFound (@Err unit status err) = true <-> status = Some 404%Z.
Proof.
  destruct status as [code |]; cbn [notFound].
  - rewrite Z.eqb_eq. split; [now intros -> | now intros [= ->]].
  - split; discriminate.
Qed.

(** C6.  [Read] on a fetch that fails: a not-found answer is a success
    (no diagnostic, the record handed back for persisting is the one it was
    given); any other error yields an error diagnostic and nothing is
    persisted. *)
Theorem Read_fetch_failure (state : Model F) (status : option Z) (err : string)
    (tr : Trace) :
  getSnapshot env (List.length tr) (ValueString (Id state)) = Err status err ->
  let fetched := (tr ++ [EvGetSnapshot (ValueString (Id state))])%list in
  (status = Some 404%Z ->
   Read env state tr = Some (([], Some state), fetched))
  /\ (status <> Some 404%Z ->
      Read env state tr
      = Some (([mkDiag SeverityError "Client Error"
                  ("Unable to read snapshot: " ++ err)], None), fetched)
      /\ HasError [mkDiag SeverityError "Client Error"
                     ("Unable to read snapshot: " ++ err)] = true).
Proof.
  intros Hget fetched. unfold Read, bind.
  rewrite readSnapshot_outcome, Hget. split.
  - intros Hs. apply (status_404 status err) in Hs. rewrite Hs. reflexivity.
  - intros Hs. destruct (notFound (@Err unit status err)) eqn:Hn.
    + apply status_404 in Hn. contradiction.
    + split; reflexivity.
Qed.

(** C10.  [Read] always returns; whenever it hands a record back for
    persisting, the record's id, local image reference and keep-remotely
    flag are those of the record it was given, and the record is either
    unchanged (the not-found case) or rewritten from the fetched snapshot in
    name, cpu, gpu, memory, disk and creation time, and in organization id,
    remote image name and size where the snapshot has them. *)
Theorem Read_frame (state : Model F) (tr : Trace) :
  exists diags persisted,
    Read env state tr
    = Some ((diags, persisted),
            (tr ++ [EvGetSnapshot (ValueString (Id state))])%list)
    /\ forall data,
        persisted = Some data ->
        Id data = Id state
        /\ ImageName data = ImageName state
        /\ KeepRemotely data = KeepRemotely state
        /\ (data = state
            \/ exists snapshot,
                getSnapshot env (List.length tr) (ValueString (Id state)) = Ok snapshot
                /\ Name data = Known (apiclient.Name snapshot)
                /\ Cpu data = Known (int32 env (apiclient.Cpu snapshot))
                /\ Gpu data = Known (int32 env (apiclient.Gpu snapshot))
                /\ Memory data = Known (int32 env (apiclient.Mem snapshot))
                /\ Disk data = Known (int32 env (apiclient.Disk snapshot))
                /\ CreatedAt data
                   = Known (Format_RFC3339 (apiclient.CreatedAt snapshot))
                /\ OrganizationId data
                   = match apiclient.OrganizationId snapshot with
                     | Some o => Known o
                     | None => OrganizationId state
                     end
                /\ RemoteImageName data
                   = match apiclient.ImageName snapshot with
                     | Some n => Known n
                     | None => RemoteImageName state
                     end
                /\ Size data
                   = match apiclient.Size snapshot with
                     | Some z => Known z
                     | None => Size state
                     end).
Proof.
  unfold Read, bind. rewrite readSnapshot_outcome.
  destruct (getSnapshot env (List.length tr) (ValueString (Id state)))
    as [snapshot | status err] eqn:Hget.
  - do 2 eexists. split; [reflexivity |].
    intros data [= <-]. repeat split. right. exists snapshot.
    repeat split. cbn. now destruct (apiclient.Size snapshot).
  - destruct (notFound (@Err unit status err)).
    + do 2 eexists. split; [reflexivity |].
      intros data [= <-]. repeat split. now left.
    + do 2 eexists. split; [reflexivity |]. intros data [=].
Qed.

(** ** Import *)

(** C7.  [ImportState]: a not-found fetch yields the error diagnostic
    "Snapshot Not Found" and another fetch error the error diagnostic
    "Import Error", two different diagnostics, and in both cases nothing is
    persisted; a successful fetch persists a record whose remote-derived
    fields are those of the fetched snapshot, with keep-remotely false and
    the local image reference empty. *)
Theorem ImportState_outcomes (snapshotID : string) (tr : Trace) :
  let fetched := (tr ++ [EvGetSnapshot snapshotID])%list in
  let notFoundDiag :=
    mkDiag SeverityError "Snapshot Not Found"
      ("Snapshot with ID/name " ++ fmtQ env snapshotID ++ " not found") in
  let otherDiag err :=
    mkDiag SeverityError "Import Error"
      ("Unable to fetch snapshot " ++ fmtQ env snapshotID ++ ": " ++ err) in
  (forall err,
      getSnapshot env (List.length tr) snapshotID = Err (Some 404%Z) err ->
      ImportState env snapshotID tr = Some (([notFoundDiag], None), fetched))
  /\ (forall status err,
         getSnapshot env (List.length tr) snapshotID = Err status err ->
         status <> Some 404%Z ->
         ImportState env snapshotID tr = Some (([otherDiag err], None), fetched))
  /\ (forall err, notFoundDiag <> otherDiag err)
  /\ (forall snapshot,
         getSnapshot env (List.length tr) snapshotID = Ok snapshot ->
         ImportState env snapshotID tr
         = Some (([],
                  Some (mkModel
                          (Known (apiclient.Id snapshot))
                          (Known (apiclient.Name snapshot))
                          (Known "")
                          (PointerValue (apiclient.ImageName snapshot))
                          (PointerValue (apiclient.OrganizationId snapshot))
                          (PointerValue (apiclient.Size snapshot))
                          (Known (int32 env (apiclient.Cpu snapshot)))
                          (Known (int32 env (apiclient.Gpu snapshot)))
                          (Known (int32 env (apiclient.Mem snapshot)))
                          (Known (int32 env (apiclient.Disk snapshot)))
                          (Known (Format_RFC3339 (apiclient.CreatedAt snapshot)))
                          (Known false))),
                 fetched)).
Proof.
  intros fetched notFoundDiag otherDiag. repeat split.
  - intros err Hget. unfold ImportState. run. rewrite Hget. reflexivity.
  - intros status err Hget Hs. unfold ImportState. run. rewrite Hget.
    destruct status as [code |]; cbn [notFound]; [| reflexivity].
    destruct (Z.eqb_spec code 404) as [-> | _]; [now elim Hs | reflexivity].
  - intros err H. discriminate H.
  - intros snapshot Hget. unfold ImportState. run. rewrite Hget. reflexivity.
Qed.

(** ** Delete *)

(** C8.  [Delete] on a record whose keep-remotely flag is set succeeds with
    no diagnostic, whatever the fuel; all it does is write one log line:
    the remote calls of the trace are those made before. *)
Theorem Delete_keep_remotely (fuel : nat) (state : Model F) (tr : Trace) :
  ValueBool (KeepRemotely state) = true ->
  Delete env fuel state tr
  = Some ([], (tr ++ [EvLog "Skipping snapshot deletion due to keep_remotely=true"])%list)
  /\ filter is_remote_call
       (tr ++ [EvLog "Skipping snapshot deletion due to keep_remotely=true"])%list
     = filter is_remote_call tr.
Proof.
  intros Hkeep. split.
  - unfold Delete. rewrite Hkeep. reflexivity.
  - rewrite filter_app. cbn [filter is_remote_call]. apply app_nil_r.
Qed.

(** ** Publish: the reference that is tagged and returned *)

Lemma manifestLoop_target (fuel : nat) (targetImage auth : string)
    (warns errors : Diagnostics) (tr : Trace)
    (res : string * Diagnostics * Diagnostics) (tr' : Trace) :
  manifestLoop env fuel targetImage auth warns errors tr = Some (res, tr') ->
  fst (fst res) = targetImage /\ exists ext, tr' = (tr ++ ext)%list.
Proof.
  revert tr. induction fuel as [|fuel IH]; intros tr; cbn [manifestLoop];
    [discriminate |].
  run. destruct (ctxDone env (List.length tr)).
  - intros [= <- <-]. split; [reflexivity | exists []; now rewrite app_nil_r].
  - run. destruct (distributionInspect env _ targetImage auth).
    + run. intros H. apply IH in H as [Ht [ext ->]]. split; [exact Ht |].
      rewrite <- !app_assoc. eexists. reflexivity.
    + intros [= <- <-]. split; [reflexivity | eexists; reflexivity].
Qed.

(** A publish call that returns without an error returns the reference
    computed from the granted registry URL and project, the local image
    name and the clock reading taken after the local image was found. *)
Lemma pushImageToRegistry_target (fuel : nat) (L : string) (tr : Trace)
    (target : string) (warns errors : Diagnostics) (tr' : Trace) :
  pushImageToRegistry env fuel L tr = Some ((target, warns, errors), tr') ->
  HasError errors = false ->
  exists tok,
    getTransientPushAccess env (List.length tr) = Ok tok
    /\ target = targetImageName (apiclient.RegistryUrl tok) (apiclient.Project tok)
                  L (timeNow env (List.length tr + 2))
    /\ In (EvImageTag L target) tr'.
Proof.
  unfold pushImageToRegistry. run.
  destruct (getTransientPushAccess env (List.length tr)) as [tok | st e].
  2:{ intros [= <- <- <- <-] He. now rewrite HasError_AddError in He. }
  destruct (jsonMarshal env _) as [enc | e].
  2:{ intros [= <- <- <- <-] He. now rewrite HasError_AddError in He. }
  run. destruct (imageInspect env _ L).
  { intros [= <- <- <- <-] He. now rewrite HasError_AddError in He. }
  run. rewrite !length_app. cbn [List.length].
  replace (List.length tr + 1 + 1) with (List.length tr + 2) by lia.
  set (T := targetImageName _ _ L _).
  destruct (imageTag env _ L T).
  { intros [= <- <- <- <-] He. now rewrite HasError_AddError in He. }
  run. destruct (imagePush env _ T _).
  { intros [= <- <- <- <-] He. now rewrite HasError_AddError in He. }
  run. destruct (copyPushOutput env _).
  { intros [= <- <- <- <-] He. now rewrite HasError_AddError in He. }
  match goal with
  | |- context [manifestLoop env fuel T ?a ?w ?e ?t] =>
      destruct (manifestLoop env fuel T a w e t) as [[res t1] |] eqn:Hloop
  end; [| discriminate].
  intros [= -> <-] _. apply manifestLoop_target in Hloop as [Ht [ext ->]].
  cbn [fst] in Ht. exists tok. split; [reflexivity |]. split; [exact Ht |].
  rewrite Ht. rewrite !in_app_iff. cbn [In]. tauto.
Qed.

(** ** Create: the deferred untagging *)

(** The deferred closure always issues the removal of the tag, and whatever
    the removal answers, the results of [createSnapshot] are what they were
    before it ran. *)
Lemma untagDeferred_results (targetImage : string) (fr : CreateFrame) (tr : Trace) :
  exists fr',
    untagDeferred env targetImage fr tr
    = Some (fr', (tr ++ [EvImageRemove targetImage])%list)
    /\ frameResults fr' = frameResults fr.
Proof.
  unfold untagDeferred. run.
  destruct (imageRemove env (List.length tr) targetImage);
    eexists; split; reflexivity.
Qed.

End Properties.

(** ** Reading the timestamp back *)

Lemma nat_below_power (n w : nat) :
  (Z.of_nat n < 10 ^ Z.of_nat w)%Z -> n < 10 ^ w.
Proof. intros H. apply Nat2Z.inj_lt. now rewrite Nat2Z.inj_pow. Qed.

Lemma substring_skip (a b : string) (k n m : nat) :
  String.length a = k -> substring (k + n) m (a ++ b) = substring n m b.
Proof.
  revert k. induction a as [|c a IH]; intros k Hk; cbn in Hk; subst k.
  - reflexivity.
  - cbn [Nat.add append substring]. now apply IH.
Qed.

Lemma substring_take (a b : string) (k : nat) :
  String.length a = k -> substring 0 k (a ++ b) = a.
Proof.
  revert k. induction a as [|c a IH]; intros k Hk; cbn in Hk; subst k.
  - now destruct b.
  - cbn [append substring]. now rewrite IH.
Qed.

Lemma substring_whole (a : string) (k : nat) :
  String.length a = k -> substring 0 k a = a.
Proof.
  revert k. induction a as [|c a IH]; intros k Hk; cbn in Hk; subst k.
  - reflexivity.
  - cbn [substring]. now rewrite IH.
Qed.

Lemma digit_value (d : nat) : d < 10 -> nat_of_ascii (digit d) - 48 = d.
Proof.
  intros Hd. unfold digit. rewrite nat_ascii_embedding by lia. lia.
Qed.

Lemma decimal_from_append (a b : string) (acc : nat) :
  decimal_from acc (a ++ b) = decimal_from (decimal_from acc a) b.
Proof.
  revert acc. induction a as [|c a IH]; intros acc; [reflexivity |].
  cbn [append decimal_from]. apply IH.
Qed.

Lemma decimal_from_fixed (w u acc : nat) :
  decimal_from acc (fixed_digits w u) = acc * 10 ^ w + u mod 10 ^ w.
Proof.
  revert u acc. induction w as [|w IH]; intros u acc.
  - cbn [fixed_digits decimal_from]. rewrite Nat.pow_0_r, Nat.mod_1_r. lia.
  - cbn [fixed_digits]. rewrite decimal_from_append, IH.
    cbn [decimal_from].
    rewrite digit_value by (apply Nat.mod_upper_bound; discriminate).
    rewrite Nat.pow_succ_r', Nat.Div0.mod_mul_r.
    generalize (10 ^ w) as X, ((u / 10) mod 10 ^ w) as q, (u mod 10) as r.
    intros X q r. lia.
Qed.

Lemma decimal_value_fixed (w u : nat) :
  u < 10 ^ w -> decimal_value (fixed_digits w u) = u.
Proof.
  intros Hu. unfold decimal_value.
  rewrite decimal_from_fixed, Nat.mod_small by exact Hu. lia.
Qed.

(** ** The target reference of a publish call *)

(** C4.  The target reference of a publish call is the registry URL, the
    project and the base name of the local image joined by slashes, then a
    colon and the timestamp; the base name is the last slash-separated
    segment of what precedes the first colon of the local image name; and
    the timestamp of a civil clock reading is fourteen decimal digits that
    read, from the left, as the year (four digits), the month, the day, the
    hour, the minute and the second (two digits each) of that reading. *)
Theorem target_reference_shape (R P L : string) (now : Time) :
  targetImageName R P L now
  = R ++ "/" ++ P ++ "/" ++ last_segment slash (before_first colon L)
      ++ ":" ++ Format_20060102150405 now
  /\ (civil now ->
      String.length (Format_20060102150405 now) = 14
      /\ all_digits (Format_20060102150405 now) = true
      /\ Z.of_nat (decimal_value (substring 0 4 (Format_20060102150405 now)))
         = year now
      /\ decimal_value (substring 4 2 (Format_20060102150405 now)) = month now
      /\ decimal_value (substring 6 2 (Format_20060102150405 now)) = day now
      /\ decimal_value (substring 8 2 (Format_20060102150405 now)) = hour now
      /\ decimal_value (substring 10 2 (Format_20060102150405 now)) = minute now
      /\ decimal_value (substring 12 2 (Format_20060102150405 now)) = second now).
Proof.
  split.
  - unfold targetImageName. now rewrite Split_first, Split_last.
  - intros Hciv. rewrite (timestamp_fixed now Hciv).
    destruct Hciv as (Hy & Hmo & Hd & Hh & Hmi & Hs).
    rewrite !Zabs2Nat.id.
    set (Y := fixed_digits 4 (Z.abs_nat (year now))).
    set (Mo := fixed_digits 2 (month now)). set (D := fixed_digits 2 (day now)).
    set (H := fixed_digits 2 (hour now)). set (Mi := fixed_digits 2 (minute now)).
    set (Sc := fixed_digits 2 (second now)).
    assert (LY : String.length Y = 4) by apply fixed_digits_length.
    assert (LMo : String.length Mo = 2) by apply fixed_digits_length.
    assert (LD : String.length D = 2) by apply fixed_digits_length.
    assert (LH : String.length H = 2) by apply fixed_digits_length.
    assert (LMi : String.length Mi = 2) by apply fixed_digits_length.
    assert (LS : String.length Sc = 2) by apply fixed_digits_length.
    assert (Small : forall n, n <= 59 -> n < 10 ^ 2).
    { intros n Hn. apply nat_below_power.
      change (10 ^ Z.of_nat 2)%Z with 100%Z. lia. }
    split; [| split; [| split; [| split; [| split; [| split; [| split]]]]]].
    + rewrite !length_append, LY, LMo, LD, LH, LMi, LS. reflexivity.
    + unfold Y, Mo, D, H, Mi, Sc.
      rewrite !all_digits_append, !fixed_digits_numeric. reflexivity.
    + rewrite (substring_take Y _ 4 LY). unfold Y.
      rewrite decimal_value_fixed.
      * rewrite Zabs2Nat.id_abs. lia.
      * apply nat_below_power. rewrite Zabs2Nat.id_abs.
        change (10 ^ Z.of_nat 4)%Z with 10000%Z. lia.
    + rewrite (substring_skip Y _ 4 0 2 LY), (substring_take Mo _ 2 LMo).
      apply decimal_value_fixed, Small. lia.
    + change 6 with (4 + 2).
      rewrite (substring_skip Y _ 4 2 2 LY), (substring_skip Mo _ 2 0 2 LMo),
        (substring_take D _ 2 LD).
      apply decimal_value_fixed, Small. lia.
    + change 8 with (4 + 4).
      rewrite (substring_skip Y _ 4 4 2 LY). change 4 with (2 + 2) at 1.
      rewrite (substring_skip Mo _ 2 2 2 LMo), (substring_skip D _ 2 0 2 LD),
        (substring_take H _ 2 LH).
      apply decimal_value_fixed, Small. lia.
    + change 10 with (4 + 6).
      rewrite (substring_skip Y _ 4 6 2 LY). change 6 with (2 + 4).
      rewrite (substring_skip Mo _ 2 4 2 LMo). change 4 with (2 + 2) at 1.
      rewrite (substring_skip D _ 2 2 2 LD), (substring_skip H _ 2 0 2 LH),
        (substring_take Mi _ 2 LMi).
      apply decimal_value_fixed, Small. lia.
    + change 12 with (4 + 8).
      rewrite (substring_skip Y _ 4 8 2 LY). change 8 with (2 + 6).
      rewrite (substring_skip Mo _ 2 6 2 LMo). change 6 with (2 + 4).
      rewrite (substring_skip D _ 2 4 2 LD). change 4 with (2 + 2) at 1.
      rewrite (substring_skip H _ 2 2 2 LH), (substring_skip Mi _ 2 0 2 LMi),
        (substring_whole Sc 2 LS).
      apply decimal_value_fixed, Small. lia.
Qed.

Lemma target_reference_example :
  targetImageName "registry.example" "proj" "ghcr.io/acme/myapp:latest" clock0
  = "registry.example/proj/myapp:20250307090501"
  /\ String.length (Format_20060102150405 clock0) = 14
  /\ all_digits (Format_20060102150405 clock0) = true
  /\ Z.of_nat (decimal_value (substring 0 4 (Format_20060102150405 clock0)))
     = 2025%Z
  /\ decimal_value (substring 4 2 (Format_20060102150405 clock0)) = 3
  /\ decimal_value (substring 6 2 (Format_20060102150405 clock0)) = 7
  /\ decimal_value (substring 8 2 (Format_20060102150405 clock0)) = 9
  /\ decimal_value (substring 10 2 (Format_20060102150405 clock0)) = 5
  /\ decimal_value (substring 12 2 (Format_20060102150405 clock0)) = 1.
Proof.
  destruct (target_reference_shape "registry.example" "proj"
              "ghcr.io/acme/myapp:latest" clock0) as [Heq Hts].
  split; [rewrite Heq; reflexivity |].
  apply Hts. unfold civil, clock0; cbn. lia.
Defined.

(** ** Worked runs *)

Lemma availability_poll_round_examples :
  ensureSnapshotAvailable envActive 1 "test-snap" []
  = Some ((Some activeDto, [], []), [EvGetSnapshot "test-snap"])
  /\ ensureSnapshotAvailable envFailed 1 "test-snap" []
     = Some ((Some failedDto, [],
              [mkDiag SeverityError "Snapshot Availability Error"
                 "Snapshot processing failed: image pull failed"]),
             [EvGetSnapshot "test-snap"])
  /\ ensureSnapshotAvailable envBuilding 2 "test-snap" []
     = ensureSnapshotAvailable envBuilding 1 "test-snap"
         [EvGetSnapshot "test-snap";
          EvLog "Waiting for the snapshot to be processed"; EvSleep].
Proof.
  split; [| split].
  - exact (proj1 (availability_poll_round envActive 0 "test-snap" activeDto []
                    eq_refl eq_refl) eq_refl).
  - exact (proj1 (proj2 (availability_poll_round envFailed 0 "test-snap" failedDto []
                           eq_refl eq_refl)) (or_introl eq_refl)).
  - apply (proj2 (proj2 (availability_poll_round envBuilding 1 "test-snap" buildingDto []
                           eq_refl eq_refl))); discriminate.
Defined.

Lemma availability_fetch_error_examples :
  ensureSnapshotAvailable envAbsent 1 "test-snap" []
  = Some ((None, [],
           [mkDiag SeverityError "Snapshot Availability Error"
              "Unable to fetch snapshot: 404 Not Found"]),
          [EvGetSnapshot "test-snap"])
  /\ readSnapshot envAbsent state0 []
     = Some ((state0, ([], [], [])), [EvGetSnapshot "snap-123"]).
Proof.
  split.
  - exact (proj1 (availability_fetch_error_is_fatal envAbsent 0 "test-snap"
                    (Some 404%Z) "404 Not Found" [] eq_refl eq_refl)).
  - exact (proj1 (proj2 (availability_fetch_error_is_fatal envAbsent 0 "snap-123"
                           (Some 404%Z) "404 Not Found" [] eq_refl eq_refl) eq_refl)
             state0 eq_refl).
Defined.

Lemma Read_fetch_failure_examples :
  Read envAbsent state0 [] = Some (([], Some state0), [EvGetSnapshot "snap-123"])
  /\ Read envDown state0 []
     = Some (([mkDiag SeverityError "Client Error"
                 "Unable to read snapshot: connection refused"], None),
             [EvGetSnapshot "snap-123"]).
Proof.
  split.
  - exact (proj1 (Read_fetch_failure envAbsent state0 (Some 404%Z) "404 Not Found" []
                    eq_refl) eq_refl).
  - apply (proj2 (Read_fetch_failure envDown state0 None "connection refused" []
                    eq_refl)).
    discriminate.
Defined.

Lemma Delete_keep_remotely_example :
  Delete envActive 0 keptState []
  = Some ([], [EvLog "Skipping snapshot deletion due to keep_remotely=true"])
  /\ filter is_remote_call
       [EvLog "Skipping snapshot deletion due to keep_remotely=true"] = [].
Proof. exact (Delete_keep_remotely envActive 0 keptState [] eq_refl). Defined.

(** C2.  The stale-cleanup loop does not report cancellation.  A leftover
    snapshot is found and its removal requested; the request is cancelled
    before the first confirmation poll.  [maybeCleanupExistingCreationAttempt]
    returns no diagnostic at all, and [Create] goes on to the next phase,
    whose failure is the only diagnostic of the response; under the same
    cancellation the deletion-confirmation loop of [deleteSnapshot] returns
    its cancellation error. *)
Theorem stale_cleanup_cancellation_is_silent :
  ctxDone envCancelledDuringCleanup 3 = true
  /\ maybeCleanupExistingCreationAttempt envCancelledDuringCleanup 1 "test-snap" []
     = Some (([], []),
             [EvGetSnapshot "test-snap";
              EvLog "Found existing snapshot, deleting it";
              EvRemoveSnapshot "snap-123"])
  /\ Create envCancelledDuringCleanup 1 plan0 []
     = Some (([mkDiag SeverityError "API Error"
                 "Unable to get push access token: context canceled"], None),
             [EvGetSnapshot "test-snap";
              EvLog "Found existing snapshot, deleting it";
              EvRemoveSnapshot "snap-123"; EvNewDockerClient;
              EvGetTransientPushAccess; EvDockerClose])
  /\ deleteSnapshot envCancelledDuringCleanup 1 state0
       [EvGetSnapshot "test-snap"; EvLog "Found existing snapshot, deleting it"]
     = Some (([], [],
              [mkDiag SeverityError "Deletion Error"
                 "Cancelled while waiting for snapshot deletion: context canceled"]),
             [EvGetSnapshot "test-snap";
              EvLog "Found existing snapshot, deleting it";
              EvRemoveSnapshot "snap-123"]).
Proof. repeat split; vm_compute; reflexivity. Qed.

(** C3.  The warning of a failed tag removal does not reach the caller.
    Every phase of the run succeeds without a diagnostic; the removal of the
    local tag is the thirteenth call of the run and fails; the response of
    [Create] carries no diagnostic.  The deferred closure did record the
    warning, in the local [warnings], which is not among the results. *)
Theorem untag_failure_warning_is_dropped :
  let target := "registry.example/proj/myapp:20250307090501" in
  let lost :=
    mkDiag SeverityWarning "Cleanup Warning"
      ("Failed to remove tagged image " ++ target
       ++ ": image is being used by running container") in
  imageRemove envUntagFails 12 target
  = Some "image is being used by running container"
  /\ (exists data tr,
         Create envUntagFails 1 plan0 [] = Some (([], Some data), tr)
         /\ nth_error tr 12 = Some (EvImageRemove target)
         /\ List.length tr = 14)
  /\ untagDeferred envUntagFails target (mkFrame plan0 [] [] []) []
     = Some (mkFrame plan0 [] [] [lost], [EvImageRemove target])
  /\ frameResults (mkFrame plan0 [] [] [lost]) = (plan0, ([], [], [])).
Proof.
  split; [reflexivity |]. split.
  - eexists; eexists. split; [vm_compute; reflexivity |]. split; reflexivity.
  - split; vm_compute; reflexivity.
Qed.

(** * Further properties of the code *)

(** ** Computations: inversion and growth of the trace *)

Lemma bind_inv {A B} (m : M A) (k : A -> M B) (tr : Trace) (r : B) (tr' : Trace) :
  bind m k tr = Some (r, tr') ->
  exists a tr1, m tr = Some (a, tr1) /\ k a tr1 = Some (r, tr').
Proof.
  unfold bind. destruct (m tr) as [[a tr1] |]; [| discriminate].
  intros H. now exists a, tr1.
Qed.

Lemma extends_ret {A} (a : A) : extends (ret a).
Proof. intros tr r tr' [= _ <-]. exists []. now rewrite app_nil_r. Qed.

Lemma extends_call {A} (ev : Event) (answer : nat -> A) : extends (call ev answer).
Proof. intros tr r tr' [= _ <-]. now exists [ev]. Qed.

Lemma extends_peek {A} (answer : nat -> A) : extends (peek answer).
Proof. intros tr r tr' [= _ <-]. exists []. now rewrite app_nil_r. Qed.

Lemma extends_out_of_fuel {A} : extends (@out_of_fuel A).
Proof. intros tr r tr' [=]. Qed.

Lemma extends_bind {A B} (m : M A) (k : A -> M B) :
  extends m -> (forall a, extends (k a)) -> extends (bind m k).
Proof.
  intros Hm Hk tr r tr' H. apply bind_inv in H as [a [tr1 [H1 H2]]].
  apply Hm in H1 as [e1 ->]. apply Hk in H2 as [e2 ->].
  exists (e1 ++ e2)%list. now rewrite app_assoc.
Qed.

Ltac grow :=
  repeat first
    [ assumption
    | apply extends_ret
    | apply extends_call
    | apply extends_peek
    | apply extends_out_of_fuel
    | apply extends_bind; [| intros ?]
    | match goal with
      | IH : forall _, extends _ |- extends _ => apply IH
      | IH : forall _ _, extends _ |- extends _ => apply IH
      | IH : forall _ _ _, extends _ |- extends _ => apply IH
      | |- extends (let _ := _ in _) => cbv zeta
      | |- extends (match ?x with _ => _ end) => destruct x
      end ].

Section Growth.

Context {F : Type}.
Variable env : Env F.

Lemma extends_cleanupLoop (fuel : nat) (id : string) (warns errors : Diagnostics) :
  extends (cleanupLoop env fuel id warns errors).
Proof. induction fuel as [|fuel IH]; cbn [cleanupLoop]; grow. Qed.

Lemma extends_maybeCleanup (fuel : nat) (name : string) :
  extends (maybeCleanupExistingCreationAttempt env fuel name).
Proof.
  unfold maybeCleanupExistingCreationAttempt. grow; apply extends_cleanupLoop.
Qed.

Lemma extends_manifestLoop (fuel : nat) (t a : string) (warns errors : Diagnostics) :
  extends (manifestLoop env fuel t a warns errors).
Proof. induction fuel as [|fuel IH]; cbn [manifestLoop]; grow. Qed.

Lemma extends_pushImageToRegistry (fuel : nat) (L : string) :
  extends (pushImageToRegistry env fuel L).
Proof. unfold pushImageToRegistry. grow; apply extends_manifestLoop. Qed.

Lemma extends_registerSnapshot (data : Model F) (target : string) :
  extends (registerSnapshot env data target).
Proof. unfold registerSnapshot. grow. Qed.

Lemma extends_availabilityLoop (fuel : nat) (name : string) (warns errs : Diagnostics) :
  extends (availabilityLoop env fuel name warns errs).
Proof. induction fuel as [|fuel IH]; cbn [availabilityLoop]; grow. Qed.

Lemma extends_deletionLoop (fuel : nat) (id : string) (infos warns errors : Diagnostics) :
  extends (deletionLoop env fuel id infos warns errors).
Proof. induction fuel as [|fuel IH]; cbn [deletionLoop]; grow. Qed.

Lemma extends_deleteSnapshot (fuel : nat) (data : Model F) :
  extends (deleteSnapshot env fuel data).
Proof. unfold deleteSnapshot. grow; apply extends_deletionLoop. Qed.

Lemma extends_createSnapshotTail (fuel : nat) (data : Model F) (target : string)
    (warns errs : Diagnostics) :
  extends (createSnapshotTail env fuel data target warns errs).
Proof.
  unfold createSnapshotTail, ensureSnapshotAvailable.
  grow; apply extends_availabilityLoop.
Qed.

Lemma extends_untagDeferred (target : string) (fr : CreateFrame) :
  extends (untagDeferred env target fr).
Proof. unfold untagDeferred. grow. Qed.

Lemma extends_createSnapshot (fuel : nat) (data : Model F) :
  extends (createSnapshot env fuel data).
Proof.
  unfold createSnapshot.
  grow; first [ apply extends_cleanupLoop | apply extends_manifestLoop
              | apply extends_availabilityLoop ].
Qed.

End Growth.

Ltac run :=
  unfold ctxIsDone, GetSnapshot, RemoveSnapshot, tflogInfo, timeSleep;
  unfold bind, call, peek, ret; cbv beta iota.

Section MoreProperties.

Context {F : Type}.
Variable env : Env F.

(** ** Stale-attempt reconciler *)

Lemma cleanupLoop_keeps (fuel : nat) (id : string) (warns errors : Diagnostics)
    (tr : Trace) (res : Diagnostics * Diagnostics) (tr' : Trace) :
  cleanupLoop env fuel id warns errors tr = Some (res, tr') ->
  res = (warns, errors).
Proof.
  revert tr. induction fuel as [|fuel IH]; intros tr; cbn [cleanupLoop];
    [discriminate |].
  run. destruct (ctxDone env (List.length tr)); [now intros [= <- _] |].
  run. destruct (getSnapshot env (List.length tr) id) as [s | [code |] err];
    cbn [notFound]; try destruct (code =? 404)%Z; run;
    solve [apply IH | now intros [= <- _]].
Qed.

(** X1.  Once the query for a leftover snapshot has succeeded, the
    reconciler never returns an error: it requests the removal of the
    snapshot it found, and a refused removal leaves exactly one warning, an
    accepted one no diagnostic at all, however the confirmation polling
    ends. *)
Theorem stale_cleanup_failure_is_a_warning (fuel : nat) (name : string)
    (existing : SnapshotDto F) (tr : Trace)
    (warns errors : Diagnostics) (tr' : Trace) :
  getSnapshot env (List.length tr) name = Ok existing ->
  maybeCleanupExistingCreationAttempt env fuel name tr = Some ((warns, errors), tr') ->
  errors = []
  /\ warns
     = match removeSnapshot env (List.length tr + 2) (apiclient.Id existing) with
       | Ok _ => []
       | Err _ err =>
           [mkDiag SeverityWarning "Cleanup Warning"
              ("Failed to delete existing failed snapshot "
               ++ fmtQ env name ++ ": " ++ err)]
       end
  /\ exists ext,
       tr' = (tr ++ [EvGetSnapshot name;
                     EvLog "Found existing snapshot, deleting it";
                     EvRemoveSnapshot (apiclient.Id existing)] ++ ext)%list.
Proof.
  intros Hget. unfold maybeCleanupExistingCreationAttempt. run. rewrite Hget. run.
  rewrite !length_app. cbn [List.length].
  replace (List.length tr + 1 + 1) with (List.length tr + 2) by lia.
  intros H. pose proof (cleanupLoop_keeps _ _ _ _ _ _ _ H) as Hres.
  apply extends_cleanupLoop in H as [ext ->].
  injection Hres as -> ->. split; [reflexivity |]. split.
  - destruct (removeSnapshot env (List.length tr + 2) (apiclient.Id existing));
      reflexivity.
  - exists ext. now rewrite <- !app_assoc.
Qed.

(** X2.  The confirmation loop of the reconciler stops only on
    cancellation or on a not-found answer: while the request is live and
    every poll answers anything else, a snapshot or an error of any kind,
    it does not return, whatever the fuel. *)
Theorem stale_cleanup_polls_through_errors (fuel : nat) (id : string)
    (warns errors : Diagnostics) (tr : Trace) :
  (forall t, List.length tr <= t -> ctxDone env t = false) ->
  (forall t, List.length tr <= t -> notFound (getSnapshot env t id) = false) ->
  cleanupLoop env fuel id warns errors tr = None.
Proof.
  revert tr. induction fuel as [|fuel IH]; intros tr Hctx Hget; [reflexivity |].
  rewrite (cleanupLoop_round _ _ _ _ _ _ (Hctx _ (le_n _))).
  rewrite (Hget _ (le_n _)). apply IH; intros t Ht;
    [apply Hctx | apply Hget]; rewrite length_app in Ht; lia.
Qed.

(** ** Availability poller *)

Lemma availabilityLoop_inv (fuel : nat) (name : string) (tr : Trace)
    (snap : option (SnapshotDto F)) (warns errs : Diagnostics) (tr' : Trace) :
  availabilityLoop env fuel name [] [] tr = Some ((snap, warns, errs), tr') ->
  warns = []
  /\ ((errs = []
       /\ exists s pre,
            snap = Some s
            /\ apiclient.State s = apiclient.SNAPSHOTSTATE_ACTIVE
            /\ tr' = (pre ++ [EvGetSnapshot name])%list
            /\ getSnapshot env (List.length pre) name = Ok s)
      \/ exists detail,
           errs = [mkDiag SeverityError "Snapshot Availability Error" detail]).
Proof.
  revert tr. induction fuel as [|fuel IH]; intros tr; [discriminate |].
  destruct (ctxDone env (List.length tr)) eqn:Hctx.
  - rewrite (availabilityLoop_cancelled _ _ _ _ _ _ Hctx).
    intros [= <- <- <- <-]. split; [reflexivity |]. right. eexists. reflexivity.
  - rewrite (availabilityLoop_unfold _ _ _ _ _ _ Hctx).
    destruct (getSnapshot env (List.length tr) name) as [s | st e] eqn:Hget.
    + unfold state_is.
      destruct (String.eqb_spec (apiclient.State s) apiclient.SNAPSHOTSTATE_ACTIVE)
        as [Hact | _].
      * intros [= <- <- <- <-]. split; [reflexivity |]. left.
        split; [reflexivity |]. now exists s, tr.
      * destruct (_ || _).
        -- intros [= <- <- <- <-]. split; [reflexivity |]. right.
           eexists. reflexivity.
        -- apply IH.
    + intros [= <- <- <- <-]. split; [reflexivity |]. right. eexists. reflexivity.
Qed.

(** X3.  Whatever the availability poller returns, it returns no warning
    and at most one diagnostic, an error "Snapshot Availability Error"; when
    it returns without one, the record returned is the answer to its last
    fetch and its state is [active]. *)
Theorem ensureSnapshotAvailable_result (fuel : nat) (name : string) (tr : Trace)
    (snap : option (SnapshotDto F)) (warns errs : Diagnostics) (tr' : Trace) :
  ensureSnapshotAvailable env fuel name tr = Some ((snap, warns, errs), tr') ->
  warns = []
  /\ ((errs = []
       /\ exists s pre,
            snap = Some s
            /\ apiclient.State s = apiclient.SNAPSHOTSTATE_ACTIVE
            /\ tr' = (pre ++ [EvGetSnapshot name])%list
            /\ getSnapshot env (List.length pre) name = Ok s)
      \/ exists detail,
           errs = [mkDiag SeverityError "Snapshot Availability Error" detail]).
Proof. apply availabilityLoop_inv. Qed.

(** X4.  The availability poller has no retry limit: while the request is
    live and every fetch answers a snapshot that is neither active nor
    failed, it does not return, whatever the fuel. *)
Theorem availability_has_no_retry_limit (fuel : nat) (name : string) (tr : Trace) :
  (forall t, List.length tr <= t -> ctxDone env t = false) ->
  (forall t, List.length tr <= t ->
     exists s, getSnapshot env t name = Ok s
               /\ apiclient.State s <> apiclient.SNAPSHOTSTATE_ACTIVE
               /\ apiclient.State s <> apiclient.SNAPSHOTSTATE_ERROR
               /\ apiclient.State s <> apiclient.SNAPSHOTSTATE_BUILD_FAILED) ->
  ensureSnapshotAvailable env fuel name tr = None.
Proof.
  unfold ensureSnapshotAvailable.
  revert tr. induction fuel as [|fuel IH]; intros tr Hctx Hget; [reflexivity |].
  rewrite (availabilityLoop_unfold _ _ _ _ _ _ (Hctx _ (le_n _))).
  destruct (Hget _ (le_n _)) as [s [-> [Ha [He Hb]]]].
  apply String.eqb_neq in Ha, He, Hb. unfold state_is. rewrite Ha, He, Hb.
  cbn [orb]. apply IH; intros t Ht;
    [apply Hctx | apply Hget]; rewrite !length_app in Ht; lia.
Qed.

(** ** Deletion *)

Lemma deletionLoop_inv (fuel : nat) (id : string) (tr : Trace)
    (infos warns errors : Diagnostics) (tr' : Trace) :
  deletionLoop env fuel id [] [] [] tr = Some ((infos, warns, errors), tr') ->
  infos = [] /\ warns = []
  /\ ((errors = []
       /\ exists pre,
            tr' = (pre ++ [EvGetSnapshot id; EvLog "Snapshot successfully deleted"])%list
            /\ notFound (getSnapshot env (List.length pre) id) = true)
      \/ exists summary detail,
           errors = [mkDiag SeverityError summary detail]
           /\ (summary = "Deletion Error" \/ summary = "Deletion Verification Error")).
Proof.
  revert tr. induction fuel as [|fuel IH]; intros tr; [discriminate |].
  destruct (ctxDone env (List.length tr)) eqn:Hctx.
  - rewrite (deletionLoop_cancelled _ _ _ _ _ _ _ Hctx).
    intros [= <- <- <- <-]. do 2 (split; [reflexivity |]). right.
    do 2 eexists. split; [reflexivity | now left].
  - rewrite (deletionLoop_round _ _ _ _ _ _ _ Hctx).
    destruct (getSnapshot env (List.length tr) id) as [s | st e] eqn:Hget.
    + apply IH.
    + destruct (notFound (@Err unit st e)) eqn:Hnf.
      * intros [= <- <- <- <-]. do 2 (split; [reflexivity |]). left.
        split; [reflexivity |]. exists tr. split; [reflexivity |].
        rewrite Hget. destruct st; exact Hnf.
      * intros [= <- <- <- <-]. do 2 (split; [reflexivity |]). right.
        do 2 eexists. split; [reflexivity | now right].
Qed.

(** X5.  [Delete] on a record that is not kept remotely starts with the
    removal request for the record's id and returns at most one diagnostic,
    an error.  When it returns none, the platform has answered not-found,
    either to the removal request itself, after which nothing else is
    called, or to the confirmation fetch that ends the run. *)
Theorem Delete_result (fuel : nat) (state : Model F) (tr : Trace)
    (diags : Diagnostics) (tr' : Trace) :
  ValueBool (KeepRemotely state) = false ->
  Delete env fuel state tr = Some (diags, tr') ->
  let id := ValueString (Id state) in
  (exists ext, tr' = (tr ++ [EvRemoveSnapshot id] ++ ext)%list)
  /\ ((diags = []
       /\ ((tr' = (tr ++ [EvRemoveSnapshot id])%list
            /\ notFound (removeSnapshot env (List.length tr) id) = true)
           \/ exists pre,
                tr' = (pre ++ [EvGetSnapshot id;
                               EvLog "Snapshot successfully deleted"])%list
                /\ notFound (getSnapshot env (List.length pre) id) = true))
      \/ exists summary detail,
           diags = [mkDiag SeverityError summary detail]
           /\ (summary = "Client Error" \/ summary = "Deletion Error"
               \/ summary = "Deletion Verification Error")).
Proof.
  intros Hkeep. unfold Delete. rewrite Hkeep. unfold deleteSnapshot. run.
  destruct (removeSnapshot env (List.length tr) (ValueString (Id state)))
    as [[] | st e] eqn:Hrm.
  - destruct (deletionLoop env fuel _ [] [] [] _) as [[[[i w] e] t1] |] eqn:Hloop;
      [| discriminate].
    intros [= <- <-]. pose proof Hloop as Hext.
    apply extends_deletionLoop in Hext as [ext ->].
    apply deletionLoop_inv in Hloop as [-> [-> Hcases]].
    split; [exists ext; now rewrite <- app_assoc |].
    destruct Hcases as [[-> [pre [Hpre Hnf]]] | [sm [dt [-> Hsm]]]].
    + left. split; [reflexivity |]. right. now exists pre.
    + right. exists sm, dt. split; [reflexivity | tauto].
  - destruct (notFound (@Err unit st e)) eqn:Hnf; intros [= <- <-].
    + split; [exists []; reflexivity |]. left. split; [reflexivity |]. now left.
    + split; [exists []; reflexivity |]. right.
      do 2 eexists. split; [reflexivity | now left].
Qed.

Lemma deletionLoop_reaches (k fuel : nat) (id : string) (tr : Trace) :
  (forall i, i <= k -> ctxDone env (List.length tr + 3 * i) = false) ->
  (forall i, i < k -> exists s, getSnapshot env (List.length tr + 3 * i) id = Ok s) ->
  notFound (getSnapshot env (List.length tr + 3 * k) id) = true ->
  exists tr', deletionLoop env (S k + fuel) id [] [] [] tr = Some (([], [], []), tr').
Proof.
  revert tr. induction k as [|k IH]; intros tr Hctx Hpoll Hnf.
  - rewrite Nat.mul_0_r, Nat.add_0_r in Hnf.
    specialize (Hctx 0 (le_n 0)). rewrite Nat.mul_0_r, Nat.add_0_r in Hctx.
    cbn [Nat.add]. rewrite (deletionLoop_round _ _ _ _ _ _ _ Hctx).
    destruct (getSnapshot env (List.length tr) id) as [s | st e];
      [discriminate |].
    replace (notFound (@Err unit st e)) with true
      by (destruct st; exact (eq_sym Hnf)).
    eexists. reflexivity.
  - assert (Hctx0 := Hctx 0 (Nat.le_0_l _)).
    rewrite Nat.mul_0_r, Nat.add_0_r in Hctx0.
    destruct (Hpoll 0 (Nat.lt_0_succ _)) as [s Hs].
    rewrite Nat.mul_0_r, Nat.add_0_r in Hs.
    change (S (S k) + fuel) with (S (S k + fuel)).
    rewrite (deletionLoop_round _ _ _ _ _ _ _ Hctx0), Hs.
    assert (Hlen : forall i,
               List.length (tr ++ [EvGetSnapshot id;
                                   EvLog "Waiting for snapshot to be deleted";
                                   EvSleep])%list + 3 * i
               = List.length tr + 3 * S i).
    { intros i. rewrite length_app. cbn [List.length]. lia. }
    apply IH.
    + intros i Hi. rewrite Hlen. apply Hctx. lia.
    + intros i Hi. rewrite Hlen. apply Hpoll. lia.
    + rewrite Hlen. exact Hnf.
Qed.

(** X6.  [Delete] does return: when the removal is accepted, the snapshot
    is still found by the first [k] confirmation fetches and reported
    not-found by the next, the request staying live, fuel for [k + 1]
    rounds gives a response without diagnostics. *)
Theorem Delete_confirms_removal (k fuel : nat) (state : Model F) (tr : Trace) :
  ValueBool (KeepRemotely state) = false ->
  removeSnapshot env (List.length tr) (ValueString (Id state)) = Ok tt ->
  (forall i, i <= k -> ctxDone env (List.length tr + 1 + 3 * i) = false) ->
  (forall i, i < k ->
     exists s, getSnapshot env (List.length tr + 1 + 3 * i)
                 (ValueString (Id state)) = Ok s) ->
  notFound (getSnapshot env (List.length tr + 1 + 3 * k)
              (ValueString (Id state))) = true ->
  exists tr', Delete env (S k + fuel) state tr = Some ([], tr').
Proof.
  intros Hkeep Hrm Hctx Hpoll Hnf. unfold Delete. rewrite Hkeep.
  unfold deleteSnapshot. run. rewrite Hrm.
  destruct (deletionLoop_reaches k fuel (ValueString (Id state))
              (tr ++ [EvRemoveSnapshot (ValueString (Id state))])%list)
    as [tr' Hloop].
  - intros i Hi. rewrite length_app. cbn [List.length]. now apply Hctx.
  - intros i Hi. rewrite length_app. cbn [List.length]. now apply Hpoll.
  - rewrite length_app. cbn [List.length]. exact Hnf.
  - exists tr'. now rewrite Hloop.
Qed.

(** X7.  The deletion-confirmation polling has no retry limit: when the
    removal is accepted but every later fetch still finds the snapshot and
    the request stays live, [Delete] does not return, whatever the fuel. *)
Theorem Delete_has_no_retry_limit (fuel : nat) (state : Model F) (tr : Trace) :
  ValueBool (KeepRemotely state) = false ->
  removeSnapshot env (List.length tr) (ValueString (Id state)) = Ok tt ->
  (forall t, List.length tr < t -> ctxDone env t = false) ->
  (forall t, List.length tr < t ->
     exists s, getSnapshot env t (ValueString (Id state)) = Ok s) ->
  Delete env fuel state tr = None.
Proof.
  intros Hkeep Hrm Hctx Hget. unfold Delete. rewrite Hkeep.
  unfold deleteSnapshot. run. rewrite Hrm.
  assert (Hloop : forall t0,
             List.length tr < List.length t0 ->
             deletionLoop env fuel (ValueString (Id state)) [] [] [] t0 = None).
  { induction fuel as [|n IH]; intros t0 Hlt; [reflexivity |].
    rewrite (deletionLoop_round _ _ _ _ _ _ _ (Hctx _ Hlt)).
    destruct (Hget _ Hlt) as [s ->]. apply IH. rewrite length_app. lia. }
  rewrite Hloop; [reflexivity |]. rewrite length_app. cbn [List.length]. lia.
Qed.

(** ** Registration *)

(** X8.  [registerSnapshot] makes exactly one call.  Its request carries the
    record's name and the target reference; each of cpu, memory and disk is
    left out exactly when the record's field is null, and an undetermined
    field is sent as 0.  The response decides the outcome: no diagnostic, or
    the single error "Client Error". *)
Theorem registerSnapshot_request (data : Model F) (targetImage : string) (tr : Trace) :
  let sent (v : tfval Z) :=
    match v with Null => None | Unknown => Some 0%Z | Known z => Some z end in
  let request :=
    apiclient.mkCreateSnapshot (ValueString (Name data)) (Some targetImage)
      (sent (Cpu data)) (sent (Memory data)) (sent (Disk data)) in
  registerSnapshot env data targetImage tr
  = Some (match apiCreateSnapshot env (List.length tr) request with
          | Ok _ => ([], [])
          | Err _ err =>
              ([], [mkDiag SeverityError "Client Error"
                      ("Unable to create snapshot, got error: " ++ err)])
          end,
          (tr ++ [EvCreateSnapshot request])%list).
Proof.
  intros sent request. unfold registerSnapshot. run.
  replace (apiclient.mkCreateSnapshot _ _ _ _ _) with request.
  - destruct (apiCreateSnapshot env (List.length tr) request); reflexivity.
  - unfold request, sent.
    destruct (Cpu data), (Memory data), (Disk data); reflexivity.
Qed.

(** ** Publishing *)

Lemma manifestLoop_round (fuel : nat) (t a : string)
    (warns errors : Diagnostics) (tr : Trace) :
  ctxDone env (List.length tr) = false ->
  manifestLoop env (S fuel) t a warns errors tr
  = match distributionInspect env (List.length tr) t a with
    | None => Some ((t, warns, errors), (tr ++ [EvDistributionInspect t a])%list)
    | Some _ =>
        manifestLoop env fuel t a warns errors
          (tr ++ [EvDistributionInspect t a;
                  EvLog "Waiting for the image to become available"; EvSleep])%list
    end.
Proof.
  intros Hctx. cbn [manifestLoop]. run. rewrite Hctx. run.
  destruct (distributionInspect env (List.length tr) t a); [| reflexivity].
  run. now rewrite <- !app_assoc.
Qed.

Lemma manifestLoop_inv (fuel : nat) (t a : string) (tr : Trace)
    (t' : string) (warns errors : Diagnostics) (tr' : Trace) :
  manifestLoop env fuel t a [] [] tr = Some ((t', warns, errors), tr') ->
  t' = t /\ warns = []
  /\ ((errors = []
       /\ exists k,
            tr' = (tr ++ failedProbes t a k ++ [EvDistributionInspect t a])%list
            /\ (forall i, i < k ->
                  distributionInspect env (List.length tr + 3 * i) t a <> None)
            /\ distributionInspect env (List.length tr + 3 * k) t a = None)
      \/ exists detail,
           errors = [mkDiag SeverityError "Image Availability Error" detail]).
Proof.
  revert tr. induction fuel as [|fuel IH]; intros tr; [discriminate |].
  destruct (ctxDone env (List.length tr)) eqn:Hctx.
  - rewrite (manifestLoop_cancelled _ _ _ _ _ _ _ Hctx).
    intros [= <- <- <- <-]. do 2 (split; [reflexivity |]). right.
    eexists. reflexivity.
  - rewrite (manifestLoop_round _ _ _ _ _ _ Hctx).
    destruct (distributionInspect env (List.length tr) t a) eqn:Hins.
    + intros H. apply IH in H as [-> [-> Hcases]].
      do 2 (split; [reflexivity |]).
      destruct Hcases as [[-> [k [-> [Hfail Hnone]]]] | Herr]; [left | now right].
      split; [reflexivity |]. exists (S k).
      assert (Hlen : forall i,
                 List.length (tr ++ [EvDistributionInspect t a;
                                     EvLog "Waiting for the image to become available";
                                     EvSleep])%list + 3 * i
                 = List.length tr + 3 * S i).
      { intros i. rewrite length_app. cbn [List.length]. lia. }
      split; [| split].
      * unfold failedProbes. cbn [repeat List.concat]. now rewrite <- !app_assoc.
      * intros [|i] Hi.
        -- rewrite Nat.mul_0_r, Nat.add_0_r, Hins. discriminate.
        -- rewrite <- Hlen. apply Hfail. lia.
      * rewrite <- Hlen. exact Hnone.
    + intros [= <- <- <- <-]. do 2 (split; [reflexivity |]). left.
      split; [reflexivity |]. exists 0. split; [reflexivity |]. split.
      * intros i Hi. lia.
      * now rewrite Nat.mul_0_r, Nat.add_0_r.
Qed.

(** X9.  Whatever a publish call returns, it returns no warning and at most
    one diagnostic, an error.  When it returns none, the calls it made are
    exactly these, in this order: the push-access request, the inspection
    of the local image, the clock reading, the tagging of the local image
    under the returned reference, the push of that reference with the
    encoded credentials of the access grant, the draining of the push
    output, some number [k] of failed manifest probes, each followed by a
    log line and a sleep, the manifest probe that succeeded, and the
    closing of the push output; and the returned reference is the one
    computed from the grant, the local image name and the clock reading. *)
Theorem pushImageToRegistry_result (fuel : nat) (L : string) (tr : Trace)
    (target : string) (warns errors : Diagnostics) (tr' : Trace) :
  pushImageToRegistry env fuel L tr = Some ((target, warns, errors), tr') ->
  warns = []
  /\ ((errors = []
       /\ exists tok enc k,
            getTransientPushAccess env (List.length tr) = Ok tok
            /\ jsonMarshal env
                 (mkAuthConfig (apiclient.Username tok) (apiclient.Secret tok)
                               (apiclient.RegistryUrl tok)) = inl enc
            /\ target = targetImageName (apiclient.RegistryUrl tok)
                          (apiclient.Project tok) L
                          (timeNow env (List.length tr + 2))
            /\ tr' = (tr ++ [EvGetTransientPushAccess; EvImageInspect L;
                             EvTimeNow; EvImageTag L target;
                             EvImagePush target (base64URL env enc);
                             EvCopyPushOutput]
                         ++ failedProbes target (base64URL env enc) k
                         ++ [EvDistributionInspect target (base64URL env enc);
                             EvPushReaderClose])%list
            /\ (forall i, i < k ->
                  distributionInspect env (List.length tr + 6 + 3 * i)
                    target (base64URL env enc) <> None)
            /\ distributionInspect env (List.length tr + 6 + 3 * k)
                 target (base64URL env enc) = None)
      \/ exists summary detail, errors = [mkDiag SeverityError summary detail]).
Proof.
  unfold pushImageToRegistry. run.
  destruct (getTransientPushAccess env (List.length tr)) as [tok | st e].
  2:{ intros [= <- <- <- <-]. split; [reflexivity |]. right. now do 2 eexists. }
  destruct (jsonMarshal env _) as [enc | e] eqn:Henc.
  2:{ intros [= <- <- <- <-]. split; [reflexivity |]. right. now do 2 eexists. }
  run. destruct (imageInspect env _ L).
  { intros [= <- <- <- <-]. split; [reflexivity |]. right. now do 2 eexists. }
  run. rewrite !length_app. cbn [List.length].
  replace (List.length tr + 1 + 1) with (List.length tr + 2) by lia.
  set (T := targetImageName _ _ L _).
  destruct (imageTag env _ L T).
  { intros [= <- <- <- <-]. split; [reflexivity |]. right. now do 2 eexists. }
  run. destruct (imagePush env _ T _).
  { intros [= <- <- <- <-]. split; [reflexivity |]. right. now do 2 eexists. }
  run. destruct (copyPushOutput env _).
  { intros [= <- <- <- <-]. split; [reflexivity |]. right. now do 2 eexists. }
  match goal with
  | |- context [manifestLoop env fuel T ?a ?w ?e ?t] =>
      destruct (manifestLoop env fuel T a w e t) as [[[[t1 w1] e1] tr1] |] eqn:Hloop
  end; [| discriminate].
  intros [= <- <- <- <-]. apply manifestLoop_inv in Hloop as [-> [-> Hcases]].
  split; [reflexivity |].
  destruct Hcases as [[-> [k [-> [Hfail Hnone]]]] | [detail ->]];
    [left | right; now do 2 eexists].
  split; [reflexivity |]. exists tok, enc, k.
  assert (Hlen : forall j,
             List.length
               ((((((tr ++ [EvGetTransientPushAccess]) ++ [EvImageInspect L])
                   ++ [EvTimeNow]) ++ [EvImageTag L T])
                 ++ [EvImagePush T (base64URL env enc)])
                ++ [EvCopyPushOutput])%list + j
             = List.length tr + 6 + j).
  { intros j. rewrite !length_app. cbn [List.length]. lia. }
  split; [reflexivity |]. split; [exact Henc |]. split; [reflexivity |].
  split; [rewrite <- !app_assoc; reflexivity |]. split.
  - intros i Hi. rewrite <- Hlen. now apply Hfail.
  - rewrite <- Hlen. exact Hnone.
Qed.

(** X10.  A publish call fails fast when the local image does not exist:
    whatever the fuel, it returns the error "Image Not Found" after the
    push-access request and the inspection, and neither tags nor pushes
    anything. *)
Theorem pushImageToRegistry_missing_image (fuel : nat) (L : string) (tr : Trace)
    (tok : apiclient.RegistryPushAccessDto) (enc err : string) :
  getTransientPushAccess env (List.length tr) = Ok tok ->
  jsonMarshal env
    (mkAuthConfig (apiclient.Username tok) (apiclient.Secret tok)
                  (apiclient.RegistryUrl tok)) = inl enc ->
  imageInspect env (List.length tr + 1) L = Some err ->
  pushImageToRegistry env fuel L tr
  = Some (("", [],
           [mkDiag SeverityError "Image Not Found"
              ("Local image " ++ fmtQ env L ++ " not found: " ++ err)]),
          (tr ++ [EvGetTransientPushAccess; EvImageInspect L])%list).
Proof.
  intros Htok Henc Hins. unfold pushImageToRegistry. run.
  rewrite Htok, Henc. run. rewrite length_app. cbn [List.length].
  rewrite Hins. now rewrite <- app_assoc.
Qed.

(** X11.  The manifest-readiness polling has no retry limit: while the
    request is live and every probe of the pushed reference fails, the loop
    does not return, whatever the fuel. *)
Theorem manifest_polling_has_no_retry_limit (fuel : nat) (t a : string)
    (warns errors : Diagnostics) (tr : Trace) :
  (forall n, List.length tr <= n -> ctxDone env n = false) ->
  (forall n, List.length tr <= n -> distributionInspect env n t a <> None) ->
  manifestLoop env fuel t a warns errors tr = None.
Proof.
  revert tr. induction fuel as [|fuel IH]; intros tr Hctx Hins; [reflexivity |].
  rewrite (manifestLoop_round _ _ _ _ _ _ (Hctx _ (le_n _))).
  destruct (distributionInspect env (List.length tr) t a) eqn:H0.
  - apply IH; intros n Hn; [apply Hctx | apply Hins];
      rewrite length_app in Hn; lia.
  - now elim (Hins _ (le_n _)).
Qed.

(** ** Creation *)

Lemma Append_nothing (diags : Diagnostics) : Append diags [] = diags.
Proof. reflexivity. Qed.

Lemma Append_first (d : Diagnostic) : Append [] [d] = [d].
Proof. reflexivity. Qed.

Lemma maybeCleanup_inv (fuel : nat) (name : string) (tr : Trace)
    (warns errors : Diagnostics) (tr' : Trace) :
  maybeCleanupExistingCreationAttempt env fuel name tr = Some ((warns, errors), tr') ->
  (warns = [] \/ exists detail, warns = [mkDiag SeverityWarning "Cleanup Warning" detail])
  /\ (errors = [] \/ exists detail, errors = [mkDiag SeverityError "Snapshot Check" detail]).
Proof.
  unfold maybeCleanupExistingCreationAttempt. run.
  destruct (getSnapshot env (List.length tr) name) as [s | [code |] e];
    cbn [notFound]; try destruct (code =? 404)%Z; run;
    try (intros [= <- <- _]; split; [now left | first [now left | right; now eexists]]).
  intros H. apply cleanupLoop_keeps in H. injection H as -> ->.
  split; [| now left].
  destruct (removeSnapshot env _ _); [now left | right; now eexists].
Qed.

Lemma registerSnapshot_run (data : Model F) (targetImage : string) (tr : Trace) :
  exists request,
    apiclient.req_Name request = ValueString (Name data)
    /\ apiclient.req_ImageName request = Some targetImage
    /\ registerSnapshot env data targetImage tr
       = Some (match apiCreateSnapshot env (List.length tr) request with
               | Ok _ => ([], [])
               | Err _ err =>
                   ([], [mkDiag SeverityError "Client Error"
                           ("Unable to create snapshot, got error: " ++ err)])
               end,
               (tr ++ [EvCreateSnapshot request])%list).
Proof.
  exists (apiclient.mkCreateSnapshot (ValueString (Name data)) (Some targetImage)
            (if IsNull (Cpu data) then None else Some (ValueInt32 (Cpu data)))
            (if IsNull (Memory data) then None else Some (ValueInt32 (Memory data)))
            (if IsNull (Disk data) then None else Some (ValueInt32 (Disk data)))).
  split; [reflexivity |]. split; [reflexivity |].
  unfold registerSnapshot. run. cbn [apiclient.NewCreateSnapshot apiclient.req_Name].
  destruct (apiCreateSnapshot env (List.length tr) _); reflexivity.
Qed.

Lemma availabilityLoop_success (fuel : nat) (name : string) (tr : Trace)
    (snap : option (SnapshotDto F)) (warns : Diagnostics) (tr' : Trace) :
  availabilityLoop env fuel name [] [] tr = Some ((snap, warns, []), tr') ->
  exists s mid,
    snap = Some s
    /\ apiclient.State s = apiclient.SNAPSHOTSTATE_ACTIVE
    /\ tr' = (tr ++ mid ++ [EvGetSnapshot name])%list
    /\ getSnapshot env (List.length (tr ++ mid)%list) name = Ok s.
Proof.
  revert tr. induction fuel as [|fuel IH]; intros tr; [discriminate |].
  destruct (ctxDone env (List.length tr)) eqn:Hctx.
  - rewrite (availabilityLoop_cancelled _ _ _ _ _ _ Hctx). intros H.
    injection H as _ _ H _. discriminate H.
  - rewrite (availabilityLoop_unfold _ _ _ _ _ _ Hctx).
    destruct (getSnapshot env (List.length tr) name) as [s | st e] eqn:Hget.
    + unfold state_is.
      destruct (String.eqb_spec (apiclient.State s) apiclient.SNAPSHOTSTATE_ACTIVE)
        as [Hact | _].
      * intros [= <- <- <-]. exists s, []. rewrite app_nil_r.
        now repeat split.
      * destruct (_ || _).
        -- intros H. injection H as _ _ H _. discriminate H.
        -- intros H. apply IH in H as [s' [mid [-> [Hact [-> Hget']]]]].
           exists s', ([EvGetSnapshot name]
                       ++ [EvLog "Waiting for the snapshot to be processed"; EvSleep]
                       ++ mid)%list.
           repeat split; try assumption.
           ++ now rewrite <- !app_assoc.
           ++ rewrite <- Hget'. f_equal. now rewrite <- !app_assoc.
    + intros H. injection H as _ _ H _. discriminate H.
Qed.

Lemma createSnapshotTail_inv (fuel : nat) (data : Model F) (target : string)
    (warns : Diagnostics) (tr : Trace) (fr : CreateFrame) (tr' : Trace) :
  createSnapshotTail env fuel data target warns [] tr = Some (fr, tr') ->
  fr_warns fr = warns
  /\ ((fr_data fr = data
       /\ exists summary detail, fr_errs fr = [mkDiag SeverityError summary detail])
      \/ (fr_errs fr = []
          /\ exists s request mid,
               apiclient.State s = apiclient.SNAPSHOTSTATE_ACTIVE
               /\ fr_data fr = populateFrom env data s
               /\ apiclient.req_Name request = ValueString (Name data)
               /\ apiclient.req_ImageName request = Some target
               /\ tr' = ((tr ++ [EvCreateSnapshot request] ++ mid)
                         ++ [EvGetSnapshot (ValueString (Name data))])%list
               /\ getSnapshot env
                    (List.length (tr ++ [EvCreateSnapshot request] ++ mid)%list)
                    (ValueString (Name data)) = Ok s)).
Proof.
  unfold createSnapshotTail. intros H.
  apply bind_inv in H as [[w1 e1] [tr1 [Hreg H]]].
  destruct (registerSnapshot_run data target tr) as [request [Hn [Hi Hrun]]].
  rewrite Hrun in Hreg.
  destruct (apiCreateSnapshot env (List.length tr) request);
    injection Hreg as <- <- <-; cbv zeta in H;
    rewrite ?Append_nothing, ?Append_first in H; cbn [HasError existsb is_error
      severity severity_eqb orb] in H.
  - apply bind_inv in H as [[[snap w2] e2] [tr2 [Hens H]]].
    pose proof Hens as Hlast.
    apply availabilityLoop_inv in Hens as [-> [[-> _] | [dt ->]]];
      cbv zeta in H; rewrite ?Append_nothing, ?Append_first in H;
      cbn [HasError existsb is_error severity severity_eqb orb] in H.
    + apply availabilityLoop_success in Hlast
        as [s [mid [-> [Hact [-> Hget]]]]].
      injection H as <- <-. cbn [fr_warns fr_errs fr_data].
      split; [reflexivity |]. right. split; [reflexivity |].
      exists s, request, mid. rewrite <- !app_assoc in Hget.
      repeat split; try assumption. now rewrite <- !app_assoc.
    + injection H as <- <-. cbn [fr_warns fr_errs fr_data].
      split; [reflexivity |]. left. split; [reflexivity |]. now do 2 eexists.
  - injection H as <- <-. cbn [fr_warns fr_errs fr_data].
    split; [reflexivity |]. left. split; [reflexivity |]. now do 2 eexists.
Qed.

Lemma pushImageToRegistry_inv (fuel : nat) (L : string) (tr : Trace)
    (target : string) (warns errors : Diagnostics) (tr' : Trace) :
  pushImageToRegistry env fuel L tr = Some ((target, warns, errors), tr') ->
  warns = []
  /\ ((errors = [] /\ In (EvImageTag L target) tr')
      \/ exists summary detail, errors = [mkDiag SeverityError summary detail]).
Proof.
  intros H. pose proof H as Hres.
  destruct errors as [|d errors].
  - assert (Hne : HasError [] = false) by reflexivity.
    destruct (pushImageToRegistry_target env _ _ _ _ _ _ _ H Hne) as [tok [_ [_ Hin]]].
    clear Hne. revert Hres. unfold pushImageToRegistry. run.
    destruct (getTransientPushAccess env _); [| discriminate].
    destruct (jsonMarshal env _); [| discriminate].
    run. destruct (imageInspect env _ L); [discriminate |].
    run. destruct (imageTag env _ L _); [discriminate |].
    run. destruct (imagePush env _ _ _); [discriminate |].
    run. destruct (copyPushOutput env _); [discriminate |].
    match goal with
    | |- context [manifestLoop env fuel ?T ?a ?w ?e ?t] =>
        destruct (manifestLoop env fuel T a w e t) as [[[[t1 w1] e1] tr1] |] eqn:Hloop
    end; [| discriminate].
    intros [= _ <- _ _]. apply manifestLoop_inv in Hloop as [_ [-> _]].
    split; [reflexivity |]. left. now split.
  - revert Hres. unfold pushImageToRegistry. run.
    destruct (getTransientPushAccess env _).
    2:{ intros [= _ <- <- <- _]. split; [reflexivity |]. right. now do 2 eexists. }
    destruct (jsonMarshal env _).
    2:{ intros [= _ <- <- <- _]. split; [reflexivity |]. right. now do 2 eexists. }
    run. destruct (imageInspect env _ L).
    { intros [= _ <- <- <- _]. split; [reflexivity |]. right. now do 2 eexists. }
    run. destruct (imageTag env _ L _).
    { intros [= _ <- <- <- _]. split; [reflexivity |]. right. now do 2 eexists. }
    run. destruct (imagePush env _ _ _).
    { intros [= _ <- <- <- _]. split; [reflexivity |]. right. now do 2 eexists. }
    run. destruct (copyPushOutput env _).
    { intros [= _ <- <- <- _]. split; [reflexivity |]. right. now do 2 eexists. }
    match goal with
    | |- context [manifestLoop env fuel ?T ?a ?w ?e ?t] =>
        destruct (manifestLoop env fuel T a w e t) as [[[[t1 w1] e1] tr1] |] eqn:Hloop
    end; [| discriminate].
    intros [= _ <- He1 _]. apply manifestLoop_inv in Hloop as [_ [-> Hc]].
    split; [reflexivity |]. right.
    destruct Hc as [[-> _] | [dt ->]]; [discriminate He1 |].
    injection He1 as <- <-. now do 2 eexists.
Qed.

Lemma createSnapshot_inv (fuel : nat) (data : Model F) (tr : Trace)
    (data' : Model F) (infos warns errs : Diagnostics) (tr' : Trace) :
  createSnapshot env fuel data tr = Some ((data', (infos, warns, errs)), tr') ->
  infos = []
  /\ (warns = [] \/ exists detail, warns = [mkDiag SeverityWarning "Cleanup Warning" detail])
  /\ ((data' = data
       /\ exists summary detail, errs = [mkDiag SeverityError summary detail])
      \/ (errs = []
          /\ exists s target request pre,
               apiclient.State s = apiclient.SNAPSHOTSTATE_ACTIVE
               /\ getSnapshot env (List.length pre) (ValueString (Name data)) = Ok s
               /\ data' = populateFrom env data s
               /\ apiclient.req_Name request = ValueString (Name data)
               /\ apiclient.req_ImageName request = Some target
               /\ tr' = (pre ++ [EvGetSnapshot (ValueString (Name data));
                                 EvImageRemove target; EvDockerClose])%list
               /\ In (EvImageTag (ValueString (ImageName data)) target) pre
               /\ In (EvCreateSnapshot request) pre)).
Proof.
  unfold createSnapshot. intros H.
  apply bind_inv in H as [[w0 e0] [tr0 [Hcl H]]].
  apply maybeCleanup_inv in Hcl as [Hw0 He0]. cbv zeta in H.
  assert (Hw : Append [] w0 = w0).
  { destruct Hw0 as [-> | [dt ->]]; reflexivity. }
  rewrite Hw in H.
  destruct He0 as [-> | [dt ->]]; rewrite ?Append_nothing, ?Append_first in H;
    cbn [HasError existsb is_error severity severity_eqb orb] in H.
  2:{ injection H as <- <- <- <- <-. split; [reflexivity |]. split; [exact Hw0 |].
      left. split; [reflexivity |]. now do 2 eexists. }
  apply bind_inv in H as [dc [tr1 [_ H]]].
  destruct dc as [err |].
  { injection H as <- <- <- <- <-. split; [reflexivity |]. split; [exact Hw0 |].
    left. split; [reflexivity |]. now do 2 eexists. }
  apply bind_inv in H as [fr [tr2 [Hblock H]]].
  assert (Hend : tr' = (tr2 ++ [EvDockerClose])%list
                 /\ (data', (infos, warns, errs)) = frameResults fr).
  { revert H. run. now intros [= <- <- <- <- <-]. }
  destruct Hend as [-> Hres]. clear H.
  apply bind_inv in Hblock as [[[target w1] e1] [tr3 [Hpush H]]].
  apply pushImageToRegistry_inv in Hpush as [-> [[-> Htag] | [sm [dt ->]]]];
    cbv zeta in H; rewrite ?Append_nothing, ?Append_first in H;
    cbn [HasError existsb is_error severity severity_eqb orb] in H.
  2:{ injection H as <- <-. injection Hres as -> -> -> ->.
      split; [reflexivity |]. split; [exact Hw0 |].
      left. split; [reflexivity |]. now do 2 eexists. }
  apply bind_inv in H as [fr0 [tr4 [Htail Huntag]]].
  destruct (untagDeferred_results env target fr0 tr4) as [fr' [Hrun Hsame]].
  rewrite Hrun in Huntag. injection Huntag as <- <-.
  rewrite Hsame in Hres. unfold frameResults in Hres.
  injection Hres as -> -> -> ->.
  apply createSnapshotTail_inv in Htail as [Hwarns Hcases].
  split; [reflexivity |]. split; [now rewrite Hwarns |].
  destruct Hcases
    as [[Hd [sm [dt He]]]
       | [He [s [request [mid [Hact [Hd [Hn [Hi [-> Hget]]]]]]]]]].
  - left. split; [exact Hd | now exists sm, dt].
  - right. split; [exact He |].
    exists s, target, request, (tr3 ++ [EvCreateSnapshot request] ++ mid)%list.
    repeat split; try assumption.
    + now rewrite <- !app_assoc.
    + apply in_or_app. now left.
    + apply in_or_app. right. now left.
Qed.

(** X12.  Whatever [Create] returns, its diagnostics are at most one
    warning, the reconciler's "Cleanup Warning", followed by at most one
    error.  With an error nothing is persisted.  Without one, the last
    fetch of the run asked for the planned name, the platform answered it
    with a snapshot in state [active], and the persisted record is the plan
    populated from that answer; the run then ended by removing the very
    reference it had tagged and registered, and closing the Docker
    client. *)
Theorem Create_result (fuel : nat) (plan : Model F) (tr : Trace)
    (diags : Diagnostics) (persisted : option (Model F)) (tr' : Trace) :
  Create env fuel plan tr = Some ((diags, persisted), tr') ->
  exists warns,
    (warns = []
     \/ exists detail, warns = [mkDiag SeverityWarning "Cleanup Warning" detail])
    /\ ((persisted = None
         /\ exists summary detail,
              diags = (warns ++ [mkDiag SeverityError summary detail])%list)
        \/ (diags = warns
            /\ exists s target request pre,
                 apiclient.State s = apiclient.SNAPSHOTSTATE_ACTIVE
                 /\ getSnapshot env (List.length pre) (ValueString (Name plan))
                    = Ok s
                 /\ persisted = Some (populateFrom env plan s)
                 /\ apiclient.req_Name request = ValueString (Name plan)
                 /\ apiclient.req_ImageName request = Some target
                 /\ tr' = (pre ++ [EvGetSnapshot (ValueString (Name plan));
                                   EvImageRemove target; EvDockerClose])%list
                 /\ In (EvImageTag (ValueString (ImageName plan)) target) pre
                 /\ In (EvCreateSnapshot request) pre)).
Proof.
  unfold Create. intros H.
  apply bind_inv in H as [[data' [[infos warns] errs]] [tr1 [Hcs H]]].
  apply createSnapshot_inv in Hcs as [-> [Hw Hcases]].
  exists warns. split; [exact Hw |].
  destruct Hcases as [[-> [sm [dt ->]]] | [-> Hok]].
  - left. revert H. run.
    destruct Hw as [-> | [wd ->]]; intros [= <- <- _];
      (split; [reflexivity | now exists sm, dt]).
  - right. revert H. run.
    destruct Hok as [s [target [request [pre [Hact [Hget [-> Hrest]]]]]]].
    destruct Hw as [-> | [wd ->]]; intros [= <- <- <-];
      (split; [reflexivity |]); exists s, target, request, pre; tauto.
Qed.

(** ** Update *)

Lemma maybeCleanup_removes (fuel : nat) (name : string)
    (existing : SnapshotDto F) (tr : Trace)
    (res : Diagnostics * Diagnostics) (tr' : Trace) :
  getSnapshot env (List.length tr) name = Ok existing ->
  maybeCleanupExistingCreationAttempt env fuel name tr = Some (res, tr') ->
  exists ext,
    tr' = (tr ++ [EvGetSnapshot name;
                  EvLog "Found existing snapshot, deleting it";
                  EvRemoveSnapshot (apiclient.Id existing)] ++ ext)%list.
Proof.
  intros Hget. unfold maybeCleanupExistingCreationAttempt. run. rewrite Hget. run.
  intros H. apply extends_cleanupLoop in H as [ext ->].
  exists ext. now rewrite <- !app_assoc.
Qed.

(** X13.  Keeping the old snapshot does not protect it when it still holds
    the planned name.  In the replacement branch of [Update] with
    keep-remotely set on the plan, the old snapshot's deletion is skipped
    with a log line, but the creation that follows starts with the
    reconciler, which looks the planned name up and requests the removal of
    whatever snapshot it finds under it. *)
Theorem Update_keep_remotely_still_removes_namesake (fuel : nat)
    (plan state : Model F) (existing : SnapshotDto F) (tr : Trace)
    (res : Diagnostics * option (Model F)) (tr' : Trace) :
  shouldRecreate plan state = true ->
  ValueBool (KeepRemotely plan) = true ->
  getSnapshot env (List.length tr + 1) (ValueString (Name plan)) = Ok existing ->
  Update env fuel plan state tr = Some (res, tr') ->
  exists ext,
    tr' = (tr ++ [EvLog "Skipping old snapshot deletion during recreation due to keep_remotely=true";
                  EvGetSnapshot (ValueString (Name plan));
                  EvLog "Found existing snapshot, deleting it";
                  EvRemoveSnapshot (apiclient.Id existing)] ++ ext)%list.
Proof.
  intros Hre Hkeep Hget. unfold Update. rewrite Hre. unfold recreate.
  rewrite Hkeep. cbn [negb]. intros H.
  apply bind_inv in H as [diags [tr1 [Hlog H]]].
  revert Hlog. run. intros [= <- <-].
  cbn [HasError existsb] in H.
  apply bind_inv in H as [[data d] [tr2 [Hcs H]]].
  revert H. run. intros [= _ <-]. clear res.
  unfold createSnapshot in Hcs.
  apply bind_inv in Hcs as [a [tr3 [Hcl Hk]]].
  apply maybeCleanup_removes with (existing := existing) in Hcl as [ext1 ->].
  2:{ rewrite length_app. cbn [List.length]. exact Hget. }
  match type of Hk with
  | ?m _ = _ => assert (Hgrow : extends m)
  end.
  { grow; first [ apply extends_manifestLoop | apply extends_availabilityLoop ]. }
  apply Hgrow in Hk as [ext2 ->].
  exists (ext1 ++ ext2)%list. rewrite <- !app_assoc. reflexivity.
Qed.

(** X14.  When the deletion of the old snapshot ends with an error, the
    replacement branch of [Update] stops there: it returns the deletion's
    diagnostics, persists nothing, and makes no call of the creation
    workflow, its trace being the deletion's. *)
Theorem Update_stops_when_old_delete_fails (fuel : nat) (plan state : Model F)
    (tr : Trace) (infos warns errors : Diagnostics) (tr1 : Trace) :
  shouldRecreate plan state = true ->
  ValueBool (KeepRemotely plan) = false ->
  deleteSnapshot env fuel state tr = Some ((infos, warns, errors), tr1) ->
  HasError errors = true ->
  Update env fuel plan state tr
  = Some ((appendPhase [] (infos, warns, errors), None), tr1).
Proof.
  intros Hre Hkeep Hdel Herr. unfold Update. rewrite Hre. unfold recreate.
  rewrite Hkeep. cbn [negb]. unfold bind at 1. unfold bind at 1.
  rewrite Hdel. run.
  assert (Hall : HasError (appendPhase [] (infos, warns, errors)) = true).
  { unfold appendPhase. rewrite HasError_Append, Herr. apply orb_true_r. }
  rewrite Hall. reflexivity.
Qed.

Lemma withName_same (data : Model F) : withName data (Name data) = data.
Proof. now destruct data. Qed.

(** X15.  Outside the replacement branch, [Update] is [Read] applied to the
    planned record, with the prior record's id in place of an undetermined
    one; carrying the name over never changes anything there, since an
    undetermined planned name that differs from the prior one forces
    replacement.  In particular the in-place branch needs no fuel. *)
Theorem Update_in_place_is_Read (fuel : nat) (plan state : Model F) (tr : Trace) :
  shouldRecreate plan state = false ->
  Update env fuel plan state tr
  = Read env (if IsUnknown (Id plan) then withId plan (Id state) else plan) tr.
Proof.
  intros Hno. unfold Update. rewrite Hno. unfold refreshInPlace, Read.
  assert (Hname : Name plan = Name state).
  { unfold shouldRecreate in Hno. apply orb_false_iff in Hno as [Hno _].
    apply orb_false_iff in Hno as [Hno _]. apply orb_false_iff in Hno as [Hno _].
    apply orb_false_iff in Hno as [_ Hno]. apply negb_false_iff in Hno.
    now apply StringEqual_true. }
  cbv zeta.
  set (data := if IsUnknown (Id plan) then withId plan (Id state) else plan).
  assert (Hd : Name data = Name state).
  { unfold data. destruct (IsUnknown (Id plan)); exact Hname. }
  destruct (IsUnknown (Name data)); [| reflexivity].
  now rewrite <- Hd, withName_same.
Qed.

(** ** Round trips *)

Lemma refreshFrom_populateFrom (data : Model F) (s : SnapshotDto F) :
  refreshFrom env (populateFrom env data s) s = populateFrom env data s.
Proof.
  unfold refreshFrom, populateFrom. cbn.
  destruct (apiclient.ImageName s), (apiclient.OrganizationId s),
    (apiclient.Size s); reflexivity.
Qed.

Lemma refreshFrom_idempotent (data : Model F) (s : SnapshotDto F) :
  refreshFrom env (refreshFrom env data s) s = refreshFrom env data s.
Proof.
  unfold refreshFrom. cbn.
  destruct (apiclient.ImageName s), (apiclient.OrganizationId s),
    (apiclient.Size s); reflexivity.
Qed.

(** X16.  Reading is stable.  When the platform answers a fetch with the
    snapshot [s], [Read] returns without diagnostics the very record it was
    given if that record was populated from [s] by a creation, refreshed
    from [s] by an earlier read, or produced from [s] by an import. *)
Theorem Read_is_stable (s : SnapshotDto F) (tr : Trace) :
  (forall key, getSnapshot env (List.length tr) key = Ok s) ->
  (forall data,
      Read env (populateFrom env data s) tr
      = Some (([], Some (populateFrom env data s)),
              (tr ++ [EvGetSnapshot (apiclient.Id s)])%list))
  /\ (forall data,
         Read env (refreshFrom env data s) tr
         = Some (([], Some (refreshFrom env data s)),
                 (tr ++ [EvGetSnapshot (ValueString (Id data))])%list))
  /\ (forall id tr0,
         getSnapshot env (List.length tr0) id = Ok s ->
         exists imported,
           ImportState env id tr0
           = Some (([], Some imported), (tr0 ++ [EvGetSnapshot id])%list)
           /\ Read env imported tr
              = Some (([], Some imported),
                      (tr ++ [EvGetSnapshot (apiclient.Id s)])%list)).
Proof.
  intros Hget. repeat split.
  - intros data. unfold Read, bind. rewrite readSnapshot_outcome, Hget.
    now rewrite refreshFrom_populateFrom.
  - intros data. unfold Read, bind. rewrite readSnapshot_outcome, Hget.
    now rewrite refreshFrom_idempotent.
  - intros id tr0 Hget0. eexists. split.
    + unfold ImportState. run. rewrite Hget0. reflexivity.
    + unfold Read, bind. rewrite readSnapshot_outcome. cbn [Id ValueString].
      rewrite Hget. unfold refreshFrom. cbn.
      destruct (apiclient.ImageName s), (apiclient.OrganizationId s),
        (apiclient.Size s); reflexivity.
Qed.

(** X17.  After an import, a planned local image name of any value does not
    by itself force replacement: with the imported record as the prior one
    and a known planned image name, [Update] replaces exactly when name,
    cpu, memory or disk differ. *)
Theorem Update_after_import (id : string) (tr0 tr1 : Trace)
    (imported plan : Model F) (image : string) :
  ImportState env id tr0 = Some (([], Some imported), tr1) ->
  ImageName plan = Known image ->
  (shouldRecreate plan imported = true
   <-> Name plan <> Name imported \/ Cpu plan <> Cpu imported
       \/ Memory plan <> Memory imported \/ Disk plan <> Disk imported).
Proof.
  intros Himp Himg.
  assert (Hempty : ImageName imported = Known "").
  { revert Himp. unfold ImportState. run.
    destruct (getSnapshot env (List.length tr0) id) as [s | [c |] e];
      cbn [notFound]; try destruct (c =? 404)%Z; try discriminate.
    now intros [= <- _]. }
  rewrite shouldRecreate_spec. unfold replacement_required, imported_baseline.
  rewrite Himg, Hempty. cbn [ValueString].
  split; [| tauto].
  intros [H | [H | [H | [H | [Hdiff Hnot]]]]]; try tauto.
  exfalso. apply Hnot. split; [reflexivity |].
  intros ->. now apply Hdiff.
Qed.

End MoreProperties.

(** ** The timestamp separates seconds *)

Lemma append_inj_length (a a' b b' : string) :
  String.length a = String.length a' -> a ++ b = a' ++ b' -> a = a' /\ b = b'.
Proof.
  revert a'. induction a as [|c a IH]; intros [|c' a'] Hlen Heq;
    try discriminate; [now split |].
  cbn in Hlen, Heq. injection Heq as -> Heq. injection Hlen as Hlen.
  destruct (IH a' Hlen Heq) as [-> ->]. now split.
Qed.

Lemma append_same_head (a b b' : string) : a ++ b = a ++ b' -> b = b'.
Proof. intros H. now apply (append_inj_length a a b b' eq_refl). Qed.

Lemma digit_inj (d d' : nat) : d < 10 -> d' < 10 -> digit d = digit d' -> d = d'.
Proof.
  intros Hd Hd' H. apply (f_equal nat_of_ascii) in H. unfold digit in H.
  rewrite !nat_ascii_embedding in H by lia. lia.
Qed.

Lemma single_char_inj (c c' : ascii) :
  String c EmptyString = String c' EmptyString -> c = c'.
Proof. now intros [= ->]. Qed.

Lemma fixed_digits_inj (w u v : nat) :
  u < 10 ^ w -> v < 10 ^ w -> fixed_digits w u = fixed_digits w v -> u = v.
Proof.
  revert u v. induction w as [|w IH]; intros u v Hu Hv H.
  - rewrite Nat.pow_0_r in Hu, Hv. lia.
  - cbn [fixed_digits] in H. rewrite Nat.pow_succ_r' in Hu, Hv.
    apply append_inj_length in H as [Hhigh Hlow];
      [| now rewrite !fixed_digits_length].
    apply single_char_inj in Hlow.
    apply digit_inj in Hlow; try (apply Nat.mod_upper_bound; discriminate).
    apply IH in Hhigh; try (apply Nat.Div0.div_lt_upper_bound; assumption).
    pose proof (Nat.div_mod_eq u 10) as Eu.
    pose proof (Nat.div_mod_eq v 10) as Ev.
    rewrite Hhigh, Hlow in Eu. congruence.
Qed.

Lemma timestamp_inj (t1 t2 : Time) :
  civil t1 -> civil t2 ->
  Format_20060102150405 t1 = Format_20060102150405 t2 ->
  year t1 = year t2 /\ month t1 = month t2 /\ day t1 = day t2
  /\ hour t1 = hour t2 /\ minute t1 = minute t2 /\ second t1 = second t2.
Proof.
  intros Hc1 Hc2. rewrite (timestamp_fixed t1 Hc1), (timestamp_fixed t2 Hc2).
  destruct Hc1 as (Hy1 & Hmo1 & Hd1 & Hh1 & Hmi1 & Hs1).
  destruct Hc2 as (Hy2 & Hmo2 & Hd2 & Hh2 & Hmi2 & Hs2).
  rewrite !Zabs2Nat.id. intros H.
  apply append_inj_length in H as [Hy H]; [| now rewrite !fixed_digits_length].
  apply append_inj_length in H as [Hmo H]; [| now rewrite !fixed_digits_length].
  apply append_inj_length in H as [Hd H]; [| now rewrite !fixed_digits_length].
  apply append_inj_length in H as [Hh H]; [| now rewrite !fixed_digits_length].
  apply append_inj_length in H as [Hmi Hs]; [| now rewrite !fixed_digits_length].
  apply fixed_digits_inj in Hy, Hmo, Hd, Hh, Hmi, Hs;
    try (apply nat_below_power; rewrite ?Zabs2Nat.id_abs;
         change (10 ^ Z.of_nat 2)%Z with 100%Z;
         change (10 ^ Z.of_nat 4)%Z with 10000%Z; lia).
  repeat split; try assumption. lia.
Qed.

(** X18.  Two publish calls for the same local image under the same grant
    get the same target reference exactly when their clock readings agree
    in year, month, day, hour, minute and second: readings in different
    seconds give different references, readings within one second collide. *)
Theorem target_reference_separates_seconds (R P L : string) (t1 t2 : Time) :
  civil t1 -> civil t2 ->
  (targetImageName R P L t1 = targetImageName R P L t2
   <-> year t1 = year t2 /\ month t1 = month t2 /\ day t1 = day t2
       /\ hour t1 = hour t2 /\ minute t1 = minute t2 /\ second t1 = second t2).
Proof.
  intros Hc1 Hc2. split.
  - unfold targetImageName. intros H.
    do 6 apply append_same_head in H. now apply timestamp_inj.
  - intros (Hy & Hmo & Hd & Hh & Hmi & Hs). unfold targetImageName.
    do 6 f_equal. unfold Format_20060102150405.
    now rewrite Hy, Hmo, Hd, Hh, Hmi, Hs.
Qed.

(** ** The base name of the target reference *)

Lemma before_first_without (sep : ascii) (s : string) :
  occurs sep s = false -> before_first sep s = s.
Proof.
  induction s as [|c s IH]; cbn; [reflexivity |].
  intros H. apply orb_false_iff in H as [Hc Hs]. now rewrite Hc, IH.
Qed.

Lemma before_first_cut (sep : ascii) (s rest : string) :
  occurs sep s = false -> before_first sep (s ++ String sep rest) = s.
Proof.
  induction s as [|c s IH]; cbn.
  - now rewrite Ascii.eqb_refl.
  - intros H. apply orb_false_iff in H as [Hc Hs]. now rewrite Hc, IH.
Qed.

Lemma occurs_append (sep : ascii) (a b : string) :
  occurs sep (a ++ b) = occurs sep a || occurs sep b.
Proof.
  induction a as [|c a IH]; cbn; [reflexivity |]. now rewrite IH, orb_assoc.
Qed.

Lemma string_append_assoc (a b c : string) : (a ++ b) ++ c = a ++ b ++ c.
Proof. induction a as [|x a IH]; cbn; [reflexivity | now rewrite IH]. Qed.

Lemma last_segment_cut (sep : ascii) (path base : string) :
  occurs sep base = false -> last_segment sep (path ++ String sep base) = base.
Proof.
  intros Hb. induction path as [|c path IH]; cbn.
  - now rewrite Hb, Ascii.eqb_refl.
  - rewrite occurs_append. cbn. rewrite Ascii.eqb_refl, orb_true_r. exact IH.
Qed.

(** X19.  Only the base name of the local image enters the target
    reference.  For a base name without slash or colon, the target is the
    same whether the local image is named by the base name alone, with a
    tag, or with a colon-free path in front: the path and everything from
    the first colon on are dropped. *)
Theorem target_reference_drops_path_and_tag (R P path base tag : string) (now : Time) :
  occurs slash base = false ->
  occurs colon base = false ->
  occurs colon path = false ->
  let target :=
    R ++ "/" ++ P ++ "/" ++ base ++ ":" ++ Format_20060102150405 now in
  targetImageName R P base now = target
  /\ targetImageName R P (base ++ ":" ++ tag) now = target
  /\ targetImageName R P (path ++ "/" ++ base) now = target
  /\ targetImageName R P (path ++ "/" ++ base ++ ":" ++ tag) now = target.
Proof.
  intros Hsl Hco Hpath target. unfold targetImageName, target.
  rewrite !Split_first, !Split_last.
  assert (Hpb : occurs colon (path ++ "/" ++ base) = false).
  { rewrite occurs_append. cbn. now rewrite Hpath, Hco. }
  repeat split; do 4 f_equal.
  - now rewrite before_first_without, last_segment_without.
  - change (base ++ ":" ++ tag) with (base ++ String colon tag).
    now rewrite before_first_cut, last_segment_without.
  - rewrite before_first_without by exact Hpb.
    change (path ++ "/" ++ base) with (path ++ String slash base).
    now rewrite last_segment_cut.
  - replace (path ++ "/" ++ base ++ ":" ++ tag)
      with ((path ++ "/" ++ base) ++ String colon tag).
    + rewrite before_first_cut by exact Hpb.
      change (path ++ "/" ++ base) with (path ++ String slash base).
      now rewrite last_segment_cut.
    + rewrite !string_append_assoc. reflexivity.
Qed.

(** ** Provider configuration *)

(** X20.  [Configure] authenticates with the value of [DAYTONA_TOKEN] when
    that variable is not empty, whatever the configuration says, and with
    the configured token otherwise, a null or undetermined one counting as
    empty.  With an empty token it returns the single error "Missing API
    Token" and no client; otherwise it returns no diagnostic and a client
    for the fixed endpoint whose headers carry the bearer token and the
    organization id. *)
Theorem Configure_token_resolution (getenv : string -> string)
    (data : provider.DaytonaProviderModel) :
  let token :=
    if String.eqb (getenv "DAYTONA_TOKEN") ""
    then ValueString (provider.Token data)
    else getenv "DAYTONA_TOKEN" in
  (token = "" ->
   exists detail,
     provider.Configure getenv data
     = ([mkDiag SeverityError "Missing API Token" detail], None))
  /\ (token <> "" ->
      exists cfg,
        provider.Configure getenv data = ([], Some cfg)
        /\ provider.Servers cfg = ["https://app.daytona.io/api"]
        /\ provider.header (provider.DefaultHeader cfg) "Authorization"
           = Some ("Bearer " ++ token)
        /\ provider.header (provider.DefaultHeader cfg) "X-Daytona-Organization-ID"
           = Some (ValueString (provider.OrganizationID data))).
Proof.
  intros token.
  assert (Hres : provider.Configure getenv data
                 = if String.eqb token ""
                   then (AddError [] "Missing API Token"
                           ("The provider requires an API token to authenticate with Daytona. "
                            ++ "Set it in the provider configuration or use the DAYTONA_TOKEN environment variable."),
                         None)
                   else ([],
                         Some (provider.mkConfiguration ["https://app.daytona.io/api"]
                                 [("Authorization", "Bearer " ++ token);
                                  ("X-Daytona-Organization-ID",
                                   ValueString (provider.OrganizationID data))]))).
  { unfold provider.Configure, token.
    destruct (String.eqb (getenv "DAYTONA_TOKEN") "") eqn:Henv; cbn [andb].
    - apply String.eqb_eq in Henv. rewrite Henv.
      destruct (provider.Token data); reflexivity.
    - rewrite Henv. reflexivity. }
  rewrite Hres. split; intros Htok.
  - rewrite Htok. eexists. reflexivity.
  - apply String.eqb_neq in Htok. rewrite Htok. eexists.
    repeat split; reflexivity.
Qed.

(** ** The data source *)

(** X21.  The data source's [Read] looks the snapshot up by the configured
    name.  Every fetch error, a not-found one included, is the single error
    "Client Error" and nothing is persisted.  On success the record's id is
    the snapshot's; its name, cpu, gpu, memory, disk and creation time are
    what the resource's read would store, as are organization id, size and
    image name (stored by the resource as the remote image name) when the
    snapshot has them; the entrypoint is replaced only by a non-empty one. *)
Theorem datasource_Read_outcomes {F : Type} (env : Env F)
    (dtoEntrypoint : SnapshotDto F -> list string)
    (config : datasources.SnapshotDataSourceModel F) (tr : Trace) :
  let name := ValueString (datasources.Name config) in
  let fetched := (tr ++ [EvGetSnapshot name])%list in
  (forall status err,
      getSnapshot env (List.length tr) name = Err status err ->
      datasources.Read env dtoEntrypoint config tr
      = Some (([mkDiag SeverityError "Client Error"
                  ("Unable to read snapshot, got error: " ++ err)], None),
              fetched))
  /\ (forall s,
         getSnapshot env (List.length tr) name = Ok s ->
         exists data,
           datasources.Read env dtoEntrypoint config tr
           = Some (([], Some data), fetched)
           /\ datasources.Id data = Known (apiclient.Id s)
           /\ datasources.Entrypoint data
              = match dtoEntrypoint s with
                | [] => datasources.Entrypoint config
                | e :: es => Known (e :: es)
                end
           /\ forall r : Model F,
               datasources.Name data = Name (refreshFrom env r s)
               /\ datasources.Cpu data = Cpu (refreshFrom env r s)
               /\ datasources.Gpu data = Gpu (refreshFrom env r s)
               /\ datasources.Memory data = Memory (refreshFrom env r s)
               /\ datasources.Disk data = Disk (refreshFrom env r s)
               /\ datasources.CreatedAt data = CreatedAt (refreshFrom env r s)
               /\ (apiclient.OrganizationId s <> None ->
                   datasources.OrganizationId data
                   = OrganizationId (refreshFrom env r s))
               /\ (apiclient.Size s <> None ->
                   datasources.Size data = Size (refreshFrom env r s))
               /\ (apiclient.ImageName s <> None ->
                   datasources.ImageName data
                   = RemoteImageName (refreshFrom env r s))).
Proof.
  intros name fetched. split.
  - intros status err Hget. unfold datasources.Read. run. fold name.
    rewrite Hget. reflexivity.
  - intros s Hget. eexists. split; [| split; [| split]].
    + unfold datasources.Read. run. fold name. rewrite Hget. reflexivity.
    + reflexivity.
    + cbn. destruct (dtoEntrypoint s); reflexivity.
    + intros r. cbn. repeat split.
      * destruct (apiclient.OrganizationId s); [reflexivity | now intros []].
      * destruct (apiclient.Size s); [reflexivity | now intros []].
      * destruct (apiclient.ImageName s); [reflexivity | now intros []].
Qed.

(** ** Further worked runs *)

Lemma stale_cleanup_failure_example :
  exists tr',
    maybeCleanupExistingCreationAttempt envRemovalRefused 1 "test-snap" []
    = Some (([mkDiag SeverityWarning "Cleanup Warning"
                ("Failed to delete existing failed snapshot " ++ dquote
                 ++ "test-snap" ++ dquote ++ ": 403 Forbidden")], []), tr')
    /\ exists ext,
         tr' = ([EvGetSnapshot "test-snap";
                 EvLog "Found existing snapshot, deleting it";
                 EvRemoveSnapshot "snap-123"] ++ ext)%list.
Proof.
  eassert (H : maybeCleanupExistingCreationAttempt envRemovalRefused 1 "test-snap" []
               = Some ((_, _), _)) by (vm_compute; reflexivity).
  destruct (stale_cleanup_failure_is_a_warning envRemovalRefused 1 "test-snap"
              failedDto [] _ _ _ eq_refl H) as [_ [_ Hext]].
  eexists. split; [exact H | exact Hext].
Defined.

Lemma stale_cleanup_outage_example :
  cleanupLoop envOutage 40 "snap-123" [] []
    [EvGetSnapshot "test-snap"; EvLog "Found existing snapshot, deleting it";
     EvRemoveSnapshot "snap-123"]
  = None.
Proof.
  apply (stale_cleanup_polls_through_errors envOutage 40 "snap-123" [] []).
  - intros t _. reflexivity.
  - intros t Ht. cbn in Ht. destruct t as [|t]; [lia | reflexivity].
Defined.

Lemma ensureSnapshotAvailable_result_example :
  exists pre,
    ensureSnapshotAvailable envBecomesActive 3 "test-snap" []
    = Some ((Some activeDto, [], []), pre ++ [EvGetSnapshot "test-snap"])%list
    /\ getSnapshot envBecomesActive (List.length pre) "test-snap" = Ok activeDto.
Proof.
  eassert (H : ensureSnapshotAvailable envBecomesActive 3 "test-snap" []
               = Some ((_, _, _), _)) by (vm_compute; reflexivity).
  destruct (ensureSnapshotAvailable_result envBecomesActive 3 "test-snap" [] _ _ _ _ H)
    as [_ [[_ [s [pre [Hs [_ [Htr Hget]]]]]] | [detail Hbad]]]; [| discriminate Hbad].
  injection Hs as <-. exists pre. split; [| exact Hget].
  rewrite H. now rewrite Htr.
Defined.

Lemma availability_no_retry_limit_example :
  ensureSnapshotAvailable envBuilding 40 "test-snap" [] = None.
Proof.
  apply (availability_has_no_retry_limit envBuilding 40 "test-snap" []).
  - intros t _. reflexivity.
  - intros t _. exists buildingDto. repeat split; discriminate.
Defined.


Lemma Delete_result_example :
  exists pre,
    Delete envLingers 2 state0 []
    = Some ([], pre ++ [EvGetSnapshot "snap-123";
                        EvLog "Snapshot successfully deleted"])%list
    /\ notFound (getSnapshot envLingers (List.length pre) "snap-123") = true.
Proof.
  eassert (H : Delete envLingers 2 state0 [] = Some (_, _))
    by (vm_compute; reflexivity).
  destruct (Delete_result envLingers 2 state0 [] _ _ eq_refl H)
    as [_ [[_ [[Hone _] | [pre [Htr Hnf]]]] | [sm [dt [Hbad _]]]]];
    [discriminate Hone | | discriminate Hbad].
  exists pre. split; [| exact Hnf]. rewrite H. now rewrite Htr.
Defined.

Lemma Delete_confirms_removal_example :
  exists tr', Delete envLingers 2 state0 [] = Some ([], tr').
Proof.
  apply (Delete_confirms_removal envLingers 1 0 state0 []).
  - reflexivity.
  - reflexivity.
  - intros i Hi. reflexivity.
  - intros i Hi. assert (i = 0) by lia. subst. now exists activeDto.
  - reflexivity.
Defined.

Lemma Delete_no_retry_limit_example : Delete envActive 40 state0 [] = None.
Proof.
  apply (Delete_has_no_retry_limit envActive 40 state0 []).
  - reflexivity.
  - reflexivity.
  - intros t _. reflexivity.
  - intros t _. now exists activeDto.
Defined.

Lemma pushImageToRegistry_result_example :
  pushImageToRegistry envManifestLate 2 "myapp:latest" []
  = Some (("registry.example/proj/myapp:20250307090501", [], []),
          [EvGetTransientPushAccess; EvImageInspect "myapp:latest"; EvTimeNow;
           EvImageTag "myapp:latest" "registry.example/proj/myapp:20250307090501";
           EvImagePush "registry.example/proj/myapp:20250307090501"
             "robot:s3cret@registry.example";
           EvCopyPushOutput]
          ++ failedProbes "registry.example/proj/myapp:20250307090501"
               "robot:s3cret@registry.example" 1
          ++ [EvDistributionInspect "registry.example/proj/myapp:20250307090501"
                "robot:s3cret@registry.example";
              EvPushReaderClose])%list.
Proof.
  eassert (H : pushImageToRegistry envManifestLate 2 "myapp:latest" []
               = Some ((_, _, _), _)) by (vm_compute; reflexivity).
  destruct (pushImageToRegistry_result envManifestLate 2 "myapp:latest" [] _ _ _ _ H)
    as [_ [[_ [tok [enc [k [Htok [Henc [_ [Htr [Hfail Hnone]]]]]]]]] | [sm [dt Hbad]]]];
    [| discriminate Hbad].
  injection Htok as <-. injection Henc as <-.
  destruct k as [|[|k]].
  - discriminate Hnone.
  - rewrite H. now rewrite Htr.
  - now elim (Hfail 1 ltac:(lia)).
Defined.

Lemma pushImageToRegistry_missing_image_example :
  pushImageToRegistry envNoLocalImage 0 "myapp:latest" []
  = Some (("", [],
           [mkDiag SeverityError "Image Not Found"
              ("Local image " ++ dquote ++ "myapp:latest" ++ dquote
               ++ " not found: No such image")]),
          [EvGetTransientPushAccess; EvImageInspect "myapp:latest"]).
Proof.
  exact (pushImageToRegistry_missing_image envNoLocalImage 0 "myapp:latest" []
           pushAccess0 "robot:s3cret@registry.example" "No such image"
           eq_refl eq_refl eq_refl).
Defined.

Lemma manifest_polling_example :
  manifestLoop envManifestMissing 40
    "registry.example/proj/myapp:20250307090501" "robot:s3cret@registry.example"
    [] [] []
  = None.
Proof.
  apply (manifest_polling_has_no_retry_limit envManifestMissing 40).
  - intros n _. reflexivity.
  - intros n _. discriminate.
Defined.

Lemma Create_result_example :
  exists s target pre,
    apiclient.State s = apiclient.SNAPSHOTSTATE_ACTIVE
    /\ getSnapshot envUntagFails (List.length pre) "test-snap" = Ok s
    /\ Create envUntagFails 1 plan0 []
       = Some (([], Some (populateFrom envUntagFails plan0 s)),
               pre ++ [EvGetSnapshot "test-snap"; EvImageRemove target;
                       EvDockerClose])%list.
Proof.
  eassert (H : Create envUntagFails 1 plan0 [] = Some ((_, _), _))
    by (vm_compute; reflexivity).
  destruct (Create_result envUntagFails 1 plan0 [] _ _ _ H)
    as [warns [_ [[Hnone _]
                 | [Hd [s [target [request [pre
                      [Hact [Hget [Hp [_ [_ [Htr _]]]]]]]]]]]]]];
    [discriminate Hnone |].
  exists s, target, pre. split; [exact Hact |]. split; [exact Hget |].
  rewrite H. now rewrite Hp, Htr.
Defined.

Lemma Update_keep_remotely_example :
  exists res ext,
    Update envReplaceKept 1 planKeep state0 []
    = Some (res,
            [EvLog "Skipping old snapshot deletion during recreation due to keep_remotely=true";
             EvGetSnapshot "test-snap";
             EvLog "Found existing snapshot, deleting it";
             EvRemoveSnapshot "snap-123"] ++ ext)%list.
Proof.
  eassert (H : Update envReplaceKept 1 planKeep state0 [] = Some (_, _))
    by (vm_compute; reflexivity).
  destruct (Update_keep_remotely_still_removes_namesake envReplaceKept 1 planKeep
              state0 activeDto [] _ _ eq_refl eq_refl eq_refl H) as [ext Hext].
  eexists. exists ext. rewrite H. now rewrite Hext.
Defined.

Lemma Update_stops_example :
  Update envDown 0 planResize state0 []
  = Some (([mkDiag SeverityError "Client Error"
              "Unable to delete snapshot, got error: connection refused"], None),
          [EvRemoveSnapshot "snap-123"]).
Proof.
  exact (Update_stops_when_old_delete_fails envDown 0 planResize state0 []
           [] []
           [mkDiag SeverityError "Client Error"
              "Unable to delete snapshot, got error: connection refused"]
           [EvRemoveSnapshot "snap-123"] eq_refl eq_refl eq_refl eq_refl).
Defined.

Lemma Update_in_place_example :
  Update envActive 0 planSame state0 []
  = Read envActive (withId planSame (Known "snap-123")) [].
Proof. exact (Update_in_place_is_Read envActive 0 planSame state0 [] eq_refl). Defined.

Lemma Read_is_stable_example :
  Read envActive (populateFrom envActive plan0 activeDto) []
  = Some (([], Some (populateFrom envActive plan0 activeDto)),
          [EvGetSnapshot "snap-123"]).
Proof.
  exact (proj1 (Read_is_stable envActive activeDto [] (fun _ => eq_refl)) plan0).
Defined.

Lemma Update_after_import_example :
  shouldRecreate plan0
    (mkModel (Known "snap-123") (Known "test-snap") (Known "")
       (Known "registry.example/proj/myapp:20250307090501") (Known "org-1")
       (Known 1024%Z) (Known 2%Z) (Known 0%Z) (Known 4%Z) (Known 10%Z)
       (Known "2025-03-07T09:05:01Z") (Known false))
  = false.
Proof.
  apply not_true_iff_false.
  rewrite (Update_after_import envActive "snap-123" [] [EvGetSnapshot "snap-123"]
             _ plan0 "myapp:latest" eq_refl eq_refl).
  cbn. intros [H | [H | [H | H]]]; now apply H.
Defined.

Lemma target_reference_seconds_example :
  targetImageName "registry.example" "proj" "myapp:latest" clock0
  <> targetImageName "registry.example" "proj" "myapp:latest" clock1.
Proof.
  intros H.
  apply (target_reference_separates_seconds "registry.example" "proj"
           "myapp:latest" clock0 clock1) in H.
  - destruct H as (_ & _ & _ & _ & _ & Hs). discriminate Hs.
  - unfold civil, clock0; cbn; lia.
  - unfold civil, clock1; cbn; lia.
Defined.

Lemma target_reference_base_example :
  targetImageName "registry.example" "proj" "ghcr.io/acme/myapp:1.2" clock0
  = "registry.example/proj/myapp:20250307090501"
  /\ targetImageName "registry.example" "proj" "myapp" clock0
     = "registry.example/proj/myapp:20250307090501".
Proof.
  destruct (target_reference_drops_path_and_tag "registry.example" "proj"
              "ghcr.io/acme" "myapp" "1.2" clock0 eq_refl eq_refl eq_refl)
    as [H1 [_ [_ H4]]].
  split; [exact H4 | exact H1].
Defined.

(** ** Cancellation, replacement after creation, and the successful run *)

Ltac ticks :=
  repeat rewrite length_app; cbn [List.length];
  repeat rewrite <- Nat.add_assoc; cbn [Nat.add].

Section Scenarios.

Context {F : Type}.
Variable env : Env F.

(** X22.  Cancellation is checked before anything is fetched or probed.
    When the request is already cancelled as a round begins, the
    availability poller, the deletion-confirmation loop and the
    manifest-readiness loop each return at once, without a call, a single
    error that quotes the cancellation cause; the availability poller
    returns no record with it. *)
Theorem cancellation_ends_polling (fuel : nat) (name target auth : string)
    (tr : Trace) :
  ctxDone env (List.length tr) = true ->
  let cause := ctxErr env (List.length tr) in
  ensureSnapshotAvailable env (S fuel) name tr
  = Some ((None, [],
           [mkDiag SeverityError "Snapshot Availability Error"
              ("Cancelled during waiting for snapshot to become available: "
               ++ cause)]), tr)
  /\ deletionLoop env (S fuel) name [] [] [] tr
     = Some (([], [],
              [mkDiag SeverityError "Deletion Error"
                 ("Cancelled while waiting for snapshot deletion: " ++ cause)]), tr)
  /\ manifestLoop env (S fuel) target auth [] [] tr
     = Some ((target, [],
              [mkDiag SeverityError "Image Availability Error"
                 ("Cancelled during waiting for image to become available: "
                  ++ cause)]), tr).
Proof.
  intros Hctx cause. unfold ensureSnapshotAvailable.
  rewrite (availabilityLoop_cancelled _ _ _ _ _ _ Hctx),
    (deletionLoop_cancelled _ _ _ _ _ _ _ Hctx),
    (manifestLoop_cancelled _ _ _ _ _ _ _ Hctx).
  repeat split.
Qed.

(** X23.  Re-applying the plan a record was created from replaces the
    snapshot exactly when the platform reported a name, cpu, memory or disk
    other than the planned one: the record stores the reported values, and
    the local image reference, kept from the plan, never differs. *)
Theorem Update_after_create (plan : Model F) (s : SnapshotDto F) :
  shouldRecreate plan (populateFrom env plan s) = true
  <-> Name plan <> Known (apiclient.Name s)
      \/ Cpu plan <> Known (int32 env (apiclient.Cpu s))
      \/ Memory plan <> Known (int32 env (apiclient.Mem s))
      \/ Disk plan <> Known (int32 env (apiclient.Disk s)).
Proof.
  rewrite shouldRecreate_spec. unfold replacement_required. cbn.
  split; [| tauto].
  intros [H | [H | [H | [H | [H _]]]]]; tauto.
Qed.

Lemma maybeCleanup_absent (fuel : nat) (name err : string) (tr : Trace) :
  getSnapshot env (List.length tr) name = Err (Some 404%Z) err ->
  maybeCleanupExistingCreationAttempt env fuel name tr
  = Some (([], []), (tr ++ [EvGetSnapshot name])%list).
Proof.
  intros Hget. unfold maybeCleanupExistingCreationAttempt. run.
  now rewrite Hget.
Qed.

Lemma pushImageToRegistry_first_probe (fuel : nat) (L : string) (tr : Trace)
    (tok : apiclient.RegistryPushAccessDto) (enc : string) :
  let n := List.length tr in
  let auth := base64URL env enc in
  let target :=
    targetImageName (apiclient.RegistryUrl tok) (apiclient.Project tok) L
      (timeNow env (n + 2)) in
  getTransientPushAccess env n = Ok tok ->
  jsonMarshal env
    (mkAuthConfig (apiclient.Username tok) (apiclient.Secret tok)
                  (apiclient.RegistryUrl tok)) = inl enc ->
  imageInspect env (n + 1) L = None ->
  imageTag env (n + 3) L target = None ->
  imagePush env (n + 4) target auth = None ->
  copyPushOutput env (n + 5) = None ->
  ctxDone env (n + 6) = false ->
  distributionInspect env (n + 6) target auth = None ->
  pushImageToRegistry env (S fuel) L tr
  = Some ((target, [], []),
          (tr ++ [EvGetTransientPushAccess; EvImageInspect L; EvTimeNow;
                  EvImageTag L target; EvImagePush target auth;
                  EvCopyPushOutput; EvDistributionInspect target auth;
                  EvPushReaderClose])%list).
Proof.
  intros n auth target Htok Henc Hins Htag Hpush Hcopy Hctx Hprobe.
  unfold pushImageToRegistry. run. fold n. rewrite Htok, Henc. run.
  ticks. fold n. rewrite Hins. run. ticks. fold n. fold target.
  rewrite Htag. run. ticks. fold n. fold auth. rewrite Hpush. run.
  ticks. fold n. rewrite Hcopy.
  rewrite manifestLoop_round by (ticks; exact Hctx).
  ticks. fold n. rewrite Hprobe. run.
  rewrite <- !app_assoc. reflexivity.
Qed.

Lemma registerSnapshot_accepted (data : Model F) (target : string) (tr : Trace) :
  let request :=
    apiclient.mkCreateSnapshot (ValueString (Name data)) (Some target)
      (if IsNull (Cpu data) then None else Some (ValueInt32 (Cpu data)))
      (if IsNull (Memory data) then None else Some (ValueInt32 (Memory data)))
      (if IsNull (Disk data) then None else Some (ValueInt32 (Disk data))) in
  apiCreateSnapshot env (List.length tr) request = Ok tt ->
  registerSnapshot env data target tr
  = Some (([], []), (tr ++ [EvCreateSnapshot request])%list).
Proof.
  intros request Hreg. unfold registerSnapshot. run.
  cbn [apiclient.NewCreateSnapshot apiclient.req_Name]. fold request.
  now rewrite Hreg.
Qed.

(** X24.  The successful run of [Create].  With no leftover under the name,
    a Docker client, a push-access grant, an existing local image, and
    tagging, push, first manifest probe, registration and first poll all
    succeeding while the request is live, [Create] returns no diagnostic
    and persists the plan populated from the active snapshot, after exactly
    fourteen calls, whatever the removal of the local tag answers. *)
Theorem Create_successful_run (fuel : nat) (plan : Model F) (tr : Trace)
    (err : string) (tok : apiclient.RegistryPushAccessDto) (enc : string)
    (s : SnapshotDto F) :
  let n := List.length tr in
  let name := ValueString (Name plan) in
  let L := ValueString (ImageName plan) in
  let auth := base64URL env enc in
  let target :=
    targetImageName (apiclient.RegistryUrl tok) (apiclient.Project tok) L
      (timeNow env (n + 4)) in
  let request :=
    apiclient.mkCreateSnapshot name (Some target)
      (if IsNull (Cpu plan) then None else Some (ValueInt32 (Cpu plan)))
      (if IsNull (Memory plan) then None else Some (ValueInt32 (Memory plan)))
      (if IsNull (Disk plan) then None else Some (ValueInt32 (Disk plan))) in
  getSnapshot env n name = Err (Some 404%Z) err ->
  newDockerClient env (n + 1) = None ->
  getTransientPushAccess env (n + 2) = Ok tok ->
  jsonMarshal env
    (mkAuthConfig (apiclient.Username tok) (apiclient.Secret tok)
                  (apiclient.RegistryUrl tok)) = inl enc ->
  imageInspect env (n + 3) L = None ->
  imageTag env (n + 5) L target = None ->
  imagePush env (n + 6) target auth = None ->
  copyPushOutput env (n + 7) = None ->
  ctxDone env (n + 8) = false ->
  distributionInspect env (n + 8) target auth = None ->
  apiCreateSnapshot env (n + 10) request = Ok tt ->
  ctxDone env (n + 11) = false ->
  getSnapshot env (n + 11) name = Ok s ->
  apiclient.State s = apiclient.SNAPSHOTSTATE_ACTIVE ->
  Create env (S fuel) plan tr
  = Some (([], Some (populateFrom env plan s)),
          (tr ++ [EvGetSnapshot name; EvNewDockerClient;
                  EvGetTransientPushAccess; EvImageInspect L; EvTimeNow;
                  EvImageTag L target; EvImagePush target auth;
                  EvCopyPushOutput; EvDistributionInspect target auth;
                  EvPushReaderClose; EvCreateSnapshot request;
                  EvGetSnapshot name; EvImageRemove target;
                  EvDockerClose])%list).
Proof.
  intros n name L auth target request
    Habsent Hdocker Htok Henc Hins Htag Hpush Hcopy Hctx1 Hprobe
    Hreg Hctx2 Hget Hact.
  unfold Create, createSnapshot. fold name L.
  unfold bind at 1. unfold bind at 1.
  rewrite (maybeCleanup_absent _ _ _ _ Habsent).
  cbv zeta. rewrite !Append_nothing. cbn [HasError existsb].
  unfold bind at 1. unfold call at 1. ticks. fold n. rewrite Hdocker.
  unfold bind at 1. unfold bind at 1.
  rewrite (pushImageToRegistry_first_probe fuel L _ tok enc);
    ticks; fold n; try assumption.
  fold auth target. cbv zeta. rewrite !Append_nothing. cbn [HasError existsb].
  unfold bind at 1. unfold createSnapshotTail. fold name.
  unfold bind at 1.
  match goal with
  | |- context [registerSnapshot env plan target ?t] =>
      rewrite (registerSnapshot_accepted plan target t) by (ticks; exact Hreg)
  end.
  fold name request. cbv beta iota zeta.
  rewrite !Append_nothing. cbn [HasError existsb].
  unfold ensureSnapshotAvailable. unfold bind at 1.
  rewrite availabilityLoop_unfold by (ticks; exact Hctx2).
  ticks. fold n. rewrite Hget. unfold state_is. rewrite Hact, String.eqb_refl.
  cbv beta iota zeta. rewrite !Append_nothing. cbn [HasError existsb].
  unfold ret at 1.
  match goal with
  | |- context [untagDeferred env target ?fr ?t] =>
      destruct (untagDeferred_results env target fr t) as [fr' [Hrun Hsame]];
      rewrite Hrun
  end.
  run. rewrite Hsame. unfold frameResults, persistUnlessError, appendPhase.
  cbn [fr_data fr_warns fr_errs Append fold_left HasError existsb].
  rewrite <- !app_assoc. reflexivity.
Qed.

End Scenarios.

Lemma cancellation_ends_polling_example :
  ensureSnapshotAvailable envCancelledDuringCleanup 1 "test-snap"
    [EvGetSnapshot "test-snap"; EvLog "Found existing snapshot, deleting it";
     EvRemoveSnapshot "snap-123"]
  = Some ((None, [],
           [mkDiag SeverityError "Snapshot Availability Error"
              "Cancelled during waiting for snapshot to become available: context canceled"]),
          [EvGetSnapshot "test-snap"; EvLog "Found existing snapshot, deleting it";
           EvRemoveSnapshot "snap-123"]).
Proof.
  exact (proj1 (cancellation_ends_polling envCancelledDuringCleanup 0 "test-snap"
                  "" ""
                  [EvGetSnapshot "test-snap";
                   EvLog "Found existing snapshot, deleting it";
                   EvRemoveSnapshot "snap-123"] eq_refl)).
Defined.

Lemma Create_successful_run_example :
  Create envUntagFails 1 plan0 []
  = Some (([], Some (populateFrom envUntagFails plan0 activeDto)),
          [EvGetSnapshot "test-snap"; EvNewDockerClient;
           EvGetTransientPushAccess; EvImageInspect "myapp:latest"; EvTimeNow;
           EvImageTag "myapp:latest" "registry.example/proj/myapp:20250307090501";
           EvImagePush "registry.example/proj/myapp:20250307090501"
             "robot:s3cret@registry.example";
           EvCopyPushOutput;
           EvDistributionInspect "registry.example/proj/myapp:20250307090501"
             "robot:s3cret@registry.example";
           EvPushReaderClose;
           EvCreateSnapshot
             (apiclient.mkCreateSnapshot "test-snap"
                (Some "registry.example/proj/myapp:20250307090501")
                (Some 2%Z) (Some 4%Z) (Some 10%Z));
           EvGetSnapshot "test-snap";
           EvImageRemove "registry.example/proj/myapp:20250307090501";
           EvDockerClose]).
Proof.
  exact (Create_successful_run envUntagFails 0 plan0 [] "404 Not Found"
           pushAccess0 "robot:s3cret@registry.example" activeDto
           eq_refl eq_refl eq_refl eq_refl eq_refl eq_refl eq_refl eq_refl
           eq_refl eq_refl eq_refl eq_refl eq_refl eq_refl).
Defined.

(** X25.  The availability poller does return: when the snapshot is seen
    in a state that is neither active nor failed by the first [k] fetches
    and active by the next, the request staying live, fuel for [k + 1]
    rounds gives that record and no diagnostic. *)
Theorem ensureSnapshotAvailable_returns_when_active {F : Type} (env : Env F)
    (k fuel : nat) (name : string) (snapshot : SnapshotDto F) (tr : Trace) :
  (forall i, i <= k -> ctxDone env (List.length tr + 3 * i) = false) ->
  (forall i, i < k ->
     exists s, getSnapshot env (List.length tr + 3 * i) name = Ok s
               /\ apiclient.State s <> apiclient.SNAPSHOTSTATE_ACTIVE
               /\ apiclient.State s <> apiclient.SNAPSHOTSTATE_ERROR
               /\ apiclient.State s <> apiclient.SNAPSHOTSTATE_BUILD_FAILED) ->
  getSnapshot env (List.length tr + 3 * k) name = Ok snapshot ->
  apiclient.State snapshot = apiclient.SNAPSHOTSTATE_ACTIVE ->
  exists tr',
    ensureSnapshotAvailable env (S k + fuel) name tr
    = Some ((Some snapshot, [], []), tr').
Proof. apply availability_reaches_active. Qed.

Lemma ensureSnapshotAvailable_returns_example :
  exists tr',
    ensureSnapshotAvailable envBecomesActive 3 "test-snap" []
    = Some ((Some activeDto, [], []), tr').
Proof.
  apply (ensureSnapshotAvailable_returns_when_active envBecomesActive 2 0
           "test-snap" activeDto []).
  - intros i Hi. reflexivity.
  - intros i Hi. exists buildingDto.
    assert (Hi' : i = 0 \/ i = 1) by lia.
    destruct Hi' as [-> | ->]; repeat split; discriminate.
  - reflexivity.
  - reflexivity.
Defined.
